(** * Dream3DForge generation services: a shallow embedding

    The TypeScript services of the repository (the response helpers of
    [services/utils/aiHelpers.ts], the prompt registry of
    [services/promptRegistry.ts] and the phases of
    [services/geminiService.ts]) as Rocq functions, and the properties of
    the specification proved about them.

    Conventions.
    - A JavaScript string is its sequence of UTF-16 code units, [list N].
    - A call that may throw or log runs in the monad [M]: it takes the
      world (the caller's objects and the console) and gives a completion
      and the world afterwards.
    - The provider ([ai.models.generateContent]) is an oracle from the
      request to its answer. *)

From Stdlib Require Import List String Ascii NArith ZArith Bool Lia.
From stdpp Require Import base option list gmap.
Import ListNotations.

Local Open Scope list_scope.
Local Open Scope Z_scope.

(** ** JavaScript strings *)

Module JsString.

(** A code unit, and a string. *)
Abbreviation char := N (only parsing).
Abbreviation jsstring := (list N) (only parsing).

Definition ch (a : ascii) : char := N_of_ascii a.

(** A literal of the source, code unit by code unit. *)
Definition lit (s : string) : jsstring := List.map N_of_ascii (list_ascii_of_string s).

(** The double quote, which a literal of this file cannot hold. *)
Definition dq : jsstring := [34%N].

Definition is_digit (c : char) : bool := ((48 <=? c) && (c <=? 57))%N.
Definition is_lower (c : char) : bool := ((97 <=? c) && (c <=? 122))%N.
Definition is_upper (c : char) : bool := ((65 <=? c) && (c <=? 90))%N.

(** [WhiteSpace] and [LineTerminator] of ECMAScript: what [\s] matches and
    what [trim] strips. *)
Definition is_js_space (c : char) : bool :=
  (((9 <=? c) && (c <=? 13)) || (c =? 32) || (c =? 160) || (c =? 5760)
   || ((8192 <=? c) && (c <=? 8202)) || (c =? 8232) || (c =? 8233)
   || (c =? 8239) || (c =? 8287) || (c =? 12288) || (c =? 65279))%N.

(** [[A-Za-z0-9+/=]] *)
Definition is_base64 (c : char) : bool :=
  (is_upper c || is_lower c || is_digit c
   || (c =? 43) || (c =? 47) || (c =? 61))%N.

(** [Canonicalize] of a code unit under the [i] flag (no [u] flag): only an
    ASCII letter folds to an ASCII capital. *)
Definition canonicalize (c : char) : char :=
  if is_lower c then (c - 32)%N else c.

Fixpoint eqb (a b : jsstring) : bool :=
  match a, b with
  | [], [] => true
  | x :: a', y :: b' => (x =? y)%N && eqb a' b'
  | _, _ => false
  end.

Fixpoint starts_with (p s : jsstring) : bool :=
  match p, s with
  | [], _ => true
  | _ :: _, [] => false
  | a :: p', b :: s' => (a =? b)%N && starts_with p' s'
  end.

Fixpoint starts_with_ci (p s : jsstring) : bool :=
  match p, s with
  | [], _ => true
  | _ :: _, [] => false
  | a :: p', b :: s' => (canonicalize a =? canonicalize b)%N && starts_with_ci p' s'
  end.

(** [hay.indexOf(needle)], counting from [i]; [-1] when absent. *)
Fixpoint indexOf_from (needle hay : jsstring) (i : Z) : Z :=
  match hay with
  | [] => if starts_with needle [] then i else -1
  | _ :: t => if starts_with needle hay then i else indexOf_from needle t (i + 1)
  end.

Definition indexOf (hay needle : jsstring) : Z := indexOf_from needle hay 0.

(** [hay.lastIndexOf(needle)]: the last position found while scanning. *)
Fixpoint lastIndexOf_from (needle hay : jsstring) (i found : Z) : Z :=
  let found' := if starts_with needle hay then i else found in
  match hay with
  | [] => found'
  | _ :: t => lastIndexOf_from needle t (i + 1) found'
  end.

Definition lastIndexOf (hay needle : jsstring) : Z := lastIndexOf_from needle hay 0 (-1).

(** [s.substring(start, end)]: both ends clamped to the string, swapped
    when out of order. *)
Definition substring (s : jsstring) (start end_ : Z) : jsstring :=
  let len := Z.of_nat (length s) in
  let clamp x := Z.min (Z.max x 0) len in
  let a := clamp start in
  let b := clamp end_ in
  let lo := Z.min a b in
  let hi := Z.max a b in
  firstn (Z.to_nat (hi - lo)) (skipn (Z.to_nat lo) s).

Definition includes (hay needle : jsstring) : bool :=
  negb (indexOf hay needle =? -1).

Fixpoint drop_space (s : jsstring) : jsstring :=
  match s with
  | [] => []
  | c :: t => if is_js_space c then drop_space t else s
  end.

Definition trim (s : jsstring) : jsstring :=
  rev (drop_space (rev (drop_space s))).

(** [GetSubstitution] for a string pattern (no captures): [$$] is a dollar,
    [$&] the matched text, [$`] the text before the match, [$'] the text
    after it; any other dollar stands for itself. *)
Fixpoint GetSubstitution (matched before after template : jsstring) : jsstring :=
  match template with
  | [] => []
  | c :: t =>
      if (c =? 36)%N then
        match t with
        | [] => [c]
        | d :: t' =>
            if (d =? 36)%N then 36%N :: GetSubstitution matched before after t'
            else if (d =? 38)%N then matched ++ GetSubstitution matched before after t'
            else if (d =? 96)%N then before ++ GetSubstitution matched before after t'
            else if (d =? 39)%N then after ++ GetSubstitution matched before after t'
            else c :: GetSubstitution matched before after t
        end
      else c :: GetSubstitution matched before after t
  end.

(** [s.replace(pattern, replacement)] with a string pattern: the first
    occurrence only, the replacement read as a template. *)
Definition replace (s pattern replacement : jsstring) : jsstring :=
  let pos := indexOf s pattern in
  if pos =? -1 then s
  else
    let before := firstn (Z.to_nat pos) s in
    let after := skipn (Z.to_nat pos + length pattern) s in
    before ++ GetSubstitution pattern before after replacement ++ after.

(** [s.replace(regexp, rep)] with the [g] flag and a replacement without
    dollar: [m] tells, for the text at the scanning position, the length
    of the match starting there. [skip] counts the characters of a match
    still to be dropped. *)
Fixpoint replace_all_from (m : jsstring -> option nat) (rep : jsstring)
    (skip : nat) (s : jsstring) : jsstring :=
  match s with
  | [] =>
      match skip, m [] with
      | O, Some _ => rep
      | _, _ => []
      end
  | c :: t =>
      match skip with
      | S k => replace_all_from m rep k t
      | O =>
          match m s with
          | Some (S n) => rep ++ replace_all_from m rep n t
          | Some O => rep ++ c :: replace_all_from m rep 0 t
          | None => c :: replace_all_from m rep 0 t
          end
      end
  end.

Definition replace_all (m : jsstring -> option nat) (rep s : jsstring) : jsstring :=
  replace_all_from m rep 0 s.

(** [parts.join(sep)] *)
Fixpoint join (sep : jsstring) (parts : list jsstring) : jsstring :=
  match parts with
  | [] => []
  | [p] => p
  | p :: rest => p ++ sep ++ join sep rest
  end.

End JsString.
Export JsString.

(** ** The two patterns of the context compressor

    Each regular expression of [compressCodeForContext] is read as a
    deterministic automaton run from the scanning position; the match is
    the longest accepted prefix. Neither pattern leaves a choice to the
    backtracking matcher of JavaScript: in the first, a repeated class
    never holds the character that follows it, and a match of the second
    ends at the first closing bracket. *)

Module Pattern.

Section Automaton.
Context {Q : Type}.
Variable step : Q -> char -> option Q.
Variable accepting : Q -> bool.

(** [n] characters read so far, [last] the longest accepted length. *)
Fixpoint run (q : Q) (s : jsstring) (n : nat) (last : option nat) : option nat :=
  match s with
  | [] => last
  | c :: t =>
      match step q c with
      | None => last
      | Some q' =>
          run q' t (S n) (if accepting q' then Some (S n) else last)
      end
  end.

Definition longest_match (q0 : Q) (s : jsstring) : option nat := run q0 s 0 None.
End Automaton.

(** *** [/data:[a-z]+\/[a-z]+;base64,[A-Za-z0-9+/=]+/] *)

Inductive item :=
| Chr (c : char)
| Plus (cls : char -> bool).

(** The items still to match; [true] when the first one is a repetition
    that has taken a character already. *)
Definition uri_state : Type := bool * list item.

Definition enter (items : list item) (c : char) : option uri_state :=
  match items with
  | [] => None
  | Chr x :: r => if (c =? x)%N then Some (false, r) else None
  | Plus cls :: r => if cls c then Some (true, items) else None
  end.

Definition uri_step (q : uri_state) (c : char) : option uri_state :=
  match q with
  | (true, Plus cls :: r) => if cls c then Some q else enter r c
  | (_, items) => enter items c
  end.

Definition uri_accepting (q : uri_state) : bool :=
  match q with
  | (_, []) => true
  | (true, [Plus _]) => true
  | _ => false
  end.

Definition chars (s : string) : list item := List.map Chr (lit s).

Definition base64_uri_items : list item :=
  chars "data:" ++ [Plus is_lower] ++ chars "/" ++ [Plus is_lower]
  ++ chars ";base64," ++ [Plus is_base64].

Definition base64_uri (s : jsstring) : option nat :=
  longest_match uri_step uri_accepting (false, base64_uri_items) s.

(** *** [/\[(\s*-?\d*\.?\d+,){10,}\s*-?\d*\.?\d+\s*\]/]

    [k] counts the entries closed by a comma. *)

Inductive array_state :=
| A_open
| A_entry (k : nat)
| A_sign (k : nat)
| A_int (k : nat)
| A_point (k : nat)
| A_frac (k : nat)
| A_trail (k : nat)
| A_close.

Definition close_after (k : nat) : option array_state :=
  if (10 <=? k)%nat then Some A_close else None.

Definition array_step (q : array_state) (c : char) : option array_state :=
  match q with
  | A_open => if (c =? 91)%N then Some (A_entry 0) else None
  | A_entry k =>
      if is_js_space c then Some (A_entry k)
      else if (c =? 45)%N then Some (A_sign k)
      else if is_digit c then Some (A_int k)
      else if (c =? 46)%N then Some (A_point k)
      else None
  | A_sign k =>
      if is_digit c then Some (A_int k)
      else if (c =? 46)%N then Some (A_point k)
      else None
  | A_int k =>
      if is_digit c then Some (A_int k)
      else if (c =? 46)%N then Some (A_point k)
      else if (c =? 44)%N then Some (A_entry (S k))
      else if is_js_space c then Some (A_trail k)
      else if (c =? 93)%N then close_after k
      else None
  | A_point k => if is_digit c then Some (A_frac k) else None
  | A_frac k =>
      if is_digit c then Some (A_frac k)
      else if (c =? 44)%N then Some (A_entry (S k))
      else if is_js_space c then Some (A_trail k)
      else if (c =? 93)%N then close_after k
      else None
  | A_trail k =>
      if is_js_space c then Some (A_trail k)
      else if (c =? 93)%N then close_after k
      else None
  | A_close => None
  end.

Definition array_accepting (q : array_state) : bool :=
  match q with
  | A_close => true
  | _ => false
  end.

Definition numeric_array (s : jsstring) : option nat :=
  longest_match array_step array_accepting A_open s.

End Pattern.

(** ** [compressCodeForContext] *)

Definition BASE64_DATA_HIDDEN : jsstring := lit "<BASE64_DATA_HIDDEN>".
Definition GEOMETRY_DATA_HIDDEN : jsstring := lit "[...GEOMETRY_DATA_HIDDEN...]".

Definition compressCodeForContext (code : jsstring) : jsstring :=
  match code with
  | [] => []
  | _ :: _ =>
      let compressed := code in
      let compressed := replace_all Pattern.base64_uri BASE64_DATA_HIDDEN compressed in
      let compressed := replace_all Pattern.numeric_array GEOMETRY_DATA_HIDDEN compressed in
      compressed
  end.


(** ** [JSON.parse]

    The text is cut into tokens and the tokens are read with a stack of
    the arrays and objects still open, as ECMA-404 has it. A number keeps
    its lexeme: its value as a double is not computed. An object keeps its
    members in the order of the text, a repeated key keeping its place
    and taking the later value. *)

Module Json.

#[local] Set Warnings "-register-all".

Inductive JSON :=
| JNull
| JBool (b : bool)
| JNum (lexeme : jsstring)
| JStr (s : jsstring)
| JArr (items : list JSON)
| JObj (members : list (jsstring * JSON)).

Fixpoint get (k : jsstring) (members : list (jsstring * JSON)) : option JSON :=
  match members with
  | [] => None
  | (k', v) :: rest => if JsString.eqb k k' then Some v else get k rest
  end.

Fixpoint set (k : jsstring) (v : JSON) (members : list (jsstring * JSON)) :
    list (jsstring * JSON) :=
  match members with
  | [] => [(k, v)]
  | (k', v') :: rest =>
      if JsString.eqb k k' then (k', v) :: rest else (k', v') :: set k v rest
  end.

Inductive token :=
| T_lbrace | T_rbrace | T_lbracket | T_rbracket | T_colon | T_comma
| T_string (s : jsstring)
| T_number (lexeme : jsstring)
| T_true | T_false | T_null.

(** JSON white space: tab, line feed, carriage return, space. *)
Definition is_json_space (c : char) : bool :=
  ((c =? 9) || (c =? 10) || (c =? 13) || (c =? 32))%N.

Definition hex_digit (c : char) : option N :=
  if is_digit c then Some (c - 48)%N
  else if ((97 <=? c) && (c <=? 102))%N then Some (c - 87)%N
  else if ((65 <=? c) && (c <=? 70))%N then Some (c - 55)%N
  else None.

Definition hex4 (a b c d : char) : option char :=
  match hex_digit a, hex_digit b, hex_digit c, hex_digit d with
  | Some x, Some y, Some z, Some w => Some (((x * 16 + y) * 16 + z) * 16 + w)%N
  | _, _, _, _ => None
  end.

(** The character a one-letter escape stands for. *)
Definition unescape (e : char) : option char :=
  if (e =? 34)%N then Some 34%N
  else if (e =? 92)%N then Some 92%N
  else if (e =? 47)%N then Some 47%N
  else if (e =? 98)%N then Some 8%N
  else if (e =? 102)%N then Some 12%N
  else if (e =? 110)%N then Some 10%N
  else if (e =? 114)%N then Some 13%N
  else if (e =? 116)%N then Some 9%N
  else None.

(** The text after an opening quote: the string it holds and the number
    of characters up to and with the closing quote. *)
Fixpoint scan_string (s acc : jsstring) (n : nat) : option (jsstring * nat) :=
  match s with
  | [] => None
  | c :: t =>
      if (c =? 34)%N then Some (rev acc, S n)
      else if (c =? 92)%N then
        match t with
        | [] => None
        | e :: t' =>
            if (e =? 117)%N then
              match t' with
              | h1 :: h2 :: h3 :: h4 :: t'' =>
                  match hex4 h1 h2 h3 h4 with
                  | Some u => scan_string t'' (u :: acc) (n + 6)
                  | None => None
                  end
              | _ => None
              end
            else
              match unescape e with
              | Some u => scan_string t' (u :: acc) (n + 2)
              | None => None
              end
        end
      else if (c <? 32)%N then None
      else scan_string t (c :: acc) (S n)
  end.

(** A JSON number: an optional minus, then zero or a digit string not
    starting with zero, then an optional fraction (a point and digits),
    then an optional exponent (e or E, an optional sign, digits). *)
Inductive number_state :=
| Num_start | Num_minus | Num_zero | Num_int | Num_point | Num_frac
| Num_e | Num_esign | Num_exp.

Definition number_step (q : number_state) (c : char) : option number_state :=
  let digit := is_digit c in
  let point := (c =? 46)%N in
  let e := ((c =? 101) || (c =? 69))%N in
  match q with
  | Num_start =>
      if (c =? 45)%N then Some Num_minus
      else if (c =? 48)%N then Some Num_zero
      else if digit then Some Num_int else None
  | Num_minus =>
      if (c =? 48)%N then Some Num_zero
      else if digit then Some Num_int else None
  | Num_zero =>
      if point then Some Num_point else if e then Some Num_e else None
  | Num_int =>
      if digit then Some Num_int
      else if point then Some Num_point else if e then Some Num_e else None
  | Num_point => if digit then Some Num_frac else None
  | Num_frac =>
      if digit then Some Num_frac else if e then Some Num_e else None
  | Num_e =>
      if ((c =? 43) || (c =? 45))%N then Some Num_esign
      else if digit then Some Num_exp else None
  | Num_esign => if digit then Some Num_exp else None
  | Num_exp => if digit then Some Num_exp else None
  end.

Definition number_accepting (q : number_state) : bool :=
  match q with
  | Num_zero | Num_int | Num_frac | Num_exp => true
  | _ => false
  end.

Definition scan_number (s : jsstring) : option nat :=
  Pattern.longest_match number_step number_accepting Num_start s.

Definition cons_token (t : token) (rest : option (list token)) : option (list token) :=
  match rest with
  | Some ts => Some (t :: ts)
  | None => None
  end.

(** [skip] counts the characters of the last token still to be passed. *)
Fixpoint lex_from (skip : nat) (s : jsstring) : option (list token) :=
  match s with
  | [] => Some []
  | c :: t =>
      match skip with
      | S k => lex_from k t
      | O =>
          if is_json_space c then lex_from 0 t
          else if (c =? 123)%N then cons_token T_lbrace (lex_from 0 t)
          else if (c =? 125)%N then cons_token T_rbrace (lex_from 0 t)
          else if (c =? 91)%N then cons_token T_lbracket (lex_from 0 t)
          else if (c =? 93)%N then cons_token T_rbracket (lex_from 0 t)
          else if (c =? 58)%N then cons_token T_colon (lex_from 0 t)
          else if (c =? 44)%N then cons_token T_comma (lex_from 0 t)
          else if (c =? 34)%N then
            match scan_string t [] 0 with
            | Some (str, n) => cons_token (T_string str) (lex_from n t)
            | None => None
            end
          else if starts_with (lit "true") s then cons_token T_true (lex_from 3 t)
          else if starts_with (lit "false") s then cons_token T_false (lex_from 4 t)
          else if starts_with (lit "null") s then cons_token T_null (lex_from 3 t)
          else
            match scan_number s with
            | Some (S n) => cons_token (T_number (firstn (S n) s)) (lex_from n t)
            | _ => None
            end
      end
  end.

Definition lex (s : jsstring) : option (list token) := lex_from 0 s.

(** An array or object still open. An object holds the key whose value is
    being read. *)
Inductive frame :=
| F_array (items : list JSON)
| F_object (members : list (jsstring * JSON)) (key : option jsstring).

Inductive mode :=
| M_value (closable : bool)
| M_key (closable : bool)
| M_colon
| M_next
| M_done (v : JSON).

(** A value is complete: it goes to the innermost open container. *)
Definition deliver (v : JSON) (stack : list frame) : option (mode * list frame) :=
  match stack with
  | [] => Some (M_done v, [])
  | F_array items :: st => Some (M_next, F_array (items ++ [v]) :: st)
  | F_object members (Some k) :: st => Some (M_next, F_object (set k v members) None :: st)
  | F_object _ None :: _ => None
  end.

Definition parse_step (md : mode) (stack : list frame) (t : token) :
    option (mode * list frame) :=
  match md with
  | M_value closable =>
      match t with
      | T_lbrace => Some (M_key true, F_object [] None :: stack)
      | T_lbracket => Some (M_value true, F_array [] :: stack)
      | T_string s => deliver (JStr s) stack
      | T_number l => deliver (JNum l) stack
      | T_true => deliver (JBool true) stack
      | T_false => deliver (JBool false) stack
      | T_null => deliver JNull stack
      | T_rbracket =>
          match closable, stack with
          | true, F_array items :: st => deliver (JArr items) st
          | _, _ => None
          end
      | _ => None
      end
  | M_key closable =>
      match t, stack with
      | T_string k, F_object members None :: st =>
          Some (M_colon, F_object members (Some k) :: st)
      | T_rbrace, F_object members None :: st =>
          if closable then deliver (JObj members) st else None
      | _, _ => None
      end
  | M_colon =>
      match t with
      | T_colon => Some (M_value false, stack)
      | _ => None
      end
  | M_next =>
      match t, stack with
      | T_comma, F_array _ :: _ => Some (M_value false, stack)
      | T_comma, F_object _ None :: _ => Some (M_key false, stack)
      | T_rbracket, F_array items :: st => deliver (JArr items) st
      | T_rbrace, F_object members None :: st => deliver (JObj members) st
      | _, _ => None
      end
  | M_done _ => None
  end.

Fixpoint parse_tokens (md : mode) (stack : list frame) (ts : list token) : option JSON :=
  match ts with
  | [] =>
      match md with
      | M_done v => Some v
      | _ => None
      end
  | t :: rest =>
      match parse_step md stack t with
      | Some (md', stack') => parse_tokens md' stack' rest
      | None => None
      end
  end.

(** [JSON.parse(text)]: [None] where it throws a [SyntaxError]. *)
Definition parse (text : jsstring) : option JSON :=
  match lex text with
  | Some ts => parse_tokens (M_value false) [] ts
  | None => None
  end.

End Json.
Export Json.

(** ** The types of [types.ts]

    A string enum is its string at run time. [coreMechanics] and
    [visualRequirements] are the two fields of the spec sheet that a
    blueprint carries beside those of the interface; the prompts read
    them through a cast. *)

Module GameEngine.
Definition ThreeJS : jsstring := lit "Three.js (Standard)".
Definition ThreeJS_WebGPU : jsstring := lit "Three.js (WebGPU Experimental)".
Definition P5JS : jsstring := lit "p5.js (Creative Coding)".
Definition BabylonJS : jsstring := lit "Babylon.js (Enterprise 3D)".
Definition KaboomJS : jsstring := lit "Kaboom.js (2D/Retro)".
Definition RawWebGL : jsstring := lit "Raw WebGL (No Engine)".
End GameEngine.

Module CapabilityFlags.
Record t := { gpuTier : jsstring; input : jsstring; telemetry : bool }.
End CapabilityFlags.

Module UserPreferences.
Record t := {
  genre : jsstring;
  platform : jsstring;
  gameEngine : jsstring;
  skillLevel : jsstring;
  architectureStyle : jsstring;
  projectDescription : jsstring;
  visualStyle : jsstring;
  cameraPerspective : jsstring;
  environmentType : jsstring;
  atmosphere : jsstring;
  pacing : jsstring;
  seed : jsstring;
  quality : jsstring;
  capabilities : CapabilityFlags.t
}.
End UserPreferences.

Module ArchitectureNode.
Record t := { name : jsstring; type : jsstring; description : jsstring }.
End ArchitectureNode.

Module Architecture.
Record t := { style : jsstring; description : jsstring; nodes : list ArchitectureNode.t }.
End Architecture.

Module TechStackItem.
Record t := { category : jsstring; name : jsstring; description : jsstring; link : option jsstring }.
End TechStackItem.

Module Prerequisite.
Record t := { item : jsstring; command : option jsstring; importance : jsstring }.
End Prerequisite.

Module SoundEffect.
Record t := { name : jsstring; trigger : jsstring; code : jsstring }.
End SoundEffect.

Module GameAudio.
Record t := {
  description : jsstring;
  backgroundMusic : jsstring;
  soundEffects : list SoundEffect.t
}.
End GameAudio.

Module ForgeManifest.
Record t := {
  version : jsstring;
  timestamp : Z;
  seed : jsstring;
  specHash : jsstring;
  buildHash : jsstring;
  platform : jsstring;
  quality : jsstring;
  parentHash : option jsstring
}.
End ForgeManifest.

Module GeneratedGame.
Record t := {
  title : jsstring;
  summary : jsstring;
  html : option jsstring;
  instructions : option jsstring;
  recommendedEngine : jsstring;
  language : jsstring;
  architecture : Architecture.t;
  techStack : list TechStackItem.t;
  prerequisites : list Prerequisite.t;
  audio : option GameAudio.t;
  manifest : option ForgeManifest.t;
  coreMechanics : option (list jsstring);
  visualRequirements : option (list jsstring)
}.
End GeneratedGame.

(** ** The world and the monad of the services *)

Record Error := { message : jsstring }.

Inductive console_level := c_log | c_warn | c_error.

Inductive console_arg :=
| Text (s : jsstring)
| Caught (e : Error).

Definition loc := positive.

(** The objects the caller holds, by reference, and what was written to
    the console, the latest entry first. *)
Record World := {
  objects : gmap loc GeneratedGame.t;
  console : list (console_level * list console_arg)
}.

(** How a call ends. [Beyond] stands for the runs this embedding does not
    follow: a response that holds a value of another type than its schema
    declares, at a place where the source would go on with JavaScript's
    conversions (or its [TypeError]), and a reference to no object. *)
Inductive Completion (A : Type) :=
| Normal (a : A)
| Throw (e : Error)
| Beyond.
Arguments Normal {A} a.
Arguments Throw {A} e.
Arguments Beyond {A}.

Definition M (A : Type) : Type := World -> Completion A * World.

Definition ret {A} (a : A) : M A := fun w => (Normal a, w).

Definition bind {A B} (c : M A) (k : A -> M B) : M B :=
  fun w =>
    match c w with
    | (Normal a, w') => k a w'
    | (Throw e, w') => (Throw e, w')
    | (Beyond, w') => (Beyond, w')
    end.

Definition throw {A} (e : Error) : M A := fun w => (Throw e, w).

Definition beyond {A} : M A := fun w => (Beyond, w).

(** [try { c } catch (e) { handler e }] *)
Definition try_catch {A} (c : M A) (handler : Error -> M A) : M A :=
  fun w =>
    match c w with
    | (Throw e, w') => handler e w'
    | r => r
    end.

Definition console_write (level : console_level) (args : list console_arg) : M unit :=
  fun w => (Normal tt, {| objects := objects w; console := (level, args) :: console w |}).

(** Reading the object a reference points to. *)
Definition deref (l : loc) : M GeneratedGame.t :=
  fun w =>
    match objects w !! l with
    | Some g => (Normal g, w)
    | None => (Beyond, w)
    end.

Notation "'let!' x ':=' c 'in' k" := (bind c (fun x => k))
  (at level 10, x name, c at level 100, k at level 200).
Notation "'run!' c 'in' k" := (bind c (fun _ => k))
  (at level 10, c at level 100, k at level 200).

(** [new Error(text)] *)
Definition new_Error (text : jsstring) : Error := {| message := text |}.

(** ** [services/utils/aiHelpers.ts] *)

Definition fence_json (s : jsstring) : option nat :=
  if starts_with_ci (lit "```json") s then Some 7%nat else None.

Definition fence (s : jsstring) : option nat :=
  if starts_with (lit "```") s then Some 3%nat else None.

Definition parseAndSanitize (text : jsstring) : M Json.JSON :=
  (* 1. Attempt direct parse *)
  match Json.parse text with
  | Some v => ret v
  | None =>
      (* 2. Attempt to find the first '{' and last '}' *)
      let firstOpen := indexOf text (lit "{") in
      let lastClose := lastIndexOf text (lit "}") in
      let second :=
        if negb (firstOpen =? -1) && negb (lastClose =? -1) && (firstOpen <? lastClose)
        then Json.parse (substring text firstOpen (lastClose + 1))
        else None in
      match second with
      | Some v => ret v
      | None =>
          (* 3. Aggressive Cleanup *)
          let cleanText := trim (replace_all fence [] (replace_all fence_json [] text)) in
          match Json.parse cleanText with
          | Some v => ret v
          | None =>
              run! console_write c_error
                     [Text (lit "JSON Parse Failed. Raw text:");
                      Text (substring text 0 200 ++ lit "...")] in
              throw (new_Error (lit "The AI generated an invalid response structure. Please try again."))
          end
      end
  end.

(** The properties every object inherits from [Object.prototype]. *)
Definition Object_prototype_keys : list jsstring :=
  List.map lit
    ["constructor"; "__defineGetter__"; "__defineSetter__"; "hasOwnProperty";
     "__lookupGetter__"; "__lookupSetter__"; "isPrototypeOf";
     "propertyIsEnumerable"; "toString"; "valueOf"; "__proto__";
     "toLocaleString"]%string.

(** Those an array inherits from [Array.prototype] (ECMAScript 2023). *)
Definition Array_prototype_keys : list jsstring :=
  List.map lit
    ["at"; "concat"; "copyWithin"; "entries"; "every"; "fill"; "filter";
     "find"; "findIndex"; "findLast"; "findLastIndex"; "flat"; "flatMap";
     "forEach"; "includes"; "indexOf"; "join"; "keys"; "lastIndexOf"; "map";
     "pop"; "push"; "reduce"; "reduceRight"; "reverse"; "shift"; "slice";
     "some"; "sort"; "splice"; "toReversed"; "toSorted"; "toSpliced";
     "unshift"; "values"; "with"]%string.

Definition mem (k : jsstring) (keys : list jsstring) : bool :=
  existsb (JsString.eqb k) keys.

Definition decimal_value (s : jsstring) : N :=
  fold_left (fun acc c => (acc * 10 + (c - 48))%N) s 0%N.

(** A canonical array index below [len]: digits, no leading zero. *)
Definition is_index_below (k : jsstring) (len : nat) : bool :=
  match k with
  | [] => false
  | c :: rest =>
      forallb is_digit k
      && (negb (c =? 48)%N || match rest with [] => true | _ => false end)
      && (decimal_value k <? N.of_nat len)%N
  end.

(** [key in data], for [data] an object or an array. *)
Definition has_property (key : jsstring) (data : Json.JSON) : bool :=
  match data with
  | JObj members =>
      match Json.get key members with
      | Some _ => true
      | None => mem key Object_prototype_keys
      end
  | JArr items =>
      JsString.eqb key (lit "length") || is_index_below key (length items)
      || mem key Array_prototype_keys || mem key Object_prototype_keys
  | _ => false
  end.

(** [!data || typeof data !== 'object'] is false *)
Definition is_object (data : Json.JSON) : bool :=
  match data with
  | JObj _ | JArr _ => true
  | _ => false
  end.

Definition validateStructure (data : Json.JSON) (requiredKeys : list jsstring)
    (context : jsstring) : M Json.JSON :=
  if negb (is_object data) then
    throw (new_Error (context ++ lit ": Response was not a valid object."))
  else
    let missing := List.filter (fun key => negb (has_property key data)) requiredKeys in
    if (0 <? length missing)%nat then
      throw (new_Error (context ++ lit ": Missing required fields: " ++ join (lit ", ") missing))
    else ret data.

(** ** [JSON.stringify] of a list of strings, inside a template

    Inside a template, [undefined] reads [undefined]. In a string, the
    quote, the backslash and the control characters are escaped, and so is
    a surrogate without its pair. *)

Definition hex_char (n : N) : char :=
  if (n <? 10)%N then (n + 48)%N else (n + 87)%N.

Definition unicode_escape (c : char) : jsstring :=
  lit "\u" ++ [hex_char (c / 4096 mod 16); hex_char (c / 256 mod 16);
               hex_char (c / 16 mod 16); hex_char (c mod 16)]%N.

Definition is_leading_surrogate (c : char) : bool := ((55296 <=? c) && (c <=? 56319))%N.
Definition is_trailing_surrogate (c : char) : bool := ((56320 <=? c) && (c <=? 57343))%N.

Definition quote_unit (c : char) : jsstring :=
  if (c =? 8)%N then lit "\b"
  else if (c =? 9)%N then lit "\t"
  else if (c =? 10)%N then lit "\n"
  else if (c =? 12)%N then lit "\f"
  else if (c =? 13)%N then lit "\r"
  else if (c =? 34)%N then lit "\" ++ dq
  else if (c =? 92)%N then lit "\\"
  else if (c <? 32)%N || is_leading_surrogate c || is_trailing_surrogate c
       then unicode_escape c
  else [c].

Fixpoint quote_units (s : jsstring) : jsstring :=
  match s with
  | [] => []
  | c :: t =>
      if is_leading_surrogate c then
        match t with
        | d :: t' =>
            if is_trailing_surrogate d then c :: d :: quote_units t'
            else quote_unit c ++ quote_units t
        | [] => quote_unit c
        end
      else quote_unit c ++ quote_units t
  end.

Definition QuoteJSONString (s : jsstring) : jsstring := dq ++ quote_units s ++ dq.

Definition stringify_strings (v : option (list jsstring)) : jsstring :=
  match v with
  | None => lit "undefined"
  | Some l => lit "[" ++ join (lit ",") (List.map QuoteJSONString l) ++ lit "]"
  end.

(** ** [services/promptRegistry.ts] *)

Definition ENGINE_SPEC_ThreeJS : jsstring :=
  lit "
    FRAMEWORK: Three.js (Standard WebGL)
    IMPORTS: 
      import * as THREE from 'https://unpkg.com/three@0.160.0/build/three.module.js';
      import { PointerLockControls } from 'https://unpkg.com/three@0.160.0/examples/jsm/controls/PointerLockControls.js';
      import { OrbitControls } from 'https://unpkg.com/three@0.160.0/examples/jsm/controls/OrbitControls.js';
    BOILERPLATE: Standard Scene, Camera, WebGLRenderer.
    CHECK: Ensure canvas is attached to body.
  ".

Definition ENGINE_SPEC_ThreeJS_WebGPU : jsstring :=
  lit "
    FRAMEWORK: Three.js (WebGPU - Experimental)
    IMPORTS: 
       import * as THREE from 'https://unpkg.com/three@0.167.0/build/three.module.js';
       import WebGPURenderer from 'https://unpkg.com/three@0.167.0/examples/jsm/renderers/webgpu/WebGPURenderer.js';
       import { PointerLockControls } from 'https://unpkg.com/three@0.167.0/examples/jsm/controls/PointerLockControls.js';
    BOILERPLATE: 
       const renderer = new WebGPURenderer({ antialias: true });
       await renderer.init();
    IMPORTANT: Do NOT use legacy materials if possible, use MeshStandardMaterialNode or standard materials compatible with WebGPU.
  ".

Definition ENGINE_SPEC_P5JS : jsstring :=
  lit "
    FRAMEWORK: p5.js (Creative Coding)
    IMPORTS: None (Global Mode via CDN)
    INJECTION: You MUST include this script tag in the HTML head: <script src="
  ++ dq
  ++ lit "https://cdnjs.cloudflare.com/ajax/libs/p5.js/1.9.0/p5.js"
  ++ dq
  ++ lit "></script>
    BOILERPLATE: 
       function setup() { createCanvas(windowWidth, windowHeight, WEBGL); ... }
       function draw() { ... }
       function windowResized() { resizeCanvas(windowWidth, windowHeight); }
    NOTE: Use 'WEBGL' mode in createCanvas for 3D requirements. Use p5's immediate mode geometry (box, sphere) or loadModel.
  ".

Definition ENGINE_SPEC_BabylonJS : jsstring :=
  lit "
    FRAMEWORK: Babylon.js
    IMPORTS: None (Global via CDN)
    INJECTION: <script src="
  ++ dq
  ++ lit "https://cdn.babylonjs.com/babylon.js"
  ++ dq
  ++ lit "></script><script src="
  ++ dq
  ++ lit "https://cdn.babylonjs.com/loaders/babylonjs.loaders.min.js"
  ++ dq
  ++ lit "></script>
    BOILERPLATE:
       const canvas = document.getElementById("
  ++ dq
  ++ lit "renderCanvas"
  ++ dq
  ++ lit "); // Create this canvas
       const engine = new BABYLON.Engine(canvas, true);
       const createScene = function() { ... return scene; };
       const scene = createScene();
       engine.runRenderLoop(function () { scene.render(); });
  ".

Definition ENGINE_SPEC_KaboomJS : jsstring :=
  lit "
    FRAMEWORK: Kaboom.js
    IMPORTS: import kaboom from "
  ++ dq
  ++ lit "https://unpkg.com/kaboom@3000.0.1/dist/kaboom.mjs"
  ++ dq
  ++ lit ";
    BOILERPLATE:
       kaboom({ background: [0,0,0] });
       // Define scenes and go('main');
    NOTE: This is a 2D engine. If the user asked for 3D, simulate it or create a 2.5D pseudo-3D style.
  ".

Definition ENGINE_SPEC_RawWebGL : jsstring :=
  lit "
    FRAMEWORK: Raw WebGL API (No Engine)
    IMPORTS: None.
    BOILERPLATE: 
       const gl = canvas.getContext("
  ++ dq
  ++ lit "webgl"
  ++ dq
  ++ lit ");
       // You must write the vertex and fragment shaders as string variables.
       // You must handle buffer creation, linking, and the draw loop manually.
    WARNING: Keep it simple. A colored cube or basic terrain is sufficient given the complexity.
  ".


Definition ENGINE_SPECS : list (jsstring * jsstring) :=
  [(GameEngine.ThreeJS, ENGINE_SPEC_ThreeJS);
   (GameEngine.ThreeJS_WebGPU, ENGINE_SPEC_ThreeJS_WebGPU);
   (GameEngine.P5JS, ENGINE_SPEC_P5JS);
   (GameEngine.BabylonJS, ENGINE_SPEC_BabylonJS);
   (GameEngine.KaboomJS, ENGINE_SPEC_KaboomJS);
   (GameEngine.RawWebGL, ENGINE_SPEC_RawWebGL)].

(** What [table[key]] gives for a table written as an object literal:
    its own entry, else what [Object.prototype] holds under that name. *)
Inductive Property :=
| Own (text : jsstring)
| Inherited (name : jsstring)
| Undefined.

Fixpoint own_entry (key : jsstring) (table : list (jsstring * jsstring)) : option jsstring :=
  match table with
  | [] => None
  | (k, v) :: rest => if JsString.eqb key k then Some v else own_entry key rest
  end.

Definition lookup_property (table : list (jsstring * jsstring)) (key : jsstring) : Property :=
  match own_entry key table with
  | Some text => Own text
  | None => if mem key Object_prototype_keys then Inherited key else Undefined
  end.

(** [a || b] *)
Definition or_else (a b : Property) : Property :=
  match a with
  | Own [] | Undefined => b
  | _ => a
  end.

(** The text a template makes of a property. An inherited one is a
    built-in function, printed as V8 prints it, but for [__proto__], which
    is [Object.prototype] itself. *)
Definition template_text (p : Property) : jsstring :=
  match p with
  | Own text => text
  | Inherited name =>
      if JsString.eqb name (lit "__proto__") then lit "[object Object]"
      else lit "function " ++ name ++ lit "() { [native code] }"
  | Undefined => lit "undefined"
  end.

(** [${ENGINE_SPECS[prefs.gameEngine] || ENGINE_SPECS[GameEngine.ThreeJS]}] *)
Definition engine_instructions (gameEngine : jsstring) : jsstring :=
  template_text
    (or_else (lookup_property ENGINE_SPECS gameEngine)
             (lookup_property ENGINE_SPECS GameEngine.ThreeJS)).

Definition telemetry_rule : jsstring :=
  lit "You MUST inject telemetry code to post 'forge-telemetry' messages with fps and entities count to window.parent.".

(** The template of [BuildPrototype], cut at the instructions of the
    engine: what stands before them and what stands after. *)
Definition BuildPrototype_before (blueprint : GeneratedGame.t) (prefs : UserPreferences.t)
    (gpuRules : jsstring) : jsstring :=
  lit "
    Act as an Expert Creative Coder and Game Engine Specialist.

    BLUEPRINT:
    - Title: "
  ++ (GeneratedGame.title blueprint)
  ++ lit "
    - Mechanics: "
  ++ stringify_strings (GeneratedGame.coreMechanics blueprint)
  ++ lit "
    - Visuals: "
  ++ stringify_strings (GeneratedGame.visualRequirements blueprint)
  ++ lit "

    USER SETTINGS (Strict Enforcement):
    - ENGINE: "
  ++ (UserPreferences.gameEngine prefs)
  ++ lit "
    - PLATFORM: "
  ++ (UserPreferences.platform prefs)
  ++ lit "
    - INPUT MODE: "
  ++ (CapabilityFlags.input (UserPreferences.capabilities prefs))
  ++ lit "
    - Style: "
  ++ (UserPreferences.visualStyle prefs)
  ++ lit "
    - Camera: "
  ++ (UserPreferences.cameraPerspective prefs)
  ++ lit "
    - Env: "
  ++ (UserPreferences.environmentType prefs)
  ++ lit "
    - PROTOTYPE QUALITY: "
  ++ (UserPreferences.quality prefs)
  ++ lit "
    - GPU TIER: "
  ++ (CapabilityFlags.gpuTier (UserPreferences.capabilities prefs))
  ++ lit "
    
    "
  ++ gpuRules
  ++ lit "

    ENGINE SPECIFIC INSTRUCTIONS:
    ".

Definition BuildPrototype_after (prefs : UserPreferences.t)
    (audioContextStr : jsstring) : jsstring :=
  lit "
    
    DETERMINISTIC SEED: "
  ++ dq
  ++ (UserPreferences.seed prefs)
  ++ dq
  ++ lit "
    You MUST implement a seeded random number generator (PRNG) and use it for ALL procedural generation.
    
    AUDIO SYSTEM:
    "
  ++ audioContextStr
  ++ lit "

    Task:
    Build a single-file HTML/JS prototype.
    
    CRITICAL IMPLEMENTATION RULES:
    1. SINGLE FILE: All HTML, CSS, and JS must be in one string.
    2. MODULE BOUNDARIES: Organize code into commented sections (CORE, RENDERER, INPUT, LOGIC).
    3. 'CLICK TO PLAY' OVERLAY (MANDATORY):
       - You MUST include a <div id="
  ++ dq
  ++ lit "overlay"
  ++ dq
  ++ lit ">...</div> covering the screen.
       - You MUST add a click event listener to this overlay to unlock AudioContext and start the loop.
    
    4. TELEMETRY:
       "
  ++ (if CapabilityFlags.telemetry (UserPreferences.capabilities prefs) then telemetry_rule else [])
  ++ lit "

    Output: JSON with 'html' string and 'instructions'.
  ".

Definition BuildPrototype (blueprint : GeneratedGame.t) (prefs : UserPreferences.t)
    (audioContextStr gpuRules : jsstring) : jsstring :=
  BuildPrototype_before blueprint prefs gpuRules
  ++ engine_instructions (UserPreferences.gameEngine prefs)
  ++ BuildPrototype_after prefs audioContextStr.

(** ** [services/geminiService.ts] *)

(** The response schemas, each a constant of the source, by name. *)
Inductive Schema :=
| specSchema | architectureSchema | audioSchema | prototypeSchema | refinementSchema.

Record GenerationConfig := {
  responseMimeType : jsstring;
  responseSchema : Schema;
  thinkingBudget : Z;
  maxOutputTokens : Z
}.

Record GenerateContentParameters := {
  model : jsstring;
  contents : jsstring;
  config : GenerationConfig
}.

(** The promise of the provider: rejected with an error, or resolved with
    a response whose [text] may be missing. *)
Inductive Answer :=
| Rejected (e : Error)
| Resolved (text : option jsstring).

Definition Provider : Type := GenerateContentParameters -> Answer.

(** [await ai.models.generateContent(request)] *)
Definition generateContent (ai : Provider) (request : GenerateContentParameters) :
    M (option jsstring) :=
  match ai request with
  | Rejected e => throw e
  | Resolved text => ret text
  end.

(** [text || fallback] for a string that may be missing *)
Definition or_string (text : option jsstring) (fallback : jsstring) : jsstring :=
  match text with
  | Some (c :: s) => c :: s
  | _ => fallback
  end.

(** [if (onStatus) onStatus(status)]: the callback only takes note. *)
Definition notify (onStatus : option (jsstring -> World -> World)) (status : jsstring) : M unit :=
  fun w =>
    match onStatus with
    | Some callback => (Normal tt, callback status w)
    | None => (Normal tt, w)
    end.

Definition audioPrompt (blueprint : GeneratedGame.t) (prefs : UserPreferences.t) : jsstring :=
  lit "
      Act as a Procedural Audio Engineer.
      Create a soundscape using PURE Web Audio API JavaScript code (Oscillators, GainNodes, Filters).
      NO external files (mp3/wav). All sound must be synthesized mathematically.

      Game Context:
      - Title: "
  ++ (GeneratedGame.title blueprint)
  ++ lit "
      - Atmosphere: "
  ++ (UserPreferences.atmosphere prefs)
  ++ lit "
      - Genre: "
  ++ (UserPreferences.genre prefs)
  ++ lit "
      - Mechanics: "
  ++ stringify_strings (GeneratedGame.coreMechanics blueprint)
  ++ lit "

      Task:
      1. Write a function 'playMusic(ctx)' that creates a background loop.
         - For 'Horror', use low drones and dissonance.
         - For 'Arcade', use high tempo square/sawtooth waves.
         - For 'Space', use reverb-heavy sine pads.
      2. Write functions for 3-5 distinct Sound Effects (SFX) needed for the mechanics (e.g., Jump, Shoot, Collect).

      Output JSON matching the schema.
    ".

Definition refinePrompt (instruction contextCode : jsstring) : jsstring :=
  lit "
      Act as a Game Programmer.
      User Instruction: "
  ++ dq
  ++ instruction
  ++ dq
  ++ lit "
      
      Original Code (Data assets hidden for brevity):
      "
  ++ contextCode
  ++ lit "
      
      Task:
      Determine if this is a minor fix (use 'patch' mode) or a major overhaul (use 'rewrite' mode).
      
      STRATEGY:
      1. 'patch': Use for tweaking variables, changing colors, small logic fixes. Provide 'edits'.
      2. 'rewrite': Use for adding new systems, changing control schemes, structural refactoring, or if the original code is missing critical chunks. Provide 'fullCode'.

      IMPORTANT: Do not try to replace <BASE64_DATA_HIDDEN> placeholders in patch mode. If you need to change data, use 'rewrite'.
      
      REMINDER: Maintain the 'Click to Start' overlay logic and AUDIO handling.
    ".

Definition audioRequest (blueprint : GeneratedGame.t) (prefs : UserPreferences.t) :
    GenerateContentParameters :=
  {| model := lit "gemini-3-pro-preview";
     contents := audioPrompt blueprint prefs;
     config := {| responseMimeType := lit "application/json";
                  responseSchema := audioSchema;
                  thinkingBudget := 2048;
                  maxOutputTokens := 32768 |} |}.

(** The audio returned when the phase fails. *)
Definition fallbackAudio : Json.JSON :=
  JObj [(lit "description", JStr (lit "Audio generation failed."));
        (lit "backgroundMusic", JStr (lit "// No music generated"));
        (lit "soundEffects", JArr [])].

(** The function returns what the parser gave, whatever its shape. *)
Definition generateSoundscape (ai : Provider) (blueprint : GeneratedGame.t)
    (prefs : UserPreferences.t) (onStatus : option (jsstring -> World -> World)) :
    M Json.JSON :=
  run! notify onStatus (lit "Designing Soundscape...") in
  try_catch
    (let! response := generateContent ai (audioRequest blueprint prefs) in
     parseAndSanitize (or_string response (lit "{}")))
    (fun e =>
       run! console_write c_warn
              [Text (lit "Audio generation failed, proceeding without audio."); Caught e] in
       (* Fallback to empty audio to allow pipeline to continue *)
       ret fallbackAudio).

(** *** Reading the parsed response

    [value.key], for the keys the refinement reads. A name that a
    prototype holds gives a function, and [null] has no property. *)
Definition Number_prototype_keys : list jsstring :=
  List.map lit ["toExponential"; "toFixed"; "toPrecision"]%string.

(** Those of [String.prototype] (ECMAScript 2023, with Annex B). *)
Definition String_prototype_keys : list jsstring :=
  List.map lit
    ["at"; "charAt"; "charCodeAt"; "codePointAt"; "concat"; "endsWith";
     "includes"; "indexOf"; "isWellFormed"; "lastIndexOf"; "localeCompare";
     "match"; "matchAll"; "normalize"; "padEnd"; "padStart"; "repeat";
     "replace"; "replaceAll"; "search"; "slice"; "split"; "startsWith";
     "substring"; "toLocaleLowerCase"; "toLocaleUpperCase"; "toLowerCase";
     "toUpperCase"; "toWellFormed"; "trim"; "trimEnd"; "trimStart";
     "substr"; "anchor"; "big"; "blink"; "bold"; "fixed"; "fontcolor";
     "fontsize"; "italics"; "link"; "small"; "strike"; "sub"; "sup";
     "trimLeft"; "trimRight"]%string.

Definition prop (key : jsstring) (value : Json.JSON) : M (option Json.JSON) :=
  match value with
  | JObj members =>
      match Json.get key members with
      | Some v => ret (Some v)
      | None => if mem key Object_prototype_keys then beyond else ret None
      end
  | JArr _ => if has_property key value then beyond else ret None
  | JNum _ =>
      if mem key Number_prototype_keys || mem key Object_prototype_keys then beyond
      else ret None
  | JBool _ => if mem key Object_prototype_keys then beyond else ret None
  | JStr s =>
      if JsString.eqb key (lit "length") || is_index_below key (length s)
         || mem key String_prototype_keys || mem key Object_prototype_keys
      then beyond else ret None
  | JNull => beyond
  end.

(** A value used as a string when it is truthy: [None] when it is falsy. *)
Definition truthy_string (v : option Json.JSON) : M (option jsstring) :=
  match v with
  | None | Some JNull | Some (JBool false) | Some (JStr []) => ret None
  | Some (JStr s) => ret (Some s)
  | Some (JBool true) | Some (JNum _) | Some (JArr _) | Some (JObj _) => beyond
  end.

(** [ToString] of a replacement value *)
Definition replacement_text (v : option Json.JSON) : M jsstring :=
  match v with
  | None => ret (lit "undefined")
  | Some JNull => ret (lit "null")
  | Some (JBool true) => ret (lit "true")
  | Some (JBool false) => ret (lit "false")
  | Some (JStr s) => ret s
  | Some (JNum _) | Some (JArr _) | Some (JObj _) => beyond
  end.

(** [value === 'rewrite'] *)
Definition is_rewrite (v : option Json.JSON) : bool :=
  match v with
  | Some (JStr s) => JsString.eqb s (lit "rewrite")
  | _ => false
  end.

(** The body of the loop over [result.edits]. *)
Definition apply_edit (edit : Json.JSON) (newHtml : jsstring) : M jsstring :=
  let! search := prop (lit "search") edit in
  let! searchBlock := truthy_string search in
  match searchBlock with
  | Some block =>
      if includes newHtml block then
        (* Direct Match *)
        let! replacement := prop (lit "replace") edit in
        let! text := replacement_text replacement in
        ret (replace newHtml block text)
      else
        (* Fuzzy Match Fallback *)
        run! console_write c_warn
               [Text (lit "Patch skipped - strict match failed. Attempting fuzzy match is risky, skipping.")] in
        ret newHtml
  | None => ret newHtml
  end.

Fixpoint apply_edits (edits : list Json.JSON) (newHtml : jsstring) : M jsstring :=
  match edits with
  | [] => ret newHtml
  | edit :: rest =>
      let! newHtml' := apply_edit edit newHtml in
      apply_edits rest newHtml'
  end.

Definition refineRequest (instruction contextCode : jsstring) : GenerateContentParameters :=
  {| model := lit "gemini-3-pro-preview";
     contents := refinePrompt instruction contextCode;
     config := {| responseMimeType := lit "application/json";
                  responseSchema := refinementSchema;
                  thinkingBudget := 4096;
                  maxOutputTokens := 65536 |} |}.

(** [{ ...currentGame, html: html, instructions: instructions }] *)
Definition with_artifact (currentGame : GeneratedGame.t) (html instructions : option jsstring) :
    GeneratedGame.t :=
  {| GeneratedGame.title := GeneratedGame.title currentGame;
     GeneratedGame.summary := GeneratedGame.summary currentGame;
     GeneratedGame.html := html;
     GeneratedGame.instructions := instructions;
     GeneratedGame.recommendedEngine := GeneratedGame.recommendedEngine currentGame;
     GeneratedGame.language := GeneratedGame.language currentGame;
     GeneratedGame.architecture := GeneratedGame.architecture currentGame;
     GeneratedGame.techStack := GeneratedGame.techStack currentGame;
     GeneratedGame.prerequisites := GeneratedGame.prerequisites currentGame;
     GeneratedGame.audio := GeneratedGame.audio currentGame;
     GeneratedGame.manifest := GeneratedGame.manifest currentGame;
     GeneratedGame.coreMechanics := GeneratedGame.coreMechanics currentGame;
     GeneratedGame.visualRequirements := GeneratedGame.visualRequirements currentGame |}.

(** [a || b] for two strings that may be missing *)
Definition or_option (a b : option jsstring) : option jsstring :=
  match a with
  | Some (c :: s) => Some (c :: s)
  | _ => b
  end.

(** [currentGame] is the caller's object, read through its reference. *)
Definition refineGame (ai : Provider) (currentGame : loc) (instruction : jsstring) :
    M GeneratedGame.t :=
  (* Compress context to save tokens (remove huge assets) *)
  let! game := deref currentGame in
  let contextCode := compressCodeForContext (or_string (GeneratedGame.html game) []) in
  try_catch
    (let! response := generateContent ai (refineRequest instruction contextCode) in
     let! result := parseAndSanitize (or_string response (lit "{}")) in
     let! game := deref currentGame in
     let newHtml := or_string (GeneratedGame.html game) [] in
     let! editMode := prop (lit "editMode") result in
     let! fullCode :=
       (if is_rewrite editMode then
          let! code := prop (lit "fullCode") result in truthy_string code
        else ret None) in
     match fullCode with
     | Some code =>
         (* Mode 1: Full Rewrite *)
         run! console_write c_log [Text (lit "Refinement strategy: REWRITE")] in
         let! game := deref currentGame in
         let! given := prop (lit "instructions") result in
         let! instructions := truthy_string given in
         ret (with_artifact game (Some code)
                (or_option instructions (GeneratedGame.instructions game)))
     | None =>
         (* Mode 2: Patch *)
         run! console_write c_log [Text (lit "Refinement strategy: PATCH")] in
         let! edits := prop (lit "edits") result in
         let! newHtml :=
           match edits with
           | Some (JArr items) => apply_edits items newHtml
           | _ => ret newHtml
           end in
         let! game := deref currentGame in
         let! given := prop (lit "instructions") result in
         let! instructions := truthy_string given in
         ret (with_artifact game (Some newHtml)
                (or_option instructions (GeneratedGame.instructions game)))
     end)
    (fun error => throw (new_Error (lit "Refinement Failed: " ++ message error))).

(** ** [services/generators/prototypeGenerator.ts] *)

(** The text of one sound effect in the prompt. *)
Definition sfx_text (sfx : SoundEffect.t) : jsstring :=
  lit "
      // Trigger: "
  ++ (SoundEffect.trigger sfx)
  ++ lit "
      "
  ++ (SoundEffect.code sfx)
  ++ lit "
      ".

Definition audio_assets (audio : GameAudio.t) : jsstring :=
  lit "
      PROCEDURAL AUDIO ASSETS (You MUST integrate these):
      
      // BACKGROUND MUSIC CODE
      "
  ++ (GameAudio.backgroundMusic audio)
  ++ lit "
      
      // SOUND EFFECT FUNCTIONS
      "
  ++ join (lit "
") (List.map sfx_text (GameAudio.soundEffects audio))
  ++ lit "
      
      INTEGRATION INSTRUCTIONS:
      1. Embed these functions in the script.
      2. Call 'playMusic(window.audioCtx)' inside the existing 'Click to Start' handler (after audioCtx.resume()).
      3. Call the specific SFX functions (e.g., 'playJump(window.audioCtx)') inside your game logic when the event occurs.
      ".

(** The audio part of the prompt: the assets when there is an audio with
    at least one sound effect. *)
Definition audioContextStr (audio : option GameAudio.t) : jsstring :=
  match audio with
  | Some a =>
      if (0 <? length (GameAudio.soundEffects a))%nat then audio_assets a
      else lit "NO CUSTOM AUDIO."
  | None => lit "NO CUSTOM AUDIO."
  end.

(** The [switch] over [prefs.capabilities.gpuTier]. *)
Definition gpuRules (gpuTier : jsstring) : jsstring :=
  if JsString.eqb gpuTier (lit "low") then
    lit "STRICT CONSTRAINTS: LOW POLY ONLY. MAX 100 INSTANCES. NO DYNAMIC SHADOWS. USE BAKED LIGHTING OR VERTEX COLORS. MOBILE OPTIMIZED SHADERS."
  else if JsString.eqb gpuTier (lit "mid") then
    lit "CONSTRAINTS: MEDIUM POLY. LIMITED DYNAMIC SHADOWS (Max 1 Directional Light). STANDARD WEBGL SHADERS. TARGET 60FPS ON LAPTOP."
  else if JsString.eqb gpuTier (lit "high") then
    lit "CONSTRAINTS: HIGH POLY ALLOWED. DYNAMIC LIGHTING ENABLED. POST-PROCESSING (BLOOM/AO) ALLOWED. TARGET 60FPS DESKTOP."
  else lit "CONSTRAINTS: OPTIMIZE FOR WEB.".

Definition prototypeRequest (blueprint : GeneratedGame.t) (prefs : UserPreferences.t)
    (audio : option GameAudio.t) : GenerateContentParameters :=
  {| model := lit "gemini-3-pro-preview";
     contents :=
       BuildPrototype blueprint prefs (audioContextStr audio)
         (gpuRules (CapabilityFlags.gpuTier (UserPreferences.capabilities prefs)));
     config := {| responseMimeType := lit "application/json";
                  responseSchema := prototypeSchema;
                  thinkingBudget := 4096;
                  maxOutputTokens := 65536 |} |}.

(** A value stored in a field of type [string]: a string, or nothing. *)
Definition string_field (v : option Json.JSON) : M (option jsstring) :=
  match v with
  | None => ret None
  | Some (JStr s) => ret (Some s)
  | Some _ => beyond
  end.

(** [{ ...blueprint, html, instructions, audio, manifest }] *)
Definition with_build (blueprint : GeneratedGame.t) (html instructions : option jsstring)
    (audio : option GameAudio.t) (manifest : ForgeManifest.t) : GeneratedGame.t :=
  {| GeneratedGame.title := GeneratedGame.title blueprint;
     GeneratedGame.summary := GeneratedGame.summary blueprint;
     GeneratedGame.html := html;
     GeneratedGame.instructions := instructions;
     GeneratedGame.recommendedEngine := GeneratedGame.recommendedEngine blueprint;
     GeneratedGame.language := GeneratedGame.language blueprint;
     GeneratedGame.architecture := GeneratedGame.architecture blueprint;
     GeneratedGame.techStack := GeneratedGame.techStack blueprint;
     GeneratedGame.prerequisites := GeneratedGame.prerequisites blueprint;
     GeneratedGame.audio := audio;
     GeneratedGame.manifest := Some manifest;
     GeneratedGame.coreMechanics := GeneratedGame.coreMechanics blueprint;
     GeneratedGame.visualRequirements := GeneratedGame.visualRequirements blueprint |}.

(** [generateShortHash] and [ENGINE_VERSION] are imported from modules
    that are not among the sources; [stringify] stands for
    [JSON.stringify] over the caller's object, whose key order is its
    own, and [now] for what [Date.now()] gives. The provider is the one
    [getAIClient()] returns. *)
Section Prototype.
Variable generateShortHash : jsstring -> jsstring.
Variable ENGINE_VERSION : jsstring.
Variable stringify : GeneratedGame.t -> jsstring.

Definition build_manifest (now : Z) (blueprint : GeneratedGame.t) (prefs : UserPreferences.t)
    (html : jsstring) : ForgeManifest.t :=
  let specHash := generateShortHash (stringify blueprint) in
  let buildHash := generateShortHash html in
  {| ForgeManifest.version := ENGINE_VERSION;
     ForgeManifest.timestamp := now;
     ForgeManifest.seed := UserPreferences.seed prefs;
     ForgeManifest.specHash := specHash;
     ForgeManifest.buildHash := buildHash;
     ForgeManifest.platform := UserPreferences.platform prefs;
     ForgeManifest.quality := UserPreferences.quality prefs;
     ForgeManifest.parentHash := None |}.

Definition generatePrototype (ai : Provider) (now : Z) (blueprint : loc)
    (prefs : UserPreferences.t) (audio : option GameAudio.t)
    (onStatus : option (jsstring -> World -> World)) : M GeneratedGame.t :=
  run! notify onStatus (lit "Synthesizing Shaders & Logic...") in
  try_catch
    (let! game := deref blueprint in
     let! response := generateContent ai (prototypeRequest game prefs audio) in
     let! prototypeData := parseAndSanitize (or_string response (lit "{}")) in
     run! validateStructure prototypeData [lit "html"; lit "instructions"]
            (lit "Prototype Builder") in
     (* Generate Manifest *)
     let! game := deref blueprint in
     let! html := prop (lit "html") prototypeData in
     let! hashed := truthy_string html in
     let manifest := build_manifest now game prefs (or_string hashed []) in
     let! html := string_field html in
     let! instructions := prop (lit "instructions") prototypeData in
     let! instructions := string_field instructions in
     ret (with_build game html instructions audio manifest))
    (fun error => throw (new_Error (lit "Prototype Generation Failed: " ++ message error))).

End Prototype.

(** ** The blueprint phase, in two requests

    [stringify_indented] stands for [JSON.stringify(value, null, 2)]. *)
Section Blueprint.
Variable stringify_indented : Json.JSON -> jsstring.

Definition QuantizeRequirements (prefs : UserPreferences.t) : jsstring :=
  lit "
    Act as a Lead Game Designer.
    Analyze these User Specifications and output a 'Quantized Spec Sheet' (JSON).

    Specs:
    - Target Engine: "
  ++ (UserPreferences.gameEngine prefs)
  ++ lit "
    - Genre: "
  ++ (UserPreferences.genre prefs)
  ++ lit "
    - Visual Style: "
  ++ (UserPreferences.visualStyle prefs)
  ++ lit "
    - Camera: "
  ++ (UserPreferences.cameraPerspective prefs)
  ++ lit "
    - Environment: "
  ++ (UserPreferences.environmentType prefs)
  ++ lit "
    - Atmosphere: "
  ++ (UserPreferences.atmosphere prefs)
  ++ lit "
    - Pacing: "
  ++ (UserPreferences.pacing prefs)
  ++ lit "
    - Concept: "
  ++ (UserPreferences.projectDescription prefs)
  ++ lit "
    - Seed: "
  ++ (UserPreferences.seed prefs)
  ++ lit "

    Task:
    Extract Title, Summary, Mechanics, and Visual Requirements.
    Output pure JSON. Be creative but concise.
  ".

Definition ArchitectSystem (specData : Json.JSON) (prefs : UserPreferences.t) : jsstring :=
  lit "
    Act as a Software Architect.
    Using this Quantized Spec Sheet, design the system architecture.

    Spec Sheet:
    "
  ++ stringify_indented specData
  ++ lit "

    Platform: "
  ++ (UserPreferences.platform prefs)
  ++ lit "
    Engine: "
  ++ (UserPreferences.gameEngine prefs)
  ++ lit "
    Preferred Architecture Style: "
  ++ (UserPreferences.architectureStyle prefs)
  ++ lit "
    Target Capabilities: GPU: "
  ++ (CapabilityFlags.gpuTier (UserPreferences.capabilities prefs))
  ++ lit "

    Task:
    Generate Architecture, Tech Stack, and Prerequisites.
    
    STRICT RULES:
    1. Output pure JSON only.
    2. 'nodes' must describe the actual Core Loop components for this specific game.
    3. Ensure descriptions are meaningful and distinct.
    4. KEEP STRINGS CONCISE to avoid JSON errors.
  ".

Definition specRequest (prefs : UserPreferences.t) : GenerateContentParameters :=
  {| model := lit "gemini-3-pro-preview";
     contents := QuantizeRequirements prefs;
     config := {| responseMimeType := lit "application/json";
                  responseSchema := specSchema;
                  thinkingBudget := 1024;
                  maxOutputTokens := 16384 |} |}.

Definition architectureRequest (specData : Json.JSON) (prefs : UserPreferences.t) :
    GenerateContentParameters :=
  {| model := lit "gemini-3-pro-preview";
     contents := ArchitectSystem specData prefs;
     config := {| responseMimeType := lit "application/json";
                  responseSchema := architectureSchema;
                  thinkingBudget := 2048;
                  maxOutputTokens := 32768 |} |}.

(** The members of [source] written over [target], one after the other. *)
Definition spread (source target : list (jsstring * Json.JSON)) : list (jsstring * Json.JSON) :=
  fold_left (fun acc member => Json.set (fst member) (snd member) acc) source target.

(** [{ ...specData, ...archData }] over two objects. *)
Definition merged (specData archData : Json.JSON) : M Json.JSON :=
  match specData, archData with
  | JObj spec, JObj arch => ret (JObj (spread arch (spread spec [])))
  | _, _ => beyond
  end.

Definition generateBlueprint (ai : Provider) (prefs : UserPreferences.t)
    (onStatus : option (jsstring -> World -> World)) : M Json.JSON :=
  (* STEP 1: QUANTIZE REQUIREMENTS *)
  run! notify onStatus (lit "Quantizing Requirements...") in
  let! specData :=
    try_catch
      (let! response := generateContent ai (specRequest prefs) in
       let! specData := parseAndSanitize (or_string response (lit "{}")) in
       run! validateStructure specData [lit "title"; lit "summary"; lit "coreMechanics"]
              (lit "Blueprint Spec") in
       ret specData)
      (fun e => throw (new_Error (lit "Failed to quantize requirements: " ++ message e))) in
  (* STEP 2: GENERATE ARCHITECTURE *)
  run! notify onStatus (lit "Architecting System...") in
  let! archData :=
    try_catch
      (let! response := generateContent ai (architectureRequest specData prefs) in
       let! archData := parseAndSanitize (or_string response (lit "{}")) in
       run! validateStructure archData [lit "architecture"; lit "techStack"]
              (lit "Blueprint Architecture") in
       ret archData)
      (fun e => throw (new_Error (lit "Failed to generate architecture: " ++ message e))) in
  merged specData archData.

End Blueprint.

(** ** [{ ...value }] over any value

    The own enumerable properties of a value, as a spread copies them: the
    members of an object, the items of an array and the code units of a
    string under their indices, and nothing for the other values. *)

Fixpoint decimal_from (fuel n : nat) (acc : jsstring) : jsstring :=
  match fuel with
  | O => acc
  | S fuel' =>
      let digit := (N.of_nat (n mod 10) + 48)%N in
      if (n <? 10)%nat then digit :: acc
      else decimal_from fuel' (n / 10) (digit :: acc)
  end.

Definition index_key (i : nat) : jsstring := decimal_from (S i) i [].

Fixpoint indexed {A} (f : A -> Json.JSON) (i : nat) (l : list A) : list (jsstring * Json.JSON) :=
  match l with
  | [] => []
  | x :: rest => (index_key i, f x) :: indexed f (S i) rest
  end.

Definition own_members (v : Json.JSON) : list (jsstring * Json.JSON) :=
  match v with
  | JObj members => members
  | JArr items => indexed (fun item => item) 0 items
  | JStr s => indexed (fun c => JStr [c]) 0 s
  | JNull | JBool _ | JNum _ => []
  end.

(** ** The blueprint and prototype phases as [services/geminiService.ts]
    has them

    The file still holds the two phases as they were before the
    generators and the registry were split off: each builds its prompt
    itself and validates nothing of what it reads. *)
Module Monolith.

Section Blueprint.
Variable stringify_indented : Json.JSON -> jsstring.

Definition quantizationPrompt (prefs : UserPreferences.t) : jsstring :=
  lit "
    Act as a Lead Game Designer.
    Analyze these User Specifications and output a 'Quantized Spec Sheet' (JSON).

    Specs:
    - Genre: "
  ++ (UserPreferences.genre prefs)
  ++ lit "
    - Visual Style: "
  ++ (UserPreferences.visualStyle prefs)
  ++ lit "
    - Camera: "
  ++ (UserPreferences.cameraPerspective prefs)
  ++ lit "
    - Environment: "
  ++ (UserPreferences.environmentType prefs)
  ++ lit "
    - Atmosphere: "
  ++ (UserPreferences.atmosphere prefs)
  ++ lit "
    - Pacing: "
  ++ (UserPreferences.pacing prefs)
  ++ lit "
    - Concept: "
  ++ (UserPreferences.projectDescription prefs)
  ++ lit "
    - Seed: "
  ++ (UserPreferences.seed prefs)
  ++ lit " (Use this for any procedural generation logic)

    Task:
    Extract Title, Summary, Mechanics, and Visual Requirements.
    Output pure JSON. Be creative but concise.
  ".

Definition architecturePrompt (specData : Json.JSON) (prefs : UserPreferences.t) : jsstring :=
  lit "
    Act as a Software Architect.
    Using this Quantized Spec Sheet, design the system architecture.

    Spec Sheet:
    "
  ++ stringify_indented specData
  ++ lit "

    Platform: "
  ++ (UserPreferences.platform prefs)
  ++ lit "
    Preferred Architecture Style: "
  ++ (UserPreferences.architectureStyle prefs)
  ++ lit "
    Target Capabilities: GPU: "
  ++ (CapabilityFlags.gpuTier (UserPreferences.capabilities prefs))
  ++ lit ", Input: "
  ++ (CapabilityFlags.input (UserPreferences.capabilities prefs))
  ++ lit "

    Task:
    Generate Architecture, Tech Stack, and Prerequisites.
    
    STRICT RULES:
    1. Output pure JSON only.
    2. 'nodes' must describe the actual Core Loop components for this specific game.
    3. Do NOT use placeholder text like "
  ++ dq
  ++ lit "description description"
  ++ dq
  ++ lit ".
    4. Ensure descriptions are meaningful and distinct.
    5. KEEP STRINGS CONCISE to avoid JSON errors.
  ".

Definition specRequest (prefs : UserPreferences.t) : GenerateContentParameters :=
  {| model := lit "gemini-3-pro-preview";
     contents := quantizationPrompt prefs;
     config := {| responseMimeType := lit "application/json";
                  responseSchema := specSchema;
                  thinkingBudget := 1024;
                  maxOutputTokens := 16384 |} |}.

Definition architectureRequest (specData : Json.JSON) (prefs : UserPreferences.t) :
    GenerateContentParameters :=
  {| model := lit "gemini-3-pro-preview";
     contents := architecturePrompt specData prefs;
     config := {| responseMimeType := lit "application/json";
                  responseSchema := architectureSchema;
                  thinkingBudget := 2048;
                  maxOutputTokens := 32768 |} |}.

Definition generateBlueprint (ai : Provider) (prefs : UserPreferences.t)
    (onStatus : option (jsstring -> World -> World)) : M Json.JSON :=
  (* STEP 1: QUANTIZE REQUIREMENTS *)
  run! notify onStatus (lit "Quantizing Requirements...") in
  let! specData :=
    try_catch
      (let! response := generateContent ai (specRequest prefs) in
       parseAndSanitize (or_string response (lit "{}")))
      (fun e => throw (new_Error (lit "Failed to quantize requirements: " ++ message e))) in
  (* STEP 2: GENERATE ARCHITECTURE *)
  run! notify onStatus (lit "Architecting System...") in
  let! archData :=
    try_catch
      (let! response := generateContent ai (architectureRequest specData prefs) in
       parseAndSanitize (or_string response (lit "{}")))
      (fun e => throw (new_Error (lit "Failed to generate architecture: " ++ message e))) in
  ret (JObj (spread (own_members archData) (spread (own_members specData) []))).

End Blueprint.

Definition telemetry_loop : jsstring :=
  lit "You MUST inject the following telemetry loop at the end of your requestAnimationFrame loop:
        // --- TELEMETRY INJECTION ---
        if (window.parent) {
             const now = performance.now();
             if (!window.lastTelUpdate || now - window.lastTelUpdate > 500) { // Update every 500ms
                 window.lastTelUpdate = now;
                 // Estimate fps roughly or use a frame counter
                 const fps = Math.round(1000 / (now - (window.lastFrameTime || now))); 
                 window.lastFrameTime = now;
                 const entities = scene ? scene.children.length : 0;
                 window.parent.postMessage({ type: 'forge-telemetry', fps: fps, entities: entities }, '*');
             }
        }".

Definition prototypePrompt (blueprint : GeneratedGame.t) (prefs : UserPreferences.t)
    (audioContextStr gpuRules : jsstring) : jsstring :=
  lit "
    Act as an Expert 3D Web Graphics Engineer.

    BLUEPRINT:
    - Title: "
  ++ (GeneratedGame.title blueprint)
  ++ lit "
    - Summary: "
  ++ (GeneratedGame.summary blueprint)
  ++ lit "
    - Mechanics: "
  ++ stringify_strings (GeneratedGame.coreMechanics blueprint)
  ++ lit "
    - Visuals: "
  ++ stringify_strings (GeneratedGame.visualRequirements blueprint)
  ++ lit "

    USER SETTINGS (Strict Enforcement):
    - Style: "
  ++ (UserPreferences.visualStyle prefs)
  ++ lit "
    - Camera: "
  ++ (UserPreferences.cameraPerspective prefs)
  ++ lit "
    - Env: "
  ++ (UserPreferences.environmentType prefs)
  ++ lit "
    - Atmo: "
  ++ (UserPreferences.atmosphere prefs)
  ++ lit "
    - PROTOTYPE QUALITY: "
  ++ (UserPreferences.quality prefs)
  ++ lit "
    - GPU TIER: "
  ++ (CapabilityFlags.gpuTier (UserPreferences.capabilities prefs))
  ++ lit "
    
    "
  ++ gpuRules
  ++ lit "
    
    DETERMINISTIC SEED: "
  ++ dq
  ++ (UserPreferences.seed prefs)
  ++ dq
  ++ lit "
    You MUST implement a seeded random number generator (PRNG) and use it for ALL procedural generation (positions, colors, loot).
    
    AUDIO SYSTEM:
    "
  ++ audioContextStr
  ++ lit "

    Task:
    Build a single-file HTML/JS/WebGL prototype (Three.js).
    
    CRITICAL IMPLEMENTATION RULES (READ CAREFULLY):
    1. Imports: 
       - Core: import * as THREE from 'https://unpkg.com/three@0.160.0/build/three.module.js';
       - Controls (FPS): import { PointerLockControls } from 'https://unpkg.com/three@0.160.0/examples/jsm/controls/PointerLockControls.js';
       - Controls (Orbit): import { OrbitControls } from 'https://unpkg.com/three@0.160.0/examples/jsm/controls/OrbitControls.js';
    
    2. MODULE BOUNDARIES:
       - You MUST organize code into commented sections:
       // --- MODULE: CORE ---
       // --- MODULE: RENDERER ---
       // --- MODULE: INPUT ---
       // --- MODULE: PHYSICS ---
       // --- MODULE: GAMEPLAY ---
    
    3. 'CLICK TO PLAY' OVERLAY (MANDATORY):
       - You MUST include a <div id="
  ++ dq
  ++ lit "overlay"
  ++ dq
  ++ lit ">...</div> covering the screen.
       - You MUST add a click event listener to this overlay that:
         a) Hides the overlay (style.display = 'none').
         b) Initializes 'window.audioCtx = new (window.AudioContext || window.webkitAudioContext)()'.
         c) Resumes AudioContext.
         d) CALLS THE 'playMusic(window.audioCtx)' FUNCTION PROVIDED ABOVE.
         e) Locks Pointer (controls.lock() or document.body.requestPointerLock()).
    
    4. TELEMETRY:
       "
  ++ (if CapabilityFlags.telemetry (UserPreferences.capabilities prefs) then telemetry_loop else [])
  ++ lit "

    5. SEED IMPLEMENTATION:
       Include this class and use 'rng.next()' instead of 'Math.random()':
       class SeededRandom {
          constructor(seed) { this.seed = this.hash(seed); }
          hash(str) { let h = 0xdeadbeef; for(let i=0;i<str.length;i++) h = Math.imul(h ^ str.charCodeAt(i), 2654435761); return (h ^ h >>> 16) >>> 0; }
          next() { this.seed = (this.seed * 1664525 + 1013904223) % 4294967296; return this.seed / 4294967296; }
       }
       const rng = new SeededRandom("
  ++ dq
  ++ (UserPreferences.seed prefs)
  ++ dq
  ++ lit ");

    Output: JSON with 'html' string and 'instructions'.
  ".

Definition gpuRules (gpuTier : jsstring) : jsstring :=
  if JsString.eqb gpuTier (lit "low") then
    lit "STRICT CONSTRAINTS: LOW POLY ONLY. MAX 100 INSTANCES. NO DYNAMIC SHADOWS. USE BAKED LIGHTING OR VERTEX COLORS. MOBILE OPTIMIZED SHADERS."
  else
    lit "CONSTRAINTS: HIGH POLY ALLOWED. DYNAMIC LIGHTING ENABLED. POST-PROCESSING (BLOOM) ALLOWED. TARGET 60FPS DESKTOP.".

Definition prototypeRequest (blueprint : GeneratedGame.t) (prefs : UserPreferences.t)
    (audio : option GameAudio.t) : GenerateContentParameters :=
  {| model := lit "gemini-3-pro-preview";
     contents :=
       prototypePrompt blueprint prefs (audioContextStr audio)
         (gpuRules (CapabilityFlags.gpuTier (UserPreferences.capabilities prefs)));
     config := {| responseMimeType := lit "application/json";
                  responseSchema := prototypeSchema;
                  thinkingBudget := 4096;
                  maxOutputTokens := 65536 |} |}.

Section Prototype.
Variable generateShortHash : jsstring -> jsstring.
Variable stringify : GeneratedGame.t -> jsstring.

Definition build_manifest (now : Z) (blueprint : GeneratedGame.t) (prefs : UserPreferences.t)
    (html : jsstring) : ForgeManifest.t :=
  let specHash := generateShortHash (stringify blueprint) in
  let buildHash := generateShortHash html in
  {| ForgeManifest.version := lit "1.0.0";
     ForgeManifest.timestamp := now;
     ForgeManifest.seed := UserPreferences.seed prefs;
     ForgeManifest.specHash := specHash;
     ForgeManifest.buildHash := buildHash;
     ForgeManifest.platform := UserPreferences.platform prefs;
     ForgeManifest.quality := UserPreferences.quality prefs;
     ForgeManifest.parentHash := None |}.

Definition generatePrototype (ai : Provider) (now : Z) (blueprint : loc)
    (prefs : UserPreferences.t) (audio : option GameAudio.t)
    (onStatus : option (jsstring -> World -> World)) : M GeneratedGame.t :=
  run! notify onStatus (lit "Synthesizing Shaders & Logic...") in
  let! game := deref blueprint in
  try_catch
    (let! response := generateContent ai (prototypeRequest game prefs audio) in
     let! prototypeData := parseAndSanitize (or_string response (lit "{}")) in
     (* Generate Manifest *)
     let! game := deref blueprint in
     let! html := prop (lit "html") prototypeData in
     let! hashed := truthy_string html in
     let manifest := build_manifest now game prefs (or_string hashed []) in
     let! html := string_field html in
     let! instructions := prop (lit "instructions") prototypeData in
     let! instructions := string_field instructions in
     ret (with_build game html instructions audio manifest))
    (fun error => throw (new_Error (lit "Prototype Generation Failed: " ++ message error))).

End Prototype.

End Monolith.

(** ** Notions used to state the properties *)

(** A pattern [t] finds nothing in [o], at any position. *)
Definition no_match (t : jsstring -> option nat) (o : jsstring) : Prop :=
  forall p q, o = p ++ q -> t q = None.

Fixpoint tails (s : jsstring) : list jsstring :=
  match s with
  | [] => []
  | _ :: t => s :: tails t
  end.

(** A state of the data-URI automaton none of whose items takes [h]. *)
Definition item_refuses (h : char) (it : Pattern.item) : Prop :=
  match it with
  | Pattern.Chr x => (h =? x)%N = false
  | Pattern.Plus cls => cls h = false
  end.

Definition uri_refuses (h : char) (q : Pattern.uri_state) : Prop :=
  Forall (item_refuses h) (snd q).

(** The number of places of [hay] where [needle] stands. *)
Fixpoint occurrences (needle hay : jsstring) : nat :=
  ((if starts_with needle hay then 1 else 0)
   + match hay with
     | [] => 0
     | _ :: t => occurrences needle t
     end)%nat.

(** [hay] with the first [needle] replaced by [new], letter for letter;
    [hay] itself when [needle] is not in it. *)
Fixpoint replace_first (needle new hay : jsstring) : jsstring :=
  match hay with
  | [] => if starts_with needle [] then new else []
  | c :: t =>
      if starts_with needle hay then new ++ skipn (length needle) hay
      else c :: replace_first needle new t
  end.

(** No dollar sign in a replacement text. *)
Definition dollar_free (s : jsstring) : Prop := ~ In 36%N s.

(** A world that holds one object, at reference 1, and an empty console. *)
Definition world_of (game : GeneratedGame.t) : World :=
  {| objects := {[ 1%positive := game ]}; console := [] |}.

(** *** A game, its manifest and some preferences, for the examples *)

Definition demo_manifest : ForgeManifest.t :=
  {| ForgeManifest.version := lit "1.0.0";
     ForgeManifest.timestamp := 1700000000000;
     ForgeManifest.seed := lit "abc123";
     ForgeManifest.specHash := lit "5f3a";
     ForgeManifest.buildHash := lit "9c1e";
     ForgeManifest.platform := lit "Web (WebGL/WebGPU)";
     ForgeManifest.quality := lit "Sketch (Low Detail, Fast)";
     ForgeManifest.parentHash := None |}.

Definition demo_game (html : jsstring) : GeneratedGame.t :=
  {| GeneratedGame.title := lit "Neon Run";
     GeneratedGame.summary := lit "Dodge blocks at speed.";
     GeneratedGame.html := Some html;
     GeneratedGame.instructions := Some (lit "Arrows to move.");
     GeneratedGame.recommendedEngine := lit "Three.js";
     GeneratedGame.language := lit "JavaScript";
     GeneratedGame.architecture :=
       {| Architecture.style := lit "ECS";
          Architecture.description := lit "Entities and systems.";
          Architecture.nodes :=
            [{| ArchitectureNode.name := lit "Loop";
                ArchitectureNode.type := lit "system";
                ArchitectureNode.description := lit "Steps the world." |}] |};
     GeneratedGame.techStack :=
       [{| TechStackItem.category := lit "Rendering";
           TechStackItem.name := lit "Three.js";
           TechStackItem.description := lit "WebGL scene graph.";
           TechStackItem.link := None |}];
     GeneratedGame.prerequisites :=
       [{| Prerequisite.item := lit "Browser";
           Prerequisite.command := None;
           Prerequisite.importance := lit "Critical" |}];
     GeneratedGame.audio :=
       Some {| GameAudio.description := lit "Square waves.";
               GameAudio.backgroundMusic := lit "function playMusic(ctx) {}";
               GameAudio.soundEffects :=
                 [{| SoundEffect.name := lit "jump";
                     SoundEffect.trigger := lit "Player presses Space";
                     SoundEffect.code := lit "function playJump(ctx) {}" |}] |};
     GeneratedGame.manifest := Some demo_manifest;
     GeneratedGame.coreMechanics := Some [lit "dodge"; lit "dash"];
     GeneratedGame.visualRequirements := Some [lit "Neon Bloom"] |}.

Definition demo_prefs (gameEngine : jsstring) : UserPreferences.t :=
  {| UserPreferences.genre := lit "Arcade / Action";
     UserPreferences.platform := lit "Web (WebGL/WebGPU)";
     UserPreferences.gameEngine := gameEngine;
     UserPreferences.skillLevel := lit "Beginner";
     UserPreferences.architectureStyle := lit "AI Recommended";
     UserPreferences.projectDescription := lit "A fast dodging game.";
     UserPreferences.visualStyle := lit "Cyberpunk / Neon";
     UserPreferences.cameraPerspective := lit "Third Person (Over Shoulder)";
     UserPreferences.environmentType := lit "Arena / Enclosed";
     UserPreferences.atmosphere := lit "Night / Neon";
     UserPreferences.pacing := lit "Fast / Arcade";
     UserPreferences.seed := lit "abc123";
     UserPreferences.quality := lit "Sketch (Low Detail, Fast)";
     UserPreferences.capabilities :=
       {| CapabilityFlags.gpuTier := lit "low";
          CapabilityFlags.input := lit "mouse";
          CapabilityFlags.telemetry := true |} |}.

(** A provider that answers every request with the same text. *)
Definition answering (text : jsstring) : Provider := fun _ => Resolved (Some text).

(** A provider that rejects every request. *)
Definition rejecting (text : jsstring) : Provider := fun _ => Rejected (new_Error text).

(** The text of a patch response with the given edits, and of one edit. *)
Definition edit_text (search replacement : jsstring) : jsstring :=
  lit "{" ++ dq ++ lit "search" ++ dq ++ lit ":" ++ QuoteJSONString search
  ++ lit "," ++ dq ++ lit "replace" ++ dq ++ lit ":" ++ QuoteJSONString replacement
  ++ lit "}".

Definition patch_text (edits : list jsstring) : jsstring :=
  lit "{" ++ dq ++ lit "editMode" ++ dq ++ lit ":" ++ dq ++ lit "patch" ++ dq
  ++ lit "," ++ dq ++ lit "edits" ++ dq ++ lit ":[" ++ join (lit ",") edits ++ lit "]}".

Definition rewrite_text (fullCode : jsstring) : jsstring :=
  lit "{" ++ dq ++ lit "editMode" ++ dq ++ lit ":" ++ dq ++ lit "rewrite" ++ dq
  ++ lit "," ++ dq ++ lit "fullCode" ++ dq ++ lit ":" ++ QuoteJSONString fullCode ++ lit "}".

(** A computation that leaves the caller's objects as they are. *)
Definition keeps_objects {A} (c : M A) : Prop :=
  forall w, objects (snd (c w)) = objects w.

(** The one error of the sanitizer. *)
Definition invalid_response : Error :=
  new_Error (lit "The AI generated an invalid response structure. Please try again.").

(** A world with no object and an empty console. *)
Definition empty_world : World := {| objects := ∅; console := [] |}.

(** The world after a line on the console. *)
Definition logged (level : console_level) (args : list console_arg) (w : World) : World :=
  {| objects := objects w; console := (level, args) :: console w |}.

Definition patch_skipped : list console_arg :=
  [Text (lit "Patch skipped - strict match failed. Attempting fuzzy match is risky, skipping.")].

(** ** Notions used to state the further properties *)

(** A number as the pattern of the geometry arrays reads one: white
    space, then a sign or none, then digits, or digits (or none), a point
    and digits. *)
Module Entry.
Record t := { space : jsstring; negative : bool; whole : jsstring; fraction : jsstring }.
End Entry.

Definition entry_text (e : Entry.t) : jsstring :=
  Entry.space e
  ++ (if Entry.negative e then [45%N] else [])
  ++ Entry.whole e
  ++ match Entry.fraction e with
     | [] => []
     | _ :: _ => 46%N :: Entry.fraction e
     end.

Definition is_entry (e : Entry.t) : bool :=
  forallb is_js_space (Entry.space e)
  && forallb is_digit (Entry.whole e)
  && forallb is_digit (Entry.fraction e)
  && (0 <? length (Entry.whole e) + length (Entry.fraction e))%nat.

(** The text of an array literal: the entries between brackets, a comma
    between two of them, and white space or none before the closing
    bracket. *)
Definition array_literal (entries : list Entry.t) (trail : jsstring) : jsstring :=
  [91%N] ++ join [44%N] (List.map entry_text entries) ++ trail ++ [93%N].

(** The state after a number: its last digit was one of the whole part
    or one of the fraction. *)
Definition closing (q : Pattern.array_state) (k : nat) : Prop :=
  q = Pattern.A_int k \/ q = Pattern.A_frac k.

(** The entry of a whole number without sign. *)
Definition whole_number (digits : string) : Entry.t :=
  {| Entry.space := []; Entry.negative := false; Entry.whole := lit digits;
     Entry.fraction := [] |}.

(** A text in which the compressor finds nothing to hide. *)
Definition nothing_to_hide (s : jsstring) : Prop :=
  no_match Pattern.base64_uri s /\ no_match Pattern.numeric_array s.

(** The text of a base64 data URI. *)
Definition data_uri (type subtype payload : jsstring) : jsstring :=
  lit "data:" ++ type ++ lit "/" ++ subtype ++ lit ";base64," ++ payload.

(** A non-empty string over a class of characters. *)
Definition word_of (cls : char -> bool) (w : jsstring) : Prop :=
  w <> [] /\ forallb cls w = true.

(** A text that ends the data URI standing before it: empty, or opened
    by a character outside the base64 alphabet. *)
Definition ends_payload (post : jsstring) : Prop :=
  match post with
  | [] => True
  | c :: _ => is_base64 c = false
  end.

(** A text after which a data URI starts afresh: empty, or closed by a
    character that no item of the data-URI pattern takes. *)
Definition opens_uri (pre : jsstring) : Prop :=
  match last pre with
  | None => True
  | Some h => Forall (item_refuses h) Pattern.base64_uri_items
  end.

(** The console after [n] warnings of a skipped patch. *)
Fixpoint skipped (n : nat) (w : World) : World :=
  match n with
  | O => w
  | S k => logged c_warn patch_skipped (skipped k w)
  end.

(** An edit of a patch response whose search text is [search], a string
    that is not empty, and whose replace text is a string. *)
Definition edit_searching (search : jsstring) (edit : Json.JSON) : Prop :=
  exists members replacement,
    edit = JObj members
    /\ Json.get (lit "search") members = Some (JStr search)
    /\ Json.get (lit "replace") members = Some (JStr replacement)
    /\ search <> [].

Definition rewrite_logged (w : World) : World :=
  logged c_log [Text (lit "Refinement strategy: REWRITE")] w.

Definition patch_logged (w : World) : World :=
  logged c_log [Text (lit "Refinement strategy: PATCH")] w.

(** The world after the status callback, when there is one. *)
Definition after_status (onStatus : option (jsstring -> World -> World)) (status : jsstring)
    (w : World) : World :=
  snd (notify onStatus status w).

(** Stand-ins for the two imports of the prototype generator and for the
    serialiser, for the examples. *)
Definition demo_hash (s : jsstring) : jsstring := lit "h" ++ rev s.
Definition demo_version : jsstring := lit "0.9.0".
Definition demo_stringify (game : GeneratedGame.t) : jsstring :=
  QuoteJSONString (GeneratedGame.title game).

(** The text of a prototype response. *)
Definition prototype_text (html instructions : jsstring) : jsstring :=
  lit "{" ++ dq ++ lit "html" ++ dq ++ lit ":" ++ QuoteJSONString html
  ++ lit "," ++ dq ++ lit "instructions" ++ dq ++ lit ":" ++ QuoteJSONString instructions
  ++ lit "}".

(** An object whose members have pairwise distinct keys; any value that
    is not an object. *)
Definition distinct_keys (v : Json.JSON) : Prop :=
  match v with
  | JObj members => NoDup (List.map fst members)
  | _ => True
  end.

Definition frame_distinct (f : Json.frame) : Prop :=
  match f with
  | Json.F_object members _ => NoDup (List.map fst members)
  | Json.F_array _ => True
  end.

Definition mode_distinct (md : Json.mode) : Prop :=
  match md with
  | Json.M_done v => distinct_keys v
  | _ => True
  end.

(** A provider that answers the request of the spec sheet with one text
    and any other request with another. *)
Definition answering_blueprint (prefs : UserPreferences.t) (spec arch : jsstring) : Provider :=
  fun request =>
    if JsString.eqb (contents request) (QuantizeRequirements prefs)
    then Resolved (Some spec) else Resolved (Some arch).

Definition demo_indented (v : Json.JSON) : jsstring := lit "{...}".

(** One request of a phase: the provider answers, the sanitizer reads
    [data] in the answer and [validateStructure] accepts it. *)
Definition phase_success (ai : Provider) (request : GenerateContentParameters)
    (requiredKeys : list jsstring) (context : jsstring) (w : World) (data : Json.JSON) : Prop :=
  exists text,
    ai request = Resolved text
    /\ fst (parseAndSanitize (or_string text (lit "{}")) w) = Normal data
    /\ fst (validateStructure data requiredKeys context w) = Normal data.

(** The request fails with [cause]: the provider rejects it, the
    sanitizer throws on the answer, or [validateStructure] throws on what
    was read. *)
Definition phase_failure (ai : Provider) (request : GenerateContentParameters)
    (requiredKeys : list jsstring) (context : jsstring) (w : World) (cause : Error) : Prop :=
  ai request = Rejected cause
  \/ exists text,
       ai request = Resolved text
       /\ (fst (parseAndSanitize (or_string text (lit "{}")) w) = Throw cause
           \/ exists data,
                fst (parseAndSanitize (or_string text (lit "{}")) w) = Normal data
                /\ fst (validateStructure data requiredKeys context w) = Throw cause).

(** The text of an object of the given members, each a key and the text
    of its value. *)
Definition object_text (members : list (string * jsstring)) : jsstring :=
  lit "{"
  ++ join (lit ",") (List.map (fun m => dq ++ lit (fst m) ++ dq ++ lit ":" ++ snd m) members)
  ++ lit "}".

(** The html after a list of edits, each a search text and a replace
    text: an edit replaces the first occurrence of its search text in the
    html the edits before it have left, and changes nothing when the text
    is not there. *)
Fixpoint patched (edits : list (jsstring * jsstring)) (html : jsstring) : jsstring :=
  match edits with
  | [] => html
  | (search, replacement) :: rest =>
      patched rest
        (if includes html search then replace_first search replacement html else html)
  end.

(** An edit of a patch response that says: replace [fst e] by [snd e],
    the first a string that is not empty, the second a string without
    dollar sign. *)
Definition edit_of (edit : Json.JSON) (e : jsstring * jsstring) : Prop :=
  exists members,
    edit = JObj members
    /\ Json.get (lit "search") members = Some (JStr (fst e))
    /\ Json.get (lit "replace") members = Some (JStr (snd e))
    /\ fst e <> []
    /\ dollar_free (snd e).

(** * Properties *)

(** ** [JSON.parse] on examples *)

Example parse_object :
  Json.parse (lit "{" ++ dq ++ lit "a" ++ dq ++ lit ": 1, " ++ dq ++ lit "c" ++ dq ++ lit ":[true,null,-2.5e3]}")
  = Some (JObj [(lit "a", JNum (lit "1"));
                (lit "c", JArr [JBool true; JNull; JNum (lit "-2.5e3")])]).
Proof. vm_compute. reflexivity. Qed.

Example parse_escapes :
  Json.parse (dq ++ lit "a\nA\\" ++ dq) = Some (JStr [97; 10; 65; 92]%N).
Proof. vm_compute. reflexivity. Qed.

Example parse_rejects :
  List.map Json.parse
    [lit "Here: {}"; lit "{,}"; lit "[1,]"; lit "01"; lit "1."; lit "tru"; lit "";
     lit "{} {}"; lit "[1 2]"; lit "{" ++ dq ++ lit "a" ++ dq ++ lit "}"; lit "```"]
  = List.map (fun _ => None) (seq 0 11).
Proof. vm_compute. reflexivity. Qed.

Example parse_accepts :
  List.map Json.parse [lit " {} "; lit "[]"; lit "[[],{}]"; lit "0"; lit "-0.5"; lit "null"]
  = [Some (JObj []); Some (JArr []); Some (JArr [JArr []; JObj []]);
     Some (JNum (lit "0")); Some (JNum (lit "-0.5")); Some JNull].
Proof. vm_compute. reflexivity. Qed.

(** ** The patterns and the string functions on examples *)

Example base64_uri_examples :
  List.map Pattern.base64_uri
    [lit "data:image/png;base64,iVBOR+/= and more";
     lit "data:image/png;base64,";
     lit "data:image/;base64,AAAA";
     lit "data:Image/png;base64,AAAA";
     lit "xdata:a/b;base64,AAAA"]
  = [Some 30%nat; None; None; None; None].
Proof. vm_compute. reflexivity. Qed.

Example numeric_array_examples :
  List.map Pattern.numeric_array
    [lit "[1,2,3,4,5,6,7,8,9,10,11]";
     lit "[1,2,3,4,5,6,7,8,9,10]";
     lit "[ 1, -2.5,.3,4,5,6,7,8,9,10,
 11 ];";
     lit "[1,2,3,4,5,6,7,8,9,10,11.]";
     lit "[1,2,3,4,5,6,7,8,9,10 ,11]";
     lit "[1,2,3,4,5,6,7,8,9,1e3,11]";
     lit "[1,2,3,4,5,6,7,8,9,10,11,]"]
  = [Some 25%nat; None; Some 34%nat; None; None; None; None].
Proof. vm_compute. reflexivity. Qed.

Example compress_try1 :
  compressCodeForContext (lit "a=[1,2,3,4,5,6,7,8,9,10,11,12,13,14,15];b=[1,2]")
  = lit "a=[...GEOMETRY_DATA_HIDDEN...];b=[1,2]".
Proof. vm_compute. reflexivity. Qed.

Example compress_try2 :
  compressCodeForContext (lit "src='data:image/png;base64,iVBORw0KGgo=' [1, -2.5,.3,4,5,6,7,8,9,10, 11 ]")
  = lit "src='<BASE64_DATA_HIDDEN>' [...GEOMETRY_DATA_HIDDEN...]".
Proof. vm_compute. reflexivity. Qed.

Example compress_try3 :
  compressCodeForContext (lit "[[1,2,3,4,5,6,7,8,9,10,11] data:a/;base64,AA data:a/b;base64,data:a/b;base64,AA")
  = lit "[[...GEOMETRY_DATA_HIDDEN...] data:a/;base64,AA <BASE64_DATA_HIDDEN>:a/b;base64,AA".
Proof. vm_compute. reflexivity. Qed.

Example replace_examples :
  List.map (fun r => JsString.replace (lit "a-b-c") (lit "-") r)
    [lit "+"; lit "$$"; lit "[$&]"; lit "[$`]"; lit "[$']"; lit "$1$"; lit ""]
  = [lit "a+b-c"; lit "a$b-c"; lit "a[-]b-c"; lit "a[a]b-c"; lit "a[b-c]b-c";
     lit "a$1$b-c"; lit "ab-c"]
  /\ JsString.replace (lit "abc") (lit "x") (lit "y") = lit "abc"
  /\ JsString.replace (lit "abc") [] (lit "y") = lit "yabc".
Proof. vm_compute. repeat split. Qed.

Example string_examples :
  indexOf (lit "a{b{c") (lit "{") = 1
  /\ lastIndexOf (lit "a}b}c") (lit "}") = 3
  /\ indexOf (lit "abc") (lit "{") = -1
  /\ lastIndexOf (lit "abc") (lit "}") = -1
  /\ substring (lit "abcdef") 2 4 = lit "cd"
  /\ substring (lit "abcdef") 4 2 = lit "cd"
  /\ substring (lit "abc") 0 200 = lit "abc"
  /\ trim (lit "  
 x y 	") = lit "x y"
  /\ includes (lit "abc") (lit "bc") = true
  /\ includes (lit "abc") (lit "cb") = false.
Proof. vm_compute. repeat split. Qed.

(** ** Replacing every match: when nothing is left to match *)

Section NoMatchLeft.
Variable m : jsstring -> option nat.
Variable h : char.
Variable rep' : jsstring.
Let rep : jsstring := h :: rep'.

Hypothesis m_nil : m [] = None.
Hypothesis m_pos : forall s, m s <> Some O.

Lemma no_match_tail t c o : no_match t (c :: o) -> no_match t o.
Proof. intros H p q ->. apply (H (c :: p) q). reflexivity. Qed.

Lemma no_match_fixed o : no_match m o -> replace_all_from m rep 0 o = o.
Proof.
  induction o as [|c o IH]; intros H; simpl.
  - rewrite m_nil. reflexivity.
  - rewrite (H [] (c :: o) eq_refl). f_equal. apply IH.
    eapply no_match_tail, H.
Qed.

(** The output follows the input up to the first placeholder. *)
Lemma replace_all_diverges s :
  replace_all_from m rep 0 s = s
  \/ exists u w z, s = u ++ w /\ replace_all_from m rep 0 s = u ++ h :: z.
Proof.
  induction s as [|c s IH]; simpl.
  - rewrite m_nil. left. reflexivity.
  - destruct (m (c :: s)) as [[|n]|] eqn:E.
    + exfalso. exact (m_pos _ E).
    + right. exists [], (c :: s). eexists. split; reflexivity.
    + destruct IH as [->|(u & w & z & -> & ->)].
      * left. reflexivity.
      * right. exists (c :: u), w, z. split; reflexivity.
Qed.

Section Tested.
Variable t : jsstring -> option nat.
Hypothesis t_nil : t [] = None.
Hypothesis t_local : forall c u z w, t (c :: u ++ h :: z) <> None -> t (c :: u ++ w) <> None.
Hypothesis t_rep : forall r1 r2 x, rep = r1 ++ r2 -> r2 <> [] -> t (r2 ++ x) = None.

Lemma kept_head_no_match c s :
  t (c :: s) = None -> t (c :: replace_all_from m rep 0 s) = None.
Proof.
  intros Hc. destruct (replace_all_diverges s) as [->|(u & w & z & -> & ->)]; [exact Hc|].
  destruct (t (c :: u ++ h :: z)) eqn:E; [|reflexivity].
  exfalso. apply (t_local c u z w); congruence.
Qed.

Lemma no_match_app_rep x : no_match t x -> no_match t (rep ++ x).
Proof.
  intros Hx p q Hpq.
  assert (Hsplit : (exists r2, r2 <> [] /\ rep = p ++ r2 /\ q = r2 ++ x)
                   \/ exists p', x = p' ++ q).
  { clear Hx. revert p Hpq. generalize rep. intros r.
    induction r as [|a r IH]; intros p Hpq.
    - right. exists p. exact Hpq.
    - destruct p as [|b p].
      + left. exists (a :: r). repeat split; [discriminate|]. simpl in Hpq. symmetry. exact Hpq.
      + simpl in Hpq. injection Hpq as -> Hpq.
        destruct (IH p Hpq) as [(r2 & Hne & -> & ->)|[p' ->]].
        * left. exists r2. repeat split; assumption.
        * right. exists p'. reflexivity. }
  destruct Hsplit as [(r2 & Hne & Hr & ->)|[p' ->]].
  - eapply t_rep; eassumption.
  - eapply Hx. reflexivity.
Qed.

(** After the scan, [t] finds nothing, provided it found nothing where
    the scan kept a character. *)
Lemma scan_no_match s :
  (forall p q, s = p ++ q -> m q = None -> t q = None) ->
  forall skip, no_match t (replace_all_from m rep skip s).
Proof.
  induction s as [|c s IH]; intros Hkept skip.
  - simpl. rewrite m_nil. destruct skip; intros p q Hpq;
      destruct p, q; try discriminate; exact t_nil.
  - assert (Hs : forall p q, s = p ++ q -> m q = None -> t q = None).
    { intros p q -> Hq. apply (Hkept (c :: p) q); [reflexivity|exact Hq]. }
    destruct skip as [|k]; simpl; [|apply IH, Hs].
    destruct (m (c :: s)) as [[|n]|] eqn:E.
    + exfalso. exact (m_pos _ E).
    + apply no_match_app_rep, IH, Hs.
    + intros p q Hpq. destruct p as [|b p].
      * simpl in Hpq. subst q. apply kept_head_no_match.
        apply (Hkept [] (c :: s)); [reflexivity|exact E].
      * simpl in Hpq. injection Hpq as _ Hpq.
        eapply (IH Hs 0%nat). exact Hpq.
Qed.
End Tested.

End NoMatchLeft.

(** ** The automata never read past a character they refuse *)

Section AutomatonLocal.
Context {Q : Type}.
Variable step : Q -> char -> option Q.
Variable accepting : Q -> bool.
Variable Inv : Q -> Prop.
Variable h : char.
Hypothesis Inv_step : forall q c q', Inv q -> step q c = Some q' -> Inv q'.
Hypothesis Inv_dead : forall q, Inv q -> step q h = None.

Lemma run_cut u : forall q n last z,
  Inv q -> Pattern.run step accepting q (u ++ h :: z) n last = Pattern.run step accepting q u n last.
Proof.
  induction u as [|c u IH]; intros q n last z Hq; simpl.
  - rewrite (Inv_dead q Hq). reflexivity.
  - destruct (step q c) as [q'|] eqn:E; [|reflexivity].
    apply IH. eapply Inv_step; eassumption.
Qed.

Lemma run_keeps w : forall q n last,
  last <> None -> Pattern.run step accepting q w n last <> None.
Proof.
  induction w as [|c w IH]; intros q n last Hl; simpl; [exact Hl|].
  destruct (step q c) as [q'|]; [|exact Hl].
  apply IH. destruct (accepting q'); [discriminate|exact Hl].
Qed.

Lemma run_extend u : forall q n last w,
  Pattern.run step accepting q u n last <> None ->
  Pattern.run step accepting q (u ++ w) n last <> None.
Proof.
  induction u as [|c u IH]; intros q n last w H; simpl in *.
  - apply run_keeps. exact H.
  - destruct (step q c) as [q'|]; [apply IH|]; exact H.
Qed.

Lemma longest_match_local q0 c u z w :
  (forall q', step q0 c = Some q' -> Inv q') ->
  Pattern.longest_match step accepting q0 (c :: u ++ h :: z) <> None ->
  Pattern.longest_match step accepting q0 (c :: u ++ w) <> None.
Proof.
  unfold Pattern.longest_match. simpl. intros Hq0.
  destruct (step q0 c) as [q'|]; [|intros H; exact H].
  rewrite run_cut by (apply Hq0; reflexivity).
  apply run_extend.
Qed.
End AutomatonLocal.

(** ** The compressor's patterns and its placeholders *)

Lemma tails_spec (s r1 r2 : jsstring) : s = r1 ++ r2 -> r2 <> [] -> In r2 (tails s).
Proof.
  revert s. induction r1 as [|a r1 IH]; intros s -> Hne; simpl.
  - destruct r2; [congruence|]. left. reflexivity.
  - right. apply IH; [reflexivity|exact Hne].
Qed.

Lemma starts_nowhere (t : jsstring -> option nat) (rep r1 r2 x : jsstring) :
  Forall (fun r => forall y, t (r ++ y) = None) (tails rep) ->
  rep = r1 ++ r2 -> r2 <> [] -> t (r2 ++ x) = None.
Proof.
  intros HF Hr Hne. rewrite List.Forall_forall in HF.
  apply HF. eapply tails_spec; eassumption.
Qed.

Lemma enter_refuses h items c q' :
  Forall (item_refuses h) items -> Pattern.enter items c = Some q' -> uri_refuses h q'.
Proof.
  intros HF. destruct items as [|[x|cls] r]; simpl; [discriminate| |].
  - destruct (c =? x)%N; [|discriminate]. intros [= <-].
    inversion HF; assumption.
  - destruct (cls c); [|discriminate]. intros [= <-]. exact HF.
Qed.

Lemma enter_dead h items : Forall (item_refuses h) items -> Pattern.enter items h = None.
Proof.
  intros HF. destruct items as [|[x|cls] r]; simpl; [reflexivity| |];
    inversion HF as [|? ? Hi ?]; subst; simpl in Hi; rewrite Hi; reflexivity.
Qed.

Lemma uri_step_refuses h q c q' :
  uri_refuses h q -> Pattern.uri_step q c = Some q' -> uri_refuses h q'.
Proof.
  destruct q as [[|] items]; unfold uri_refuses; simpl; intros HF.
  - destruct items as [|[x|cls] r]; try (apply enter_refuses; exact HF).
    destruct (cls c).
    + intros [= <-]. exact HF.
    + apply enter_refuses. inversion HF; assumption.
  - apply enter_refuses. exact HF.
Qed.

Lemma uri_step_dead h q : uri_refuses h q -> Pattern.uri_step q h = None.
Proof.
  destruct q as [[|] items]; unfold uri_refuses; simpl; intros HF.
  - destruct items as [|[x|cls] r]; try (apply enter_dead; exact HF).
    inversion HF as [|? ? Hi Hr]; subst. simpl in Hi. rewrite Hi.
    apply enter_dead. exact Hr.
  - apply enter_dead. exact HF.
Qed.

Lemma base64_uri_refuses h :
  Forall (item_refuses h) Pattern.base64_uri_items ->
  forall c u z w,
    Pattern.base64_uri (c :: u ++ h :: z) <> None -> Pattern.base64_uri (c :: u ++ w) <> None.
Proof.
  intros HF c u z w. unfold Pattern.base64_uri.
  apply (longest_match_local Pattern.uri_step Pattern.uri_accepting (uri_refuses h) h).
  - intros q a q'. apply uri_step_refuses.
  - apply uri_step_dead.
  - intros q'. apply uri_step_refuses. exact HF.
Qed.

Lemma base64_uri_local_lt c u z w :
  Pattern.base64_uri (c :: u ++ 60%N :: z) <> None -> Pattern.base64_uri (c :: u ++ w) <> None.
Proof. apply base64_uri_refuses. repeat constructor. Qed.

Lemma base64_uri_local_bracket c u z w :
  Pattern.base64_uri (c :: u ++ 91%N :: z) <> None -> Pattern.base64_uri (c :: u ++ w) <> None.
Proof. apply base64_uri_refuses. repeat constructor. Qed.

Lemma numeric_array_local c u z w :
  Pattern.numeric_array (c :: u ++ 91%N :: z) <> None -> Pattern.numeric_array (c :: u ++ w) <> None.
Proof.
  unfold Pattern.numeric_array.
  apply (longest_match_local Pattern.array_step Pattern.array_accepting
           (fun q => q <> Pattern.A_open) 91%N).
  - intros q a q' _. destruct q; simpl;
      repeat match goal with
             | |- context [if ?b then _ else _] => destruct b
             | |- context [Pattern.close_after ?k] => unfold Pattern.close_after
             end; intros [= <-]; discriminate.
  - intros q Hq. destruct q; try reflexivity. congruence.
  - intros q'. simpl. destruct (c =? 91)%N; intros [= <-]; discriminate.
Qed.

Lemma longest_match_positive {Q} (step : Q -> char -> option Q) accepting s :
  forall q n last, last <> Some O ->
    Pattern.run step accepting q s n last <> Some O.
Proof.
  induction s as [|c s IH]; intros q n last Hl; simpl; [exact Hl|].
  destruct (step q c) as [q'|]; [|exact Hl].
  apply IH. destruct (accepting q'); [discriminate|exact Hl].
Qed.

Lemma base64_uri_positive s : Pattern.base64_uri s <> Some O.
Proof. apply longest_match_positive. discriminate. Qed.

Lemma numeric_array_positive s : Pattern.numeric_array s <> Some O.
Proof. apply longest_match_positive. discriminate. Qed.

(** No match of either pattern starts inside a placeholder. *)
Lemma base64_uri_not_in_BASE64 :
  Forall (fun r => forall y, Pattern.base64_uri (r ++ y) = None) (tails BASE64_DATA_HIDDEN).
Proof. repeat constructor. Qed.

Lemma base64_uri_not_in_GEOMETRY :
  Forall (fun r => forall y, Pattern.base64_uri (r ++ y) = None) (tails GEOMETRY_DATA_HIDDEN).
Proof. repeat constructor. Qed.

Lemma numeric_array_not_in_GEOMETRY :
  Forall (fun r => forall y, Pattern.numeric_array (r ++ y) = None) (tails GEOMETRY_DATA_HIDDEN).
Proof. repeat constructor. Qed.

Lemma base64_gone s :
  no_match Pattern.base64_uri (replace_all Pattern.base64_uri BASE64_DATA_HIDDEN s).
Proof.
  apply (scan_no_match Pattern.base64_uri 60%N (lit "BASE64_DATA_HIDDEN>"));
    try reflexivity.
  - apply base64_uri_positive.
  - apply base64_uri_local_lt.
  - intros r1 r2 x. apply starts_nowhere. exact base64_uri_not_in_BASE64.
  - auto.
Qed.

Lemma base64_stays_gone s :
  no_match Pattern.base64_uri s ->
  no_match Pattern.base64_uri (replace_all Pattern.numeric_array GEOMETRY_DATA_HIDDEN s).
Proof.
  intros Hs.
  apply (scan_no_match Pattern.numeric_array 91%N (lit "...GEOMETRY_DATA_HIDDEN...]"));
    try reflexivity.
  - apply numeric_array_positive.
  - apply base64_uri_local_bracket.
  - intros r1 r2 x. apply starts_nowhere. exact base64_uri_not_in_GEOMETRY.
  - intros p q Hpq _. eapply Hs. exact Hpq.
Qed.

Lemma geometry_gone s :
  no_match Pattern.numeric_array (replace_all Pattern.numeric_array GEOMETRY_DATA_HIDDEN s).
Proof.
  apply (scan_no_match Pattern.numeric_array 91%N (lit "...GEOMETRY_DATA_HIDDEN...]"));
    try reflexivity.
  - apply numeric_array_positive.
  - apply numeric_array_local.
  - intros r1 r2 x. apply starts_nowhere. exact numeric_array_not_in_GEOMETRY.
  - auto.
Qed.

(** C8. Compressing a compressed text changes nothing: for every text,
    [compressCodeForContext (compressCodeForContext text)] is
    [compressCodeForContext text]. *)
Theorem compress_idempotent (code : jsstring) :
  compressCodeForContext (compressCodeForContext code) = compressCodeForContext code.
Proof.
  destruct code as [|c code]; [reflexivity|].
  set (y := replace_all Pattern.base64_uri BASE64_DATA_HIDDEN (c :: code)).
  set (o := replace_all Pattern.numeric_array GEOMETRY_DATA_HIDDEN y).
  change (compressCodeForContext (c :: code)) with o.
  assert (H1 : replace_all Pattern.base64_uri BASE64_DATA_HIDDEN o = o).
  { apply (no_match_fixed Pattern.base64_uri 60%N (lit "BASE64_DATA_HIDDEN>")); [reflexivity|].
    apply base64_stays_gone, base64_gone. }
  assert (H2 : replace_all Pattern.numeric_array GEOMETRY_DATA_HIDDEN o = o).
  { apply (no_match_fixed Pattern.numeric_array 91%N (lit "...GEOMETRY_DATA_HIDDEN...]")); [reflexivity|].
    apply geometry_gone. }
  clearbody o. clear y. destruct o as [|a o']; [reflexivity|].
  unfold compressCodeForContext. cbv zeta. rewrite H1. exact H2.
Qed.

(** ** The refinement on examples *)

Example refine_rewrite_example :
  refineGame (answering (rewrite_text (lit "<html>v2</html>"))) 1%positive (lit "more speed")
    (world_of (demo_game (lit "<html>v1</html>")))
  = (Normal (with_artifact (demo_game (lit "<html>v1</html>"))
               (Some (lit "<html>v2</html>")) (Some (lit "Arrows to move."))),
     {| objects := {[ 1%positive := demo_game (lit "<html>v1</html>") ]};
        console := [(c_log, [Text (lit "Refinement strategy: REWRITE")])] |}).
Proof. vm_compute. reflexivity. Qed.

Example refine_patch_example :
  fst (refineGame (answering (patch_text [edit_text (lit "v1") (lit "v2")])) 1%positive (lit "bump")
         (world_of (demo_game (lit "<html>v1</html>"))))
  = Normal (with_artifact (demo_game (lit "<html>v1</html>"))
              (Some (lit "<html>v2</html>")) (Some (lit "Arrows to move."))).
Proof. vm_compute. reflexivity. Qed.

Example refine_rejected_example :
  fst (refineGame (rejecting (lit "quota exceeded")) 1%positive (lit "bump")
         (world_of (demo_game (lit "<html>v1</html>"))))
  = Throw (new_Error (lit "Refinement Failed: quota exceeded")).
Proof. vm_compute. reflexivity. Qed.

(** ** The monad: inversion and the objects of the caller *)

Lemma bind_ret {A B} (a : A) (k : A -> M B) : bind (ret a) k = k a.
Proof. reflexivity. Qed.

Lemma bind_Normal_inv {A B} (c : M A) (k : A -> M B) w b w' :
  bind c k w = (Normal b, w') ->
  exists a w1, c w = (Normal a, w1) /\ k a w1 = (Normal b, w').
Proof.
  unfold bind. destruct (c w) as [[a| |] w1]; try discriminate.
  intros H. exists a, w1. split; [reflexivity|exact H].
Qed.

Lemma try_catch_Normal_inv {A} (c : M A) e0 w a w' :
  try_catch c (fun e => throw (e0 e)) w = (Normal a, w') -> c w = (Normal a, w').
Proof.
  unfold try_catch, throw. destruct (c w) as [[x| |] w1]; try discriminate.
  intros H. exact H.
Qed.

Lemma keeps_ret {A} (a : A) : keeps_objects (ret a).
Proof. intros w. reflexivity. Qed.

Lemma keeps_throw {A} e : keeps_objects (@throw A e).
Proof. intros w. reflexivity. Qed.

Lemma keeps_beyond {A} : keeps_objects (@beyond A).
Proof. intros w. reflexivity. Qed.

Lemma keeps_console_write level args : keeps_objects (console_write level args).
Proof. intros w. reflexivity. Qed.

Lemma keeps_deref l : keeps_objects (deref l).
Proof. intros w. unfold deref. destruct (objects w !! l); reflexivity. Qed.

Lemma keeps_bind {A B} (c : M A) (k : A -> M B) :
  keeps_objects c -> (forall a, keeps_objects (k a)) -> keeps_objects (bind c k).
Proof.
  intros Hc Hk w. unfold bind. specialize (Hc w).
  destruct (c w) as [[a| |] w1]; simpl in *; try exact Hc.
  rewrite (Hk a w1). exact Hc.
Qed.

Lemma keeps_try_catch {A} (c : M A) (handler : Error -> M A) :
  keeps_objects c -> (forall e, keeps_objects (handler e)) -> keeps_objects (try_catch c handler).
Proof.
  intros Hc Hh w. unfold try_catch. specialize (Hc w).
  destruct (c w) as [[a|e|] w1]; simpl in *; try exact Hc.
  rewrite (Hh e w1). exact Hc.
Qed.

Lemma keeps_generateContent ai request : keeps_objects (generateContent ai request).
Proof. unfold generateContent. destruct (ai request); [apply keeps_throw|apply keeps_ret]. Qed.

Create HintDb keeps.

#[local] Hint Resolve keeps_ret keeps_throw keeps_beyond keeps_console_write keeps_deref
  keeps_generateContent : keeps.

Ltac keeps :=
  repeat first
    [ apply keeps_bind; [|intros ?]
    | apply keeps_try_catch; [|intros ?]
    | solve [auto with keeps]
    | match goal with
      | |- keeps_objects (match ?x with _ => _ end) => destruct x
      | |- keeps_objects (if ?b then _ else _) => destruct b
      end ].

Lemma keeps_parseAndSanitize text : keeps_objects (parseAndSanitize text).
Proof. unfold parseAndSanitize. keeps. Qed.

Lemma keeps_prop key value : keeps_objects (prop key value).
Proof. unfold prop. keeps. Qed.

Lemma keeps_truthy_string v : keeps_objects (truthy_string v).
Proof. unfold truthy_string. keeps. Qed.

Lemma keeps_replacement_text v : keeps_objects (replacement_text v).
Proof. unfold replacement_text. keeps. Qed.

#[local] Hint Resolve keeps_parseAndSanitize keeps_prop keeps_truthy_string
  keeps_replacement_text : keeps.

Lemma keeps_apply_edit edit newHtml : keeps_objects (apply_edit edit newHtml).
Proof. unfold apply_edit. keeps. Qed.

#[local] Hint Resolve keeps_apply_edit : keeps.

Lemma keeps_apply_edits edits : forall newHtml, keeps_objects (apply_edits edits newHtml).
Proof.
  induction edits as [|edit rest IH]; intros newHtml; simpl.
  - apply keeps_ret.
  - apply keeps_bind; [apply keeps_apply_edit|intros html'; apply IH].
Qed.

#[local] Hint Resolve keeps_apply_edits : keeps.

Lemma keeps_refineGame ai currentGame instruction :
  keeps_objects (refineGame ai currentGame instruction).
Proof. unfold refineGame. keeps. Qed.

(** What the caller's object is, a computation that keeps the objects
    leaves it so. *)
Lemma keeps_lookup {A} (c : M A) w r w' l :
  keeps_objects c -> c w = (r, w') -> objects w' !! l = objects w !! l.
Proof. intros Hc Hw. specialize (Hc w). rewrite Hw in Hc. simpl in Hc. rewrite Hc. reflexivity. Qed.

Lemma deref_Normal_inv l w g w' :
  deref l w = (Normal g, w') -> objects w !! l = Some g /\ w' = w.
Proof.
  unfold deref. destruct (objects w !! l) as [g0|]; [|discriminate].
  intros [= -> ->]. split; reflexivity.
Qed.

(** The sanitizer gives a value and leaves the world, or throws its one
    error after a line on the console. *)
Lemma parseAndSanitize_cases text w :
  (exists v, parseAndSanitize text w = (Normal v, w))
  \/ exists w', parseAndSanitize text w = (Throw invalid_response, w').
Proof.
  unfold parseAndSanitize.
  destruct (Json.parse text) as [v|]; [left; exists v; reflexivity|].
  match goal with |- context [match ?s with Some _ => _ | None => _ end] => destruct s as [v|] end;
    [left; exists v; reflexivity|].
  match goal with |- context [match ?s with Some _ => _ | None => _ end] => destruct s as [v|] end;
    [left; exists v; reflexivity|].
  right. eexists. reflexivity.
Qed.

(** ** [refineGame]: the shape of what it returns *)

Lemma keeps_run {A} (c : M A) w r w' :
  keeps_objects c -> c w = (r, w') -> objects w' = objects w.
Proof. intros Hc Hw. specialize (Hc w). rewrite Hw in Hc. exact Hc. Qed.

(** One step of a sequence that ended well: the value [a] of the first
    computation and the world [w] it left. *)
Tactic Notation "bind_step" hyp(H) "as" ident(a) ident(w) :=
  let Hc := fresh "Hc" in
  let Ho := fresh "Ho" in
  apply bind_Normal_inv in H as (a & w & Hc & H);
  match type of Hc with
  | ?c ?w0 = (_, ?w1) =>
      assert (Ho : objects w1 = objects w0)
        by (refine (keeps_run c w0 _ w1 _ Hc); keeps)
  end.

Tactic Notation "deref_step" hyp(H) "as" ident(a) :=
  let w := fresh "w" in
  let Hc := fresh "Hc" in
  let Hl := fresh "Hl" in
  apply bind_Normal_inv in H as (a & w & Hc & H);
  apply deref_Normal_inv in Hc as [Hl ->].

Lemma refineGame_Normal_shape ai l instruction w game g' w' :
  objects w !! l = Some game ->
  refineGame ai l instruction w = (Normal g', w') ->
  exists html instructions, g' = with_artifact game (Some html) instructions.
Proof.
  intros Hgame H. unfold refineGame in H.
  deref_step H as game0. assert (game0 = game) as -> by congruence.
  apply try_catch_Normal_inv in H.
  bind_step H as response w1. bind_step H as result w2.
  deref_step H as game1. assert (game1 = game) as -> by congruence.
  bind_step H as editMode w3. bind_step H as fullCode w4.
  destruct fullCode as [code|].
  - bind_step H as u w5. deref_step H as game2.
    assert (game2 = game) as -> by congruence.
    bind_step H as given w6. bind_step H as instructions w7.
    injection H as <- _. eexists _, _. reflexivity.
  - bind_step H as u w5. bind_step H as edits w6. bind_step H as newHtml w7.
    deref_step H as game2. assert (game2 = game) as -> by congruence.
    bind_step H as given w8. bind_step H as instructions w9.
    injection H as <- _. eexists _, _. reflexivity.
Qed.

Lemma parseAndSanitize_world text w w' :
  fst (parseAndSanitize text w) = fst (parseAndSanitize text w').
Proof.
  unfold parseAndSanitize.
  destruct (Json.parse text); [reflexivity|].
  match goal with |- context [match ?s with Some _ => _ | None => _ end] => destruct s end;
    [reflexivity|].
  match goal with |- context [match ?s with Some _ => _ | None => _ end] => destruct s end;
    reflexivity.
Qed.

Lemma parseAndSanitize_Throw text w cause :
  fst (parseAndSanitize text w) = Throw cause ->
  exists w', parseAndSanitize text w = (Throw cause, w') /\ objects w' = objects w.
Proof.
  intros H. destruct (parseAndSanitize text w) as [r w'] eqn:E. simpl in H. subst r.
  exists w'. split; [reflexivity|].
  exact (keeps_run _ _ _ _ (keeps_parseAndSanitize text) E).
Qed.

(** ** Refinement: what is carried over *)

(** C10. Every field of the game returned by a successful [refineGame]
    other than [html] and [instructions] is the field of the input game:
    the audio and the manifest among them, in rewrite mode and in patch
    mode alike. *)
Theorem refineGame_carries_over ai currentGame instruction w game game' :
  objects w !! currentGame = Some game ->
  fst (refineGame ai currentGame instruction w) = Normal game' ->
  GeneratedGame.title game' = GeneratedGame.title game
  /\ GeneratedGame.summary game' = GeneratedGame.summary game
  /\ GeneratedGame.recommendedEngine game' = GeneratedGame.recommendedEngine game
  /\ GeneratedGame.language game' = GeneratedGame.language game
  /\ GeneratedGame.architecture game' = GeneratedGame.architecture game
  /\ GeneratedGame.techStack game' = GeneratedGame.techStack game
  /\ GeneratedGame.prerequisites game' = GeneratedGame.prerequisites game
  /\ GeneratedGame.audio game' = GeneratedGame.audio game
  /\ GeneratedGame.manifest game' = GeneratedGame.manifest game
  /\ GeneratedGame.coreMechanics game' = GeneratedGame.coreMechanics game
  /\ GeneratedGame.visualRequirements game' = GeneratedGame.visualRequirements game.
Proof.
  intros Hgame H.
  destruct (refineGame ai currentGame instruction w) as [r w'] eqn:E.
  simpl in H. subst r.
  destruct (refineGame_Normal_shape _ _ _ _ _ _ _ Hgame E) as (html & instructions & ->).
  repeat split.
Qed.

Lemma refineGame_carries_over_witness :
  let game := demo_game (lit "<html>v1</html>") in
  let game' := with_artifact game (Some (lit "<html>v2</html>")) (Some (lit "Arrows to move.")) in
  GeneratedGame.title game' = GeneratedGame.title game
  /\ GeneratedGame.summary game' = GeneratedGame.summary game
  /\ GeneratedGame.recommendedEngine game' = GeneratedGame.recommendedEngine game
  /\ GeneratedGame.language game' = GeneratedGame.language game
  /\ GeneratedGame.architecture game' = GeneratedGame.architecture game
  /\ GeneratedGame.techStack game' = GeneratedGame.techStack game
  /\ GeneratedGame.prerequisites game' = GeneratedGame.prerequisites game
  /\ GeneratedGame.audio game' = GeneratedGame.audio game
  /\ GeneratedGame.manifest game' = GeneratedGame.manifest game
  /\ GeneratedGame.coreMechanics game' = GeneratedGame.coreMechanics game
  /\ GeneratedGame.visualRequirements game' = GeneratedGame.visualRequirements game.
Proof.
  intros game game'.
  apply (refineGame_carries_over (answering (patch_text [edit_text (lit "v1") (lit "v2")]))
           1%positive (lit "bump") (world_of game) game game').
  - vm_compute. reflexivity.
  - vm_compute. reflexivity.
Defined.

(** C1, as the code has it. A successful [refineGame] on a game that has
    a manifest returns that very manifest: no manifest is computed from
    the new content, and [parentHash] and [buildHash] are those of the
    input. *)
Theorem refineGame_returns_input_manifest ai currentGame instruction w game m game' :
  objects w !! currentGame = Some game ->
  GeneratedGame.manifest game = Some m ->
  fst (refineGame ai currentGame instruction w) = Normal game' ->
  GeneratedGame.manifest game' = Some m.
Proof.
  intros Hgame Hm H.
  destruct (refineGame ai currentGame instruction w) as [r w'] eqn:E.
  simpl in H. subst r.
  destruct (refineGame_Normal_shape _ _ _ _ _ _ _ Hgame E) as (html & instructions & ->).
  exact Hm.
Qed.

Lemma refineGame_returns_input_manifest_witness :
  GeneratedGame.manifest
    (with_artifact (demo_game (lit "<html>v1</html>")) (Some (lit "<html>v2</html>"))
       (Some (lit "Arrows to move.")))
  = Some demo_manifest.
Proof.
  apply (refineGame_returns_input_manifest (answering (rewrite_text (lit "<html>v2</html>")))
           1%positive (lit "more speed") (world_of (demo_game (lit "<html>v1</html>")))
           (demo_game (lit "<html>v1</html>"))).
  - vm_compute. reflexivity.
  - reflexivity.
  - vm_compute. reflexivity.
Defined.

(** C1 as stated fails: a rewrite of a game whose manifest has build hash
    [9c1e] and no parent returns a game with the new [html] and the
    manifest of the input, so that no manifest of the returned game has
    the build hash of the input as its [parentHash]. *)
Lemma refineGame_parentHash_counterexample :
  let game := demo_game (lit "<html>v1</html>") in
  let game' := with_artifact game (Some (lit "<html>v2</html>")) (Some (lit "Arrows to move.")) in
  objects (world_of game) !! 1%positive = Some game
  /\ GeneratedGame.manifest game = Some demo_manifest
  /\ fst (refineGame (answering (rewrite_text (lit "<html>v2</html>"))) 1%positive
            (lit "more speed") (world_of game)) = Normal game'
  /\ GeneratedGame.html game' = Some (lit "<html>v2</html>")
  /\ GeneratedGame.manifest game' = Some demo_manifest
  /\ ForgeManifest.parentHash demo_manifest = None
  /\ ~ (exists m', GeneratedGame.manifest game' = Some m'
                   /\ ForgeManifest.parentHash m' = Some (ForgeManifest.buildHash demo_manifest)).
Proof.
  cbv zeta. repeat split; try (vm_compute; reflexivity).
  intros (m' & Hm & Hp). simpl in Hm. injection Hm as <-. discriminate Hp.
Qed.

(** ** Refinement: failure *)

(** C4. When the provider rejects the request, or the sanitizer throws on
    its response, [refineGame] throws one error whose message is
    [Refinement Failed: ] followed by the message of the cause, and the
    objects of the caller, the input game among them, are as before. *)
Theorem refineGame_failure_prefixed ai currentGame instruction w game cause :
  objects w !! currentGame = Some game ->
  (let request :=
     refineRequest instruction
       (compressCodeForContext (or_string (GeneratedGame.html game) [])) in
   ai request = Rejected cause
   \/ exists text, ai request = Resolved text
        /\ fst (parseAndSanitize (or_string text (lit "{}")) w) = Throw cause) ->
  exists w',
    refineGame ai currentGame instruction w
    = (Throw (new_Error (lit "Refinement Failed: " ++ message cause)), w')
    /\ objects w' = objects w
    /\ objects w' !! currentGame = Some game.
Proof.
  intros Hgame Hfail. cbv zeta in Hfail.
  unfold refineGame, bind at 1, deref at 1. rewrite Hgame.
  unfold try_catch, bind at 1, generateContent.
  destruct Hfail as [Hrej|(text & Hres & Hparse)].
  - rewrite Hrej. exists w. repeat split. exact Hgame.
  - rewrite Hres. unfold ret at 1.
    destruct (parseAndSanitize_Throw _ _ _ Hparse) as (w' & Hrun & Hobj).
    unfold bind at 1. rewrite Hrun.
    exists w'. repeat split; [exact Hobj|]. rewrite Hobj. exact Hgame.
Qed.

Lemma refineGame_failure_prefixed_witness :
  exists w',
    refineGame (rejecting (lit "quota exceeded")) 1%positive (lit "bump")
      (world_of (demo_game (lit "<html>v1</html>")))
    = (Throw (new_Error (lit "Refinement Failed: " ++ lit "quota exceeded")), w')
    /\ objects w' = objects (world_of (demo_game (lit "<html>v1</html>")))
    /\ objects w' !! 1%positive = Some (demo_game (lit "<html>v1</html>")).
Proof.
  apply (refineGame_failure_prefixed (rejecting (lit "quota exceeded")) 1%positive (lit "bump")
           (world_of (demo_game (lit "<html>v1</html>")))
           (demo_game (lit "<html>v1</html>")) (new_Error (lit "quota exceeded"))).
  - vm_compute. reflexivity.
  - left. reflexivity.
Defined.

(** ** The soundscape phase *)

(** C5. When the provider rejects the request of the soundscape phase, or
    the sanitizer throws on its response, [generateSoundscape] does not
    throw: it returns the fallback audio, whose [soundEffects] is the empty
    list and whose [description] is [Audio generation failed.] *)
Theorem generateSoundscape_absorbs_failure ai blueprint prefs onStatus w :
  ((exists cause, ai (audioRequest blueprint prefs) = Rejected cause)
   \/ exists text cause, ai (audioRequest blueprint prefs) = Resolved text
        /\ fst (parseAndSanitize (or_string text (lit "{}")) w) = Throw cause) ->
  fst (generateSoundscape ai blueprint prefs onStatus w) = Normal fallbackAudio
  /\ exists members, fallbackAudio = JObj members
       /\ Json.get (lit "soundEffects") members = Some (JArr [])
       /\ Json.get (lit "description") members = Some (JStr (lit "Audio generation failed.")).
Proof.
  intros Hfail. split.
  - unfold generateSoundscape, bind at 1.
    destruct (notify onStatus (lit "Designing Soundscape...") w) as [r w0] eqn:En.
    assert (r = Normal tt) as ->.
    { unfold notify in En. destruct onStatus; injection En as <- _; reflexivity. }
    unfold try_catch, bind at 1, generateContent.
    destruct Hfail as [[cause Hrej]|(text & cause & Hres & Hparse)].
    + rewrite Hrej. reflexivity.
    + rewrite Hres. unfold ret at 1.
      rewrite (parseAndSanitize_world _ w w0) in Hparse.
      destruct (parseAndSanitize (or_string text (lit "{}")) w0) as [r w1].
      simpl in Hparse. subst r. reflexivity.
  - eexists. split; [reflexivity|]. split; vm_compute; reflexivity.
Qed.

Lemma generateSoundscape_absorbs_failure_witness :
  fst (generateSoundscape (answering (lit "Sorry, I cannot help with that."))
         (demo_game (lit "<html>v1</html>")) (demo_prefs GameEngine.ThreeJS) None
         (world_of (demo_game (lit "<html>v1</html>"))))
  = Normal fallbackAudio
  /\ exists members, fallbackAudio = JObj members
       /\ Json.get (lit "soundEffects") members = Some (JArr [])
       /\ Json.get (lit "description") members = Some (JStr (lit "Audio generation failed.")).
Proof.
  apply generateSoundscape_absorbs_failure.
  right. exists (Some (lit "Sorry, I cannot help with that.")), invalid_response.
  split; [reflexivity|]. vm_compute. reflexivity.
Defined.

(** ** The prompt registry: the instructions of the engine *)

Lemma eqb_eq (a b : jsstring) : JsString.eqb a b = true -> a = b.
Proof.
  revert b. induction a as [|x a IH]; intros [|y b]; simpl; try discriminate.
  - reflexivity.
  - intros H. apply andb_prop in H as [Hxy Hab].
    apply N.eqb_eq in Hxy. subst y. f_equal. apply IH. exact Hab.
Qed.

Lemma own_entry_absent key table :
  (forall text, ~ In (key, text) table) -> own_entry key table = None.
Proof.
  induction table as [|[k v] rest IH]; intros Habs; simpl; [reflexivity|].
  destruct (JsString.eqb key k) eqn:E.
  - apply eqb_eq in E. subst k. exfalso. apply (Habs v). left. reflexivity.
  - apply IH. intros text Hin. apply (Habs text). right. exact Hin.
Qed.

Lemma engine_instructions_in_table engine text :
  In (engine, text) ENGINE_SPECS -> engine_instructions engine = text.
Proof.
  unfold ENGINE_SPECS. simpl.
  intros [H|[H|[H|[H|[H|[H|[]]]]]]]; injection H as <- <-; vm_compute; reflexivity.
Qed.

Lemma engine_instructions_default engine :
  (forall text, ~ In (engine, text) ENGINE_SPECS) ->
  mem engine Object_prototype_keys = false ->
  engine_instructions engine = ENGINE_SPEC_ThreeJS.
Proof.
  intros Habs Hproto. unfold engine_instructions, lookup_property at 1.
  rewrite (own_entry_absent _ _ Habs), Hproto. vm_compute. reflexivity.
Qed.

(** C9, as the code has it. The prompt of the build phase holds, between
    the two halves of its template, the instructions the table has for
    the engine of the preferences; for an engine that the table does not
    have and that is not the name of a property of [Object.prototype], it
    holds the instructions of Three.js. *)
Theorem BuildPrototype_engine_instructions blueprint prefs audioContextStr gpuRules :
  let engine := UserPreferences.gameEngine prefs in
  (forall text, In (engine, text) ENGINE_SPECS ->
     BuildPrototype blueprint prefs audioContextStr gpuRules
     = BuildPrototype_before blueprint prefs gpuRules ++ text
       ++ BuildPrototype_after prefs audioContextStr)
  /\ ((forall text, ~ In (engine, text) ENGINE_SPECS) ->
      mem engine Object_prototype_keys = false ->
      BuildPrototype blueprint prefs audioContextStr gpuRules
      = BuildPrototype_before blueprint prefs gpuRules ++ ENGINE_SPEC_ThreeJS
        ++ BuildPrototype_after prefs audioContextStr).
Proof.
  intros engine. unfold BuildPrototype. fold engine. split.
  - intros text Hin. rewrite (engine_instructions_in_table _ _ Hin). reflexivity.
  - intros Habs Hproto. rewrite (engine_instructions_default _ Habs Hproto). reflexivity.
Qed.

Lemma BuildPrototype_engine_instructions_witness :
  let blueprint := demo_game (lit "<html>v1</html>") in
  BuildPrototype blueprint (demo_prefs GameEngine.KaboomJS) (lit "NO CUSTOM AUDIO.")
    (lit "CONSTRAINTS: OPTIMIZE FOR WEB.")
  = BuildPrototype_before blueprint (demo_prefs GameEngine.KaboomJS)
      (lit "CONSTRAINTS: OPTIMIZE FOR WEB.")
    ++ ENGINE_SPEC_KaboomJS
    ++ BuildPrototype_after (demo_prefs GameEngine.KaboomJS) (lit "NO CUSTOM AUDIO.")
  /\ BuildPrototype blueprint (demo_prefs (lit "Godot")) (lit "NO CUSTOM AUDIO.")
       (lit "CONSTRAINTS: OPTIMIZE FOR WEB.")
     = BuildPrototype_before blueprint (demo_prefs (lit "Godot"))
         (lit "CONSTRAINTS: OPTIMIZE FOR WEB.")
       ++ ENGINE_SPEC_ThreeJS
       ++ BuildPrototype_after (demo_prefs (lit "Godot")) (lit "NO CUSTOM AUDIO.").
Proof.
  intros blueprint. split.
  - apply (proj1 (BuildPrototype_engine_instructions blueprint (demo_prefs GameEngine.KaboomJS)
                    (lit "NO CUSTOM AUDIO.") (lit "CONSTRAINTS: OPTIMIZE FOR WEB."))).
    simpl. do 4 right. left. reflexivity.
  - apply (proj2 (BuildPrototype_engine_instructions blueprint (demo_prefs (lit "Godot"))
                    (lit "NO CUSTOM AUDIO.") (lit "CONSTRAINTS: OPTIMIZE FOR WEB."))).
    + intros text. simpl.
      intros [H|[H|[H|[H|[H|[H|[]]]]]]]; apply (f_equal fst) in H; vm_compute in H; discriminate H.
    + vm_compute. reflexivity.
Defined.

(** C9 as stated fails: [__proto__] is not in the table, and the
    prompt holds [[object Object]] in place of the instructions of
    Three.js. *)
Lemma BuildPrototype_proto_counterexample :
  let blueprint := demo_game (lit "<html>v1</html>") in
  let prefs := demo_prefs (lit "__proto__") in
  own_entry (lit "__proto__") ENGINE_SPECS = None
  /\ BuildPrototype blueprint prefs (lit "NO CUSTOM AUDIO.") (lit "CONSTRAINTS: OPTIMIZE FOR WEB.")
     = BuildPrototype_before blueprint prefs (lit "CONSTRAINTS: OPTIMIZE FOR WEB.")
       ++ lit "[object Object]"
       ++ BuildPrototype_after prefs (lit "NO CUSTOM AUDIO.")
  /\ engine_instructions (lit "__proto__") <> ENGINE_SPEC_ThreeJS.
Proof.
  cbv zeta. split; [vm_compute; reflexivity|]. split; [vm_compute; reflexivity|].
  intros H. vm_compute in H. discriminate H.
Qed.

(** ** [validateStructure] *)

(** C7, as the code has it. [validateStructure] throws exactly when the
    value is not an object (an array is one) or some required field is
    not a property of it, its own or inherited, as [in] sees it; over an
    object the message lists the required fields that are not, all of
    them and no other, in the order required. For a name that
    [Object.prototype] does not hold, a JSON object has the property
    exactly when it has the member. With [a], [b], [c] required, a value
    with [a] and [c] fails with a message naming [b] alone. *)
Theorem validateStructure_presence data requiredKeys context w :
  let missing := List.filter (fun key => negb (has_property key data)) requiredKeys in
  (forall key, In key missing <-> In key requiredKeys /\ has_property key data = false)
  /\ (is_object data = true /\ missing = [] ->
      validateStructure data requiredKeys context w = (Normal data, w))
  /\ (is_object data = true /\ missing <> [] ->
      validateStructure data requiredKeys context w
      = (Throw (new_Error (context ++ lit ": Missing required fields: "
                           ++ join (lit ", ") missing)), w))
  /\ (is_object data = false ->
      validateStructure data requiredKeys context w
      = (Throw (new_Error (context ++ lit ": Response was not a valid object.")), w))
  /\ (forall members key, data = JObj members ->
        mem key Object_prototype_keys = false ->
        (has_property key data = false <-> Json.get key members = None))
  /\ validateStructure
       (JObj [(lit "a", JNum (lit "1")); (lit "c", JNum (lit "3"))])
       [lit "a"; lit "b"; lit "c"] context w
     = (Throw (new_Error (context ++ lit ": Missing required fields: " ++ lit "b")), w).
Proof.
  intros missing.
  split; [|split; [|split; [|split; [|split]]]].
  - intros key. unfold missing. rewrite List.filter_In, negb_true_iff. reflexivity.
  - intros [Hobj Hmiss]. unfold validateStructure. rewrite Hobj. simpl.
    fold missing. rewrite Hmiss. reflexivity.
  - intros [Hobj Hmiss]. unfold validateStructure. rewrite Hobj. simpl.
    fold missing. destruct missing; [congruence|]. reflexivity.
  - intros Hobj. unfold validateStructure. rewrite Hobj. reflexivity.
  - intros members key -> Hproto. unfold has_property. rewrite Hproto.
    destruct (Json.get key members); split; intros; congruence.
  - vm_compute. reflexivity.
Qed.

(** C7 as stated fails: the empty object omits [toString], which is
    required, and [validateStructure] returns it. *)
Lemma validateStructure_inherited_counterexample :
  Json.get (lit "toString") [] = None
  /\ validateStructure (JObj []) [lit "toString"] (lit "Blueprint Spec") empty_world
     = (Normal (JObj []), empty_world).
Proof. split; vm_compute; reflexivity. Qed.

(** ** The sanitizer: a JSON object inside other text *)

Lemma indexOf_from_first c pre rest : forall i,
  ~ In c pre ->
  indexOf_from [c] (pre ++ c :: rest) i = i + Z.of_nat (length pre).
Proof.
  induction pre as [|a pre IH]; intros i Hnot; simpl.
  - rewrite N.eqb_refl. simpl. lia.
  - destruct (c =? a)%N eqn:E.
    + apply N.eqb_eq in E. exfalso. apply Hnot. left. symmetry. exact E.
    + simpl. rewrite IH by (intros Hin; apply Hnot; right; exact Hin). lia.
Qed.

Lemma lastIndexOf_from_absent c post : forall i found,
  ~ In c post -> lastIndexOf_from [c] post i found = found.
Proof.
  induction post as [|a post IH]; intros i found Hnot; simpl; [reflexivity|].
  destruct (c =? a)%N eqn:E.
  - apply N.eqb_eq in E. exfalso. apply Hnot. left. symmetry. exact E.
  - simpl. apply IH. intros Hin. apply Hnot. right. exact Hin.
Qed.

Lemma lastIndexOf_from_last c s post : forall i found,
  ~ In c post ->
  lastIndexOf_from [c] (s ++ c :: post) i found = i + Z.of_nat (length s).
Proof.
  induction s as [|a s IH]; intros i found Hnot.
  - simpl. rewrite N.eqb_refl. simpl.
    rewrite lastIndexOf_from_absent by exact Hnot. lia.
  - change ((a :: s) ++ c :: post) with (a :: (s ++ c :: post)).
    cbn [lastIndexOf_from]. rewrite IH by exact Hnot.
    cbn [length]. lia.
Qed.

Lemma substring_middle (pre mid post : jsstring) :
  substring (pre ++ mid ++ post) (Z.of_nat (length pre))
    (Z.of_nat (length pre) + Z.of_nat (length mid)) = mid.
Proof.
  unfold substring. rewrite !length_app.
  set (a := length pre). set (b := length mid). set (c := length post).
  replace (Z.min (Z.max (Z.of_nat a) 0) (Z.of_nat (a + (b + c)))) with (Z.of_nat a) by lia.
  replace (Z.min (Z.max (Z.of_nat a + Z.of_nat b) 0) (Z.of_nat (a + (b + c))))
    with (Z.of_nat (a + b)) by lia.
  replace (Z.min (Z.of_nat a) (Z.of_nat (a + b))) with (Z.of_nat a) by lia.
  replace (Z.max (Z.of_nat a) (Z.of_nat (a + b)) - Z.of_nat a) with (Z.of_nat b) by lia.
  rewrite !Nat2Z.id. subst a b.
  rewrite drop_app_length. apply take_app_length.
Qed.

Lemma parseAndSanitize_object_inside pre body post v w :
  let payload := 123%N :: body ++ [125%N] in
  let text := pre ++ payload ++ post in
  ~ In 123%N pre ->
  ~ In 125%N post ->
  Json.parse text = None ->
  Json.parse payload = Some v ->
  parseAndSanitize text w = (Normal v, w).
Proof.
  intros payload text Hpre Hpost Hwhole Hpayload.
  unfold parseAndSanitize. rewrite Hwhole.
  assert (Hfirst : indexOf text (lit "{") = Z.of_nat (length pre)).
  { unfold indexOf, text, payload. change (lit "{") with [123%N].
    change ((123%N :: body ++ [125%N]) ++ post) with (123%N :: (body ++ [125%N]) ++ post).
    rewrite indexOf_from_first by exact Hpre. reflexivity. }
  assert (Hlast : lastIndexOf text (lit "}")
                  = Z.of_nat (length pre) + Z.of_nat (length payload) - 1).
  { unfold lastIndexOf, text, payload. change (lit "}") with [125%N].
    replace (pre ++ (123%N :: body ++ [125%N]) ++ post)
      with ((pre ++ 123%N :: body) ++ 125%N :: post)
      by (rewrite <- !app_assoc; simpl; rewrite <- app_assoc; reflexivity).
    rewrite lastIndexOf_from_last by exact Hpost.
    rewrite !length_app. cbn [length]. rewrite length_app. cbn [length]. lia. }
  rewrite Hfirst, Hlast.
  assert (Hlen : (2 <= length payload)%nat).
  { unfold payload. cbn [length]. rewrite length_app. cbn [length]. lia. }
  replace (negb (Z.of_nat (length pre) =? -1)) with true
    by (symmetry; apply negb_true_iff, Z.eqb_neq; lia).
  replace (negb (Z.of_nat (length pre) + Z.of_nat (length payload) - 1 =? -1)) with true
    by (symmetry; apply negb_true_iff, Z.eqb_neq; lia).
  replace (Z.of_nat (length pre) <? Z.of_nat (length pre) + Z.of_nat (length payload) - 1)
    with true by (symmetry; apply Z.ltb_lt; lia).
  cbn [andb].
  replace (Z.of_nat (length pre) + Z.of_nat (length payload) - 1 + 1)
    with (Z.of_nat (length pre) + Z.of_nat (length payload)) by lia.
  unfold text. rewrite substring_middle, Hpayload. reflexivity.
Qed.

(** ** The sanitizer: a payload inside a fence *)

Lemma parse_backquote t : Json.parse (96%N :: t) = None.
Proof. reflexivity. Qed.

Lemma indexOf_from_absent c s : forall i, ~ In c s -> indexOf_from [c] s i = -1.
Proof.
  induction s as [|a s IH]; intros i Hnot; simpl; [reflexivity|].
  destruct (c =? a)%N eqn:E.
  - apply N.eqb_eq in E. exfalso. apply Hnot. left. symmetry. exact E.
  - simpl. apply IH. intros Hin. apply Hnot. right. exact Hin.
Qed.

(** A scan keeps the characters at which no match can start. *)
Lemma replace_all_from_kept m rep a b :
  (forall c t, In c a -> m (c :: t) = None) ->
  replace_all_from m rep 0 (a ++ b) = a ++ replace_all_from m rep 0 b.
Proof.
  induction a as [|c a IH]; intros Hm; [reflexivity|].
  cbn [app replace_all_from]. rewrite (Hm c (a ++ b)) by (left; reflexivity).
  f_equal. apply IH. intros c' t Hin. apply Hm. right. exact Hin.
Qed.

Lemma canonicalize_backquote c : (canonicalize 96 =? canonicalize c)%N = true -> c = 96%N.
Proof.
  unfold canonicalize, is_lower.
  change ((97 <=? 96)%N && (96 <=? 122)%N) with false. cbv iota.
  destruct (97 <=? c)%N eqn:E1; destruct (c <=? 122)%N eqn:E2; cbn [andb];
    intros H; apply N.eqb_eq in H;
    try apply N.leb_le in E1; try apply N.leb_le in E2; lia.
Qed.

Lemma fence_json_starts c t : c <> 96%N -> fence_json (c :: t) = None.
Proof.
  intros Hc. unfold fence_json. change (lit "```json") with [96; 96; 96; 106; 115; 111; 110]%N.
  cbn [starts_with_ci].
  destruct (canonicalize 96 =? canonicalize c)%N eqn:E; [|reflexivity].
  apply canonicalize_backquote in E. contradiction.
Qed.

Lemma fence_starts c t : c <> 96%N -> fence (c :: t) = None.
Proof.
  intros Hc. unfold fence. change (lit "```") with [96; 96; 96]%N.
  cbn [starts_with]. destruct (96 =? c)%N eqn:E; [|reflexivity].
  apply N.eqb_eq in E. congruence.
Qed.

Lemma drop_space_spaces ws s : forallb is_js_space ws = true -> drop_space (ws ++ s) = drop_space s.
Proof.
  induction ws as [|c ws IH]; intros H; [reflexivity|].
  cbn [forallb] in H. apply andb_prop in H as [Hc Hws].
  cbn [app drop_space]. rewrite Hc. apply IH. exact Hws.
Qed.

Lemma drop_space_app s ws :
  drop_space s <> [] -> drop_space (s ++ ws) = drop_space s ++ ws.
Proof.
  induction s as [|c s IH]; intros H; [contradiction H; reflexivity|].
  cbn [app drop_space] in *. destruct (is_js_space c); [apply IH; exact H|reflexivity].
Qed.

Lemma drop_space_all s : drop_space s = [] -> forallb is_js_space s = true.
Proof.
  induction s as [|c s IH]; intros H; [reflexivity|].
  cbn [drop_space] in H. cbn [forallb].
  destruct (is_js_space c); [apply IH; exact H|discriminate].
Qed.

Lemma forallb_rev {A} (f : A -> bool) l : forallb f (rev l) = forallb f l.
Proof.
  induction l as [|a l IH]; [reflexivity|].
  cbn [rev forallb]. rewrite forallb_app, IH. cbn [forallb].
  rewrite andb_true_r. apply andb_comm.
Qed.

Lemma trim_spaces_around ws1 s ws2 :
  forallb is_js_space ws1 = true -> forallb is_js_space ws2 = true ->
  trim (ws1 ++ s ++ ws2) = trim s.
Proof.
  intros H1 H2. unfold trim. rewrite drop_space_spaces by exact H1.
  destruct (drop_space s) as [|c s'] eqn:E.
  - pose proof (drop_space_all _ E) as Hs.
    rewrite <- (app_nil_r (s ++ ws2)), drop_space_spaces;
      [reflexivity|rewrite forallb_app, Hs, H2; reflexivity].
  - rewrite drop_space_app by congruence. rewrite E, rev_app_distr.
    rewrite drop_space_spaces by (rewrite forallb_rev; exact H2). reflexivity.
Qed.

Lemma spaces_not_in c ws : is_js_space c = false -> forallb is_js_space ws = true -> ~ In c ws.
Proof.
  intros Hc Hws Hin. rewrite forallb_forall in Hws.
  rewrite (Hws c Hin) in Hc. discriminate.
Qed.

Lemma parseAndSanitize_fenced ws1 payload ws2 v w :
  forallb is_js_space ws1 = true ->
  forallb is_js_space ws2 = true ->
  ~ In 123%N payload ->
  ~ In 96%N payload ->
  trim payload = payload ->
  Json.parse payload = Some v ->
  parseAndSanitize (lit "```json" ++ ws1 ++ payload ++ ws2 ++ lit "```") w = (Normal v, w).
Proof.
  intros H1 H2 Hbrace Hquote Htrim Hpayload.
  set (inner := ws1 ++ payload ++ ws2).
  assert (Hinner : forall c, In c inner -> c <> 96%N).
  { intros c Hin Hc. subst c. unfold inner in Hin.
    rewrite !in_app_iff in Hin. destruct Hin as [Hin|[Hin|Hin]].
    - exact (spaces_not_in 96%N ws1 eq_refl H1 Hin).
    - exact (Hquote Hin).
    - exact (spaces_not_in 96%N ws2 eq_refl H2 Hin). }
  assert (Htext : lit "```json" ++ ws1 ++ payload ++ ws2 ++ lit "```"
                  = lit "```json" ++ inner ++ lit "```").
  { unfold inner. rewrite <- !app_assoc. reflexivity. }
  rewrite Htext. unfold parseAndSanitize.
  change (lit "```json") with [96; 96; 96; 106; 115; 111; 110]%N.
  cbn [app]. rewrite parse_backquote.
  match goal with
  | |- context [indexOf ?t (lit "{")] => assert (Hopen : indexOf t (lit "{") = -1)
  end.
  { unfold indexOf. change (lit "{") with [123%N]. apply indexOf_from_absent.
    change (~ In 123%N ([96; 96; 96; 106; 115; 111; 110]%N ++ inner ++ lit "```")).
    unfold inner. rewrite !in_app_iff. intros [Hin|[[Hin|[Hin|Hin]]|Hin]].
    - vm_compute in Hin. intuition discriminate.
    - exact (spaces_not_in 123%N ws1 eq_refl H1 Hin).
    - exact (Hbrace Hin).
    - exact (spaces_not_in 123%N ws2 eq_refl H2 Hin).
    - vm_compute in Hin. intuition discriminate. }
  rewrite Hopen. cbn [Z.eqb negb andb].
  match goal with
  | |- context [trim ?t] => assert (Hclean : trim t = payload)
  end.
  { unfold replace_all at 2.
    match goal with
    | |- context [replace_all_from fence_json [] 0 ?t] =>
        replace (replace_all_from fence_json [] 0 t)
          with (replace_all_from fence_json [] 0 (inner ++ lit "```")) by reflexivity
    end.
    rewrite replace_all_from_kept
      by (intros c t Hin; apply fence_json_starts; exact (Hinner c Hin)).
    replace (replace_all_from fence_json [] 0 (lit "```")) with (lit "```") by reflexivity.
    unfold replace_all.
    rewrite replace_all_from_kept
      by (intros c t Hin; apply fence_starts; exact (Hinner c Hin)).
    replace (replace_all_from fence [] 0 (lit "```")) with (@nil char) by reflexivity.
    rewrite app_nil_r. unfold inner.
    rewrite trim_spaces_around by assumption. exact Htrim. }
  rewrite Hclean, Hpayload. reflexivity.
Qed.

(** C6, as the code has it. The sanitizer returns the value of a valid
    JSON payload, and writes nothing, for a text of one of two shapes.
    Either the text is not JSON as a whole and the payload is an object,
    from its opening brace to its closing brace, after a text without
    opening brace and before a text without closing brace (a fence or
    prose on either side). Or the text is the payload between white
    space inside a fence opened by three backquotes and [json] and closed
    by three backquotes, and the payload has no opening brace, no
    backquote and no white space at its ends. *)
Theorem parseAndSanitize_wrapped text payload v w :
  Json.parse payload = Some v ->
  ((exists pre body post,
      text = pre ++ payload ++ post
      /\ payload = 123%N :: body ++ [125%N]
      /\ ~ In 123%N pre /\ ~ In 125%N post
      /\ Json.parse text = None)
   \/ exists ws1 ws2,
        text = lit "```json" ++ ws1 ++ payload ++ ws2 ++ lit "```"
        /\ forallb is_js_space ws1 = true /\ forallb is_js_space ws2 = true
        /\ ~ In 123%N payload /\ ~ In 96%N payload
        /\ trim payload = payload) ->
  parseAndSanitize text w = (Normal v, w).
Proof.
  intros Hpayload [(pre & body & post & -> & Hshape & Hpre & Hpost & Hwhole)
                  |(ws1 & ws2 & -> & H1 & H2 & Hbrace & Hquote & Htrim)].
  - subst payload. apply parseAndSanitize_object_inside; assumption.
  - apply parseAndSanitize_fenced; assumption.
Qed.

Lemma parseAndSanitize_wrapped_witness :
  parseAndSanitize
    (lit "Here is the plan: " ++ (123%N :: (dq ++ lit "a" ++ dq ++ lit ":1") ++ [125%N])
     ++ lit " Enjoy!")
    empty_world
  = (Normal (JObj [(lit "a", JNum (lit "1"))]), empty_world)
  /\ parseAndSanitize
       (lit "```json" ++ [10%N] ++ lit "[1,2]" ++ [10%N] ++ lit "```") empty_world
     = (Normal (JArr [JNum (lit "1"); JNum (lit "2")]), empty_world).
Proof.
  split.
  - apply parseAndSanitize_wrapped with
      (payload := 123%N :: (dq ++ lit "a" ++ dq ++ lit ":1") ++ [125%N]).
    + vm_compute. reflexivity.
    + left. exists (lit "Here is the plan: "), (dq ++ lit "a" ++ dq ++ lit ":1"), (lit " Enjoy!").
      split; [reflexivity|]. split; [reflexivity|].
      split; [vm_compute; intuition discriminate|].
      split; [vm_compute; intuition discriminate|].
      vm_compute. reflexivity.
  - apply parseAndSanitize_wrapped with (payload := lit "[1,2]").
    + vm_compute. reflexivity.
    + right. exists [10%N], [10%N].
      split; [reflexivity|]. split; [reflexivity|]. split; [reflexivity|].
      split; [vm_compute; intuition discriminate|].
      split; [vm_compute; intuition discriminate|].
      vm_compute. reflexivity.
Defined.

(** C6 as stated fails: the payload [[{"a":1}]] after the prose
    [Here: ] is valid JSON, an array, and the sanitizer returns the
    object inside it; the same holds inside a fence. After the same
    prose the payload [[1,2]] makes it throw. *)
Lemma parseAndSanitize_prose_counterexample :
  let payload := lit "[{" ++ dq ++ lit "a" ++ dq ++ lit ":1}]" in
  Json.parse payload = Some (JArr [JObj [(lit "a", JNum (lit "1"))]])
  /\ fst (parseAndSanitize (lit "Here: " ++ payload) empty_world)
     = Normal (JObj [(lit "a", JNum (lit "1"))])
  /\ fst (parseAndSanitize (lit "```json" ++ [10%N] ++ payload ++ [10%N] ++ lit "```")
            empty_world)
     = Normal (JObj [(lit "a", JNum (lit "1"))])
  /\ Json.parse (lit "[1,2]") = Some (JArr [JNum (lit "1"); JNum (lit "2")])
  /\ fst (parseAndSanitize (lit "Here: " ++ lit "[1,2]") empty_world)
     = Throw invalid_response.
Proof. cbv zeta. repeat split; vm_compute; reflexivity. Qed.

(** ** Patches: the replacement read letter for letter *)

Lemma GetSubstitution_dollar_free matched before after template :
  dollar_free template -> GetSubstitution matched before after template = template.
Proof.
  unfold dollar_free. induction template as [|c t IH]; intros Hfree; [reflexivity|].
  cbn [GetSubstitution].
  destruct (c =? 36)%N eqn:E.
  - apply N.eqb_eq in E. exfalso. apply Hfree. left. exact E.
  - f_equal. apply IH. intros Hin. apply Hfree. right. exact Hin.
Qed.

Lemma replace_scan needle new hay : forall p,
  (let pos := indexOf_from needle hay (Z.of_nat (length p)) in
   if pos =? -1 then p ++ hay
   else firstn (Z.to_nat pos) (p ++ hay) ++ new
        ++ skipn (Z.to_nat pos + length needle) (p ++ hay))
  = p ++ replace_first needle new hay.
Proof.
  induction hay as [|c t IH]; intros p; cbn [indexOf_from replace_first].
  - destruct (starts_with needle []) eqn:E; cbv zeta.
    + destruct needle; [|discriminate].
      replace (Z.of_nat (length p) =? -1) with false by (symmetry; apply Z.eqb_neq; lia).
      rewrite Nat2Z.id, !app_nil_r, Nat.add_0_r, take_ge, drop_ge by lia.
      rewrite app_nil_r. reflexivity.
    + reflexivity.
  - destruct (starts_with needle (c :: t)) eqn:E; cbv zeta.
    + replace (Z.of_nat (length p) =? -1) with false by (symmetry; apply Z.eqb_neq; lia).
      rewrite Nat2Z.id, take_app_length.
      rewrite <- (drop_drop (p ++ c :: t)), drop_app_length. reflexivity.
    + specialize (IH (p ++ [c])). cbv zeta in IH.
      rewrite length_app in IH. cbn [length] in IH.
      replace (Z.of_nat (length p + 1)) with (Z.of_nat (length p) + 1) in IH by lia.
      rewrite <- !app_assoc in IH. exact IH.
Qed.

Lemma replace_literal hay needle new :
  dollar_free new -> replace hay needle new = replace_first needle new hay.
Proof.
  intros Hfree. unfold replace, indexOf.
  rewrite (GetSubstitution_dollar_free _ _ _ _ Hfree).
  exact (replace_scan needle new hay []).
Qed.

(** ** Patches: one edit, then the list *)

Lemma mem_refinement_keys :
  Forall (fun key => mem key Object_prototype_keys = false)
    [lit "editMode"; lit "fullCode"; lit "edits"; lit "instructions";
     lit "search"; lit "replace"].
Proof. repeat constructor. Qed.

Lemma prop_member key members :
  mem key Object_prototype_keys = false ->
  prop key (JObj members) = ret (Json.get key members).
Proof.
  intros H. unfold prop. rewrite H. destruct (Json.get key members); reflexivity.
Qed.

Lemma apply_edit_strings members search replacement newHtml w :
  Json.get (lit "search") members = Some (JStr search) ->
  Json.get (lit "replace") members = Some (JStr replacement) ->
  search <> [] ->
  apply_edit (JObj members) newHtml w
  = if includes newHtml search
    then (Normal (replace newHtml search replacement), w)
    else (Normal newHtml, logged c_warn patch_skipped w).
Proof.
  intros Hs Hr Hne. unfold apply_edit.
  rewrite !prop_member by reflexivity. rewrite Hs, Hr, bind_ret.
  destruct search as [|c s]; [congruence|].
  cbn [truthy_string]. rewrite bind_ret.
  destruct (includes newHtml (c :: s)); reflexivity.
Qed.

Lemma includes_nil hay : includes hay [] = true.
Proof. unfold includes, indexOf. destruct hay; reflexivity. Qed.

(** The patch mode of [refineGame], run forward. *)
Lemma refineGame_patch ai l instruction w game text members items given html' w' :
  objects w !! l = Some game ->
  ai (refineRequest instruction
        (compressCodeForContext (or_string (GeneratedGame.html game) [])))
  = Resolved text ->
  fst (parseAndSanitize (or_string text (lit "{}")) w) = Normal (JObj members) ->
  is_rewrite (Json.get (lit "editMode") members) = false ->
  Json.get (lit "edits") members = Some (JArr items) ->
  Json.get (lit "instructions") members = option_map JStr given ->
  apply_edits items (or_string (GeneratedGame.html game) [])
    (logged c_log [Text (lit "Refinement strategy: PATCH")] w) = (Normal html', w') ->
  refineGame ai l instruction w
  = (Normal (with_artifact game (Some html')
               (or_option given (GeneratedGame.instructions game))), w').
Proof.
  intros Hgame Hai Hparse Hmode Hedits Hgiven Hrun.
  assert (Hp : parseAndSanitize (or_string text (lit "{}")) w = (Normal (JObj members), w)).
  { destruct (parseAndSanitize_cases (or_string text (lit "{}")) w) as [[v Hv]|[w1 Hv]];
      rewrite Hv in Hparse; simpl in Hparse; congruence. }
  unfold refineGame, bind at 1, deref at 1. rewrite Hgame.
  unfold try_catch, bind at 1, generateContent. rewrite Hai. unfold ret at 1.
  unfold bind at 1. rewrite Hp.
  unfold bind at 1, deref at 1. rewrite Hgame.
  rewrite !prop_member by reflexivity.
  rewrite bind_ret, Hmode, bind_ret, Hedits.
  unfold bind at 1, console_write at 1.
  rewrite bind_ret.
  unfold bind at 1. fold (logged c_log [Text (lit "Refinement strategy: PATCH")] w).
  rewrite Hrun.
  unfold bind at 1, deref at 1.
  assert (Hobj : objects w' = objects w).
  { rewrite (keeps_run _ _ _ _ (keeps_apply_edits items _) Hrun). reflexivity. }
  rewrite Hobj, Hgame, bind_ret, Hgiven.
  destruct given as [[|c s]|]; reflexivity.
Qed.

(** ** Patches with two edits, one of which finds nothing *)

(** C3, as the code has it. A patch of two edits, of which one finds its
    search text in the html as it stands when the edit is reached and the
    other does not, succeeds; the html returned is the html with the
    first occurrence of the found text replaced, and the other edit
    changes nothing. The html an edit is tried on is the one the edits
    before it have left; the search text found is not empty, and the
    replacement is taken to hold no dollar sign. *)
Theorem refineGame_patch_two_edits
    ai currentGame instruction w game text members m1 m2 s1 r1 s2 r2 given html' :
  objects w !! currentGame = Some game ->
  ai (refineRequest instruction
        (compressCodeForContext (or_string (GeneratedGame.html game) [])))
  = Resolved text ->
  fst (parseAndSanitize (or_string text (lit "{}")) w) = Normal (JObj members) ->
  Json.get (lit "editMode") members = Some (JStr (lit "patch")) ->
  Json.get (lit "edits") members = Some (JArr [JObj m1; JObj m2]) ->
  Json.get (lit "instructions") members = option_map JStr given ->
  Json.get (lit "search") m1 = Some (JStr s1) ->
  Json.get (lit "replace") m1 = Some (JStr r1) ->
  Json.get (lit "search") m2 = Some (JStr s2) ->
  Json.get (lit "replace") m2 = Some (JStr r2) ->
  (let html := or_string (GeneratedGame.html game) [] in
   (s1 <> [] /\ includes html s1 = true /\ dollar_free r1
    /\ includes (replace_first s1 r1 html) s2 = false
    /\ html' = replace_first s1 r1 html)
   \/ (includes html s1 = false
       /\ s2 <> [] /\ includes html s2 = true /\ dollar_free r2
       /\ html' = replace_first s2 r2 html)) ->
  fst (refineGame ai currentGame instruction w)
  = Normal (with_artifact game (Some html')
              (or_option given (GeneratedGame.instructions game))).
Proof.
  intros Hgame Hai Hparse Hmode Hedits Hgiven Hs1 Hr1 Hs2 Hr2 Hcases.
  cbv zeta in Hcases.
  set (html := or_string (GeneratedGame.html game) []) in *.
  set (w0 := logged c_log [Text (lit "Refinement strategy: PATCH")] w).
  assert (Hrun : exists w', apply_edits [JObj m1; JObj m2] html w0 = (Normal html', w')).
  { cbn [apply_edits].
    destruct Hcases as [(Hne & Hin & Hfree & Hout & ->)|(Hout & Hne & Hin & Hfree & ->)].
    - unfold bind at 1. rewrite (apply_edit_strings _ _ _ _ _ Hs1 Hr1 Hne), Hin.
      rewrite (replace_literal _ _ _ Hfree).
      assert (Hne2 : s2 <> []).
      { intros ->. rewrite includes_nil in Hout. discriminate Hout. }
      unfold bind at 1. rewrite (apply_edit_strings _ _ _ _ _ Hs2 Hr2 Hne2), Hout.
      eexists. reflexivity.
    - assert (Hne1 : s1 <> []).
      { intros ->. rewrite includes_nil in Hout. discriminate Hout. }
      unfold bind at 1. rewrite (apply_edit_strings _ _ _ _ _ Hs1 Hr1 Hne1), Hout.
      unfold bind at 1. rewrite (apply_edit_strings _ _ _ _ _ Hs2 Hr2 Hne), Hin.
      rewrite (replace_literal _ _ _ Hfree).
      eexists. reflexivity. }
  destruct Hrun as [w' Hrun].
  assert (Hm : is_rewrite (Json.get (lit "editMode") members) = false)
    by (rewrite Hmode; reflexivity).
  rewrite (refineGame_patch ai currentGame instruction w game text members
             [JObj m1; JObj m2] given html' w' Hgame Hai Hparse Hm Hedits Hgiven Hrun).
  reflexivity.
Qed.

Lemma refineGame_patch_two_edits_witness :
  fst (refineGame
         (answering (patch_text [edit_text (lit "speed = 1") (lit "speed = 2");
                                 edit_text (lit "lives = 9") (lit "lives = 3")]))
         1%positive (lit "faster") (world_of (demo_game (lit "var speed = 1;"))))
  = Normal (with_artifact (demo_game (lit "var speed = 1;")) (Some (lit "var speed = 2;"))
              (or_option None (GeneratedGame.instructions (demo_game (lit "var speed = 1;"))))).
Proof.
  set (m1 := [(lit "search", JStr (lit "speed = 1")); (lit "replace", JStr (lit "speed = 2"))]).
  set (m2 := [(lit "search", JStr (lit "lives = 9")); (lit "replace", JStr (lit "lives = 3"))]).
  apply (refineGame_patch_two_edits _ 1%positive (lit "faster") _
           (demo_game (lit "var speed = 1;"))
           (Some (patch_text [edit_text (lit "speed = 1") (lit "speed = 2");
                              edit_text (lit "lives = 9") (lit "lives = 3")]))
           [(lit "editMode", JStr (lit "patch")); (lit "edits", JArr [JObj m1; JObj m2])]
           m1 m2 (lit "speed = 1") (lit "speed = 2") (lit "lives = 9") (lit "lives = 3") None).
  - vm_compute. reflexivity.
  - reflexivity.
  - vm_compute. reflexivity.
  - reflexivity.
  - reflexivity.
  - reflexivity.
  - reflexivity.
  - reflexivity.
  - reflexivity.
  - reflexivity.
  - left. split; [discriminate|]. split; [vm_compute; reflexivity|].
    split; [vm_compute; intuition discriminate|].
    split; vm_compute; reflexivity.
Defined.

(** C3 as stated fails: in [abc] the text [a] is found and the text [x]
    is not, and the patch that replaces [a] by [x] and then [x] by [y]
    returns [ybc]: the second edit finds the [x] the first one wrote. *)
Lemma refineGame_patch_chain_counterexample :
  let html := lit "abc" in
  let game := demo_game html in
  includes html (lit "a") = true
  /\ includes html (lit "x") = false
  /\ replace_first (lit "a") (lit "x") html = lit "xbc"
  /\ fst (refineGame
            (answering (patch_text [edit_text (lit "a") (lit "x"); edit_text (lit "x") (lit "y")]))
            1%positive (lit "rename") (world_of game))
     = Normal (with_artifact game (Some (lit "ybc")) (GeneratedGame.instructions game)).
Proof. cbv zeta. repeat split; vm_compute; reflexivity. Qed.

(** ** Patches with one edit: the dollar sign *)

(** C2, on the code: the search text [1] stands once in
    [let cost = 1;], and the patch that replaces it by [$$5] returns
    [let cost = $5;], where the replacement letter for letter is
    [let cost = $$5;]. Likewise ['x'] replaced by ['$'] in [label = 'x';]
    gives [label = ';;]. The instructions, which the response does not
    give, are those of the input. *)
Theorem refineGame_patch_reads_dollar :
  let html := lit "let cost = 1;" in
  let game := demo_game html in
  let html2 := lit "label = 'x';" in
  let game2 := demo_game html2 in
  occurrences (lit "1") html = 1%nat
  /\ replace_first (lit "1") (lit "$$5") html = lit "let cost = $$5;"
  /\ fst (refineGame (answering (patch_text [edit_text (lit "1") (lit "$$5")]))
            1%positive (lit "price in dollars") (world_of game))
     = Normal (with_artifact game (Some (lit "let cost = $5;"))
                 (GeneratedGame.instructions game))
  /\ occurrences (lit "'x'") html2 = 1%nat
  /\ replace_first (lit "'x'") (lit "'$'") html2 = lit "label = '$';"
  /\ fst (refineGame (answering (patch_text [edit_text (lit "'x'") (lit "'$'")]))
            1%positive (lit "show the currency") (world_of game2))
     = Normal (with_artifact game2 (Some (lit "label = ';;"))
                 (GeneratedGame.instructions game2)).
Proof. cbv zeta. repeat split; vm_compute; reflexivity. Qed.

(** * Further properties of the code *)

(** ** The compressor: what its result holds *)

(** X1. The text [compressCodeForContext] returns holds no base64 data
    URI and no numeric array of more than ten entries: neither pattern
    matches at any position of it. *)
Theorem compress_leaves_no_match (code : jsstring) :
  no_match Pattern.base64_uri (compressCodeForContext code)
  /\ no_match Pattern.numeric_array (compressCodeForContext code).
Proof.
  destruct code as [|c code].
  - split; intros p q Hpq; destruct p, q; try discriminate; reflexivity.
  - split.
    + apply base64_stays_gone, base64_gone.
    + apply geometry_gone.
Qed.

Lemma replace_all_no_match m rep s : no_match m s -> replace_all m rep s = s.
Proof.
  unfold replace_all. induction s as [|c s IH]; intros H; simpl.
  - rewrite (H [] [] eq_refl). reflexivity.
  - rewrite (H [] (c :: s) eq_refl). f_equal. apply IH.
    intros p q ->. apply (H (c :: p) q). reflexivity.
Qed.

(** X2. [compressCodeForContext] returns its input as it is exactly when
    the input holds no base64 data URI and no numeric array of more than
    ten entries. *)
Theorem compress_unchanged_iff (code : jsstring) :
  compressCodeForContext code = code
  <-> no_match Pattern.base64_uri code /\ no_match Pattern.numeric_array code.
Proof.
  split.
  - intros H. rewrite <- H. destruct code as [|c code].
    + split; intros p q Hpq; destruct p, q; try discriminate; reflexivity.
    + split; [apply base64_stays_gone, base64_gone|apply geometry_gone].
  - intros [H1 H2]. destruct code as [|c code]; [reflexivity|].
    unfold compressCodeForContext. cbv zeta.
    rewrite (replace_all_no_match _ _ _ H1). apply replace_all_no_match. exact H2.
Qed.

(** ** The compressor: a numeric array among other text *)

Lemma digit_elim (P : N -> Prop) c :
  Forall P [48; 49; 50; 51; 52; 53; 54; 55; 56; 57]%N -> is_digit c = true -> P c.
Proof.
  intros HF Hd. unfold is_digit in Hd. apply andb_prop in Hd as [H1 H2].
  apply N.leb_le in H1, H2.
  assert (Hc : In c [48; 49; 50; 51; 52; 53; 54; 55; 56; 57]%N) by (simpl; lia).
  rewrite List.Forall_forall in HF. apply HF. exact Hc.
Qed.

Lemma digit_facts c :
  is_digit c = true ->
  is_js_space c = false /\ (c =? 45)%N = false /\ (c =? 46)%N = false
  /\ c <> 91%N /\ c <> 100%N.
Proof.
  intros Hc.
  apply (digit_elim (fun c => is_js_space c = false /\ (c =? 45)%N = false
                              /\ (c =? 46)%N = false /\ c <> 91%N /\ c <> 100%N) c);
    [|exact Hc].
  repeat constructor; discriminate.
Qed.

Lemma space_facts c :
  is_js_space c = true ->
  is_digit c = false /\ (c =? 46)%N = false /\ (c =? 44)%N = false
  /\ c <> 91%N /\ c <> 100%N.
Proof.
  intros Hc.
  assert (Hne : forall x, is_js_space x = false -> c <> x).
  { intros x Hx ->. rewrite Hx in Hc. discriminate. }
  split.
  { destruct (is_digit c) eqn:E; [|reflexivity].
    apply digit_facts in E as [E _]. rewrite E in Hc. discriminate. }
  split; [apply N.eqb_neq, Hne; reflexivity|].
  split; [apply N.eqb_neq, Hne; reflexivity|].
  split; apply Hne; reflexivity.
Qed.

#[local] Abbreviation run_array := (Pattern.run Pattern.array_step Pattern.array_accepting).

Section Runs.
Context {Q : Type}.
Variable step : Q -> char -> option Q.
Variable accepting : Q -> bool.

Lemma run_one q c q' rest n last :
  step q c = Some q' -> accepting q' = false ->
  Pattern.run step accepting q (c :: rest) n last
  = Pattern.run step accepting q' rest (S n) last.
Proof. intros Hs Ha. cbn [Pattern.run]. rewrite Hs, Ha. reflexivity. Qed.

Lemma run_loop q u : forall rest n last,
  Forall (fun c => step q c = Some q) u -> accepting q = false ->
  Pattern.run step accepting q (u ++ rest) n last
  = Pattern.run step accepting q rest (n + length u) last.
Proof.
  induction u as [|c u IH]; intros rest n last HF Ha.
  - simpl. rewrite Nat.add_0_r. reflexivity.
  - apply Forall_cons in HF as [Hc HF]. cbn [app].
    rewrite (run_one q c q) by assumption. rewrite IH by assumption.
    cbn [length]. f_equal. lia.
Qed.
End Runs.

Lemma digits_loop (q : Pattern.array_state) u :
  (forall c, is_digit c = true -> Pattern.array_step q c = Some q) ->
  forallb is_digit u = true ->
  Forall (fun c => Pattern.array_step q c = Some q) u.
Proof.
  intros Hq Hu. apply List.Forall_forall. intros c Hin.
  rewrite forallb_forall in Hu. apply Hq, Hu, Hin.
Qed.

Lemma step_digit c :
  is_digit c = true ->
  forall k,
    Pattern.array_step (Pattern.A_entry k) c = Some (Pattern.A_int k)
    /\ Pattern.array_step (Pattern.A_sign k) c = Some (Pattern.A_int k)
    /\ Pattern.array_step (Pattern.A_int k) c = Some (Pattern.A_int k)
    /\ Pattern.array_step (Pattern.A_point k) c = Some (Pattern.A_frac k)
    /\ Pattern.array_step (Pattern.A_frac k) c = Some (Pattern.A_frac k).
Proof.
  intros Hc k. destruct (digit_facts c Hc) as (Hs & H45 & _).
  unfold Pattern.array_step. rewrite Hs, H45, Hc. repeat split.
Qed.

Lemma step_space c :
  is_js_space c = true ->
  forall k,
    Pattern.array_step (Pattern.A_entry k) c = Some (Pattern.A_entry k)
    /\ Pattern.array_step (Pattern.A_int k) c = Some (Pattern.A_trail k)
    /\ Pattern.array_step (Pattern.A_frac k) c = Some (Pattern.A_trail k)
    /\ Pattern.array_step (Pattern.A_trail k) c = Some (Pattern.A_trail k).
Proof.
  intros Hc k. destruct (space_facts c Hc) as (Hd & H46 & H44 & _).
  unfold Pattern.array_step. rewrite Hc, Hd, ?H46, ?H44. repeat split.
Qed.

Lemma run_fraction k f : forall rest n last,
  f <> [] -> forallb is_digit f = true ->
  run_array (Pattern.A_point k) (f ++ rest) n last
  = run_array (Pattern.A_frac k) rest (n + length f) last.
Proof.
  intros rest n last Hne Hf. destruct f as [|c f]; [congruence|].
  cbn [forallb] in Hf. apply andb_prop in Hf as [Hc Hf].
  destruct (step_digit c Hc k) as (_ & _ & _ & Hp & _).
  cbn [app]. rewrite (run_one _ _ _ _ _ _ _ _ Hp) by reflexivity.
  rewrite run_loop; [cbn [length]; f_equal; lia| |reflexivity].
  apply digits_loop; [|exact Hf]. intros x Hx. apply (step_digit x Hx k).
Qed.

Lemma run_number q k whole fraction rest n last :
  q = Pattern.A_entry k \/ q = Pattern.A_sign k ->
  forallb is_digit whole = true -> forallb is_digit fraction = true ->
  (0 < length whole + length fraction)%nat ->
  exists q',
    closing q' k
    /\ run_array q
         (whole ++ match fraction with [] => [] | _ :: _ => 46%N :: fraction end ++ rest)
         n last
       = run_array q' rest
           (n + length (whole ++ match fraction with [] => [] | _ :: _ => 46%N :: fraction end))
           last.
Proof.
  intros Hq Hw Hf Hlen.
  assert (Hpoint : forall m, run_array (Pattern.A_point k) (fraction ++ rest) m last
                             = run_array (Pattern.A_frac k) rest (m + length fraction) last
                             \/ fraction = []).
  { intros m. destruct fraction as [|c f] eqn:E; [right; reflexivity|left].
    apply run_fraction; [discriminate|exact Hf]. }
  destruct whole as [|c whole].
  - destruct fraction as [|f fs]; [simpl in Hlen; lia|].
    exists (Pattern.A_frac k). split; [right; reflexivity|].
    cbn [app].
    assert (Hs : Pattern.array_step q 46%N = Some (Pattern.A_point k))
      by (destruct Hq as [-> | ->]; reflexivity).
    rewrite (run_one _ _ _ _ _ _ _ _ Hs) by reflexivity.
    destruct (Hpoint (S n)) as [Hp|]; [|discriminate].
    cbn [app] in Hp. rewrite Hp.
    cbn [length]. f_equal. lia.
  - cbn [forallb] in Hw. apply andb_prop in Hw as [Hc Hw].
    assert (Hs : Pattern.array_step q c = Some (Pattern.A_int k)).
    { destruct (step_digit c Hc k) as (H1 & H2 & _). destruct Hq as [-> | ->]; assumption. }
    cbn [app]. rewrite (run_one _ _ _ _ _ _ _ _ Hs) by reflexivity.
    rewrite run_loop;
      [| apply digits_loop; [intros x Hx; apply (step_digit x Hx k)|exact Hw] | reflexivity].
    destruct fraction as [|f fs].
    + exists (Pattern.A_int k). split; [left; reflexivity|].
      cbn [app]. rewrite app_nil_r. cbn [length]. f_equal. lia.
    + exists (Pattern.A_frac k). split; [right; reflexivity|].
      cbn [app].
      assert (Hs' : Pattern.array_step (Pattern.A_int k) 46%N = Some (Pattern.A_point k))
        by reflexivity.
      rewrite (run_one _ _ _ _ _ _ _ _ Hs') by reflexivity.
      destruct (Hpoint (S (S n + length whole))) as [Hp|]; [|discriminate].
      cbn [app] in Hp. rewrite Hp.
      cbn [length]. rewrite length_app. cbn [length]. f_equal. lia.
Qed.

Lemma run_entry e k rest n last :
  is_entry e = true ->
  exists q',
    closing q' k
    /\ run_array (Pattern.A_entry k) (entry_text e ++ rest) n last
       = run_array q' rest (n + length (entry_text e)) last.
Proof.
  unfold is_entry, entry_text. intros He.
  apply andb_prop in He as [He Hlen]. apply andb_prop in He as [He Hf].
  apply andb_prop in He as [Hs Hw]. apply Nat.ltb_lt in Hlen.
  rewrite <- !app_assoc.
  rewrite run_loop; [| |reflexivity].
  2:{ apply List.Forall_forall. intros c Hin. rewrite forallb_forall in Hs.
      apply (step_space c (Hs c Hin) k). }
  destruct (Entry.negative e).
  - cbn [app].
    assert (Hm : Pattern.array_step (Pattern.A_entry k) 45%N = Some (Pattern.A_sign k))
      by reflexivity.
    rewrite (run_one _ _ _ _ _ _ _ _ Hm) by reflexivity.
    destruct (run_number (Pattern.A_sign k) k (Entry.whole e) (Entry.fraction e) rest
                (S (n + length (Entry.space e))) last) as (q' & Hq' & Hrun); auto.
    exists q'. split; [exact Hq'|].
    rewrite Hrun.
    rewrite !length_app. cbn [length]. rewrite ?length_app. f_equal. lia.
  - cbn [app].
    destruct (run_number (Pattern.A_entry k) k (Entry.whole e) (Entry.fraction e) rest
                (n + length (Entry.space e)) last) as (q' & Hq' & Hrun); auto.
    exists q'. split; [exact Hq'|].
    rewrite Hrun.
    rewrite !length_app. cbn [length]. f_equal. lia.
Qed.

Lemma run_entries entries : forall k rest n last,
  entries <> [] -> forallb is_entry entries = true ->
  exists q',
    closing q' (k + length entries - 1)
    /\ run_array (Pattern.A_entry k) (join [44%N] (List.map entry_text entries) ++ rest) n last
       = run_array q' rest (n + length (join [44%N] (List.map entry_text entries))) last.
Proof.
  induction entries as [|e entries IH]; intros k rest n last Hne HF; [congruence|].
  cbn [forallb] in HF. apply andb_prop in HF as [He HF].
  destruct entries as [|e2 entries].
  - cbn [List.map join length].
    destruct (run_entry e k rest n last He) as (q' & Hq' & Hrun).
    exists q'. replace (k + 1 - 1)%nat with k by lia. split; assumption.
  - change (join [44%N] (List.map entry_text (e :: e2 :: entries)))
      with (entry_text e ++ [44%N] ++ join [44%N] (List.map entry_text (e2 :: entries))).
    rewrite <- !app_assoc.
    destruct (run_entry e k
                ([44%N] ++ join [44%N] (List.map entry_text (e2 :: entries)) ++ rest)
                n last He) as (q1 & Hq1 & Hrun).
    rewrite Hrun. cbn [app].
    assert (Hs : Pattern.array_step q1 44%N = Some (Pattern.A_entry (S k)))
      by (destruct Hq1 as [-> | ->]; reflexivity).
    rewrite (run_one _ _ _ _ _ _ _ _ Hs) by reflexivity.
    destruct (IH (S k) rest (S (n + length (entry_text e))) last ltac:(discriminate) HF)
      as (q' & Hq' & Hrun').
    exists q'. split.
    + replace (k + length (e :: e2 :: entries) - 1)%nat
        with (S k + length (e2 :: entries) - 1)%nat by (cbn [length]; lia).
      exact Hq'.
    + rewrite Hrun'. rewrite !length_app. cbn [length]. f_equal. lia.
Qed.

Lemma run_close q k trail post n :
  closing q k -> forallb is_js_space trail = true ->
  run_array q (trail ++ 93%N :: post) n None
  = if (10 <=? k)%nat then Some (n + length trail + 1)%nat else None.
Proof.
  intros Hq Ht.
  assert (Hend : forall q0 m, Pattern.array_step q0 93%N = Pattern.close_after k ->
            run_array q0 (93%N :: post) m None
            = if (10 <=? k)%nat then Some (m + 1)%nat else None).
  { intros q0 m Hs. cbn [Pattern.run]. rewrite Hs. unfold Pattern.close_after.
    destruct (10 <=? k)%nat; [|reflexivity].
    cbn [Pattern.array_accepting]. replace (m + 1)%nat with (S m) by lia.
    destruct post; reflexivity. }
  destruct trail as [|c trail].
  - cbn [app length]. rewrite Nat.add_0_r. apply Hend.
    destruct Hq as [-> | ->]; reflexivity.
  - cbn [forallb] in Ht. apply andb_prop in Ht as [Hc Ht].
    assert (Hs : Pattern.array_step q c = Some (Pattern.A_trail k)).
    { destruct (step_space c Hc k) as (_ & H1 & H2 & _). destruct Hq as [-> | ->]; assumption. }
    cbn [app]. rewrite (run_one _ _ _ _ _ _ _ _ Hs) by reflexivity.
    rewrite run_loop; [| |reflexivity].
    2:{ apply List.Forall_forall. intros x Hin. rewrite forallb_forall in Ht.
        apply (step_space x (Ht x Hin) k). }
    rewrite Hend by reflexivity. cbn [length].
    destruct (10 <=? k)%nat; [f_equal; lia|reflexivity].
Qed.

Lemma numeric_array_literal entries trail post :
  entries <> [] -> forallb is_entry entries = true -> forallb is_js_space trail = true ->
  Pattern.numeric_array (array_literal entries trail ++ post)
  = if (11 <=? length entries)%nat then Some (length (array_literal entries trail)) else None.
Proof.
  intros Hne HF Ht. unfold Pattern.numeric_array, Pattern.longest_match, array_literal.
  rewrite <- !app_assoc. cbn [app].
  assert (Hopen : Pattern.array_step Pattern.A_open 91%N = Some (Pattern.A_entry 0))
    by reflexivity.
  rewrite (run_one _ _ _ _ _ _ _ _ Hopen) by reflexivity.
  destruct (run_entries entries 0 (trail ++ 93%N :: post) 1 None Hne HF) as (q & Hq & Hrun).
  rewrite Hrun. rewrite (run_close q _ trail post _ Hq Ht).
  assert (Hlen : (0 < length entries)%nat) by (destruct entries; [congruence|simpl; lia]).
  destruct (11 <=? length entries)%nat eqn:E.
  - apply Nat.leb_le in E.
    replace (10 <=? 0 + length entries - 1)%nat with true by (symmetry; apply Nat.leb_le; lia).
    f_equal. cbn [length]. rewrite !length_app. cbn [length]. lia.
  - apply Nat.leb_gt in E.
    replace (10 <=? 0 + length entries - 1)%nat with false by (symmetry; apply Nat.leb_gt; lia).
    reflexivity.
Qed.

(** A scan keeps a stretch of text in which no match starts, whatever
    follows it. *)
Lemma replace_all_from_stretch m rep a b :
  (forall p q, a = p ++ q -> q <> [] -> m (q ++ b) = None) ->
  replace_all_from m rep 0 (a ++ b) = a ++ replace_all_from m rep 0 b.
Proof.
  induction a as [|c a IH]; intros Hm; [reflexivity|].
  cbn [app replace_all_from].
  pose proof (Hm [] (c :: a) eq_refl ltac:(discriminate)) as H0.
  cbn [app] in H0. rewrite H0.
  f_equal. apply IH. intros p q -> Hq. apply (Hm (c :: p) q); [reflexivity|exact Hq].
Qed.

Lemma replace_all_from_skip m rep a b :
  replace_all_from m rep (length a) (a ++ b) = replace_all_from m rep 0 b.
Proof. induction a as [|c a IH]; [reflexivity|]. exact IH. Qed.

Lemma replace_all_from_match m rep a b :
  a <> [] -> m (a ++ b) = Some (length a) ->
  replace_all_from m rep 0 (a ++ b) = rep ++ replace_all_from m rep 0 b.
Proof.
  intros Hne Hm. destruct a as [|c a]; [congruence|].
  cbn [app replace_all_from]. cbn [app] in Hm. rewrite Hm. cbn [length].
  rewrite replace_all_from_skip. reflexivity.
Qed.

Lemma base64_uri_starts c t : c <> 100%N -> Pattern.base64_uri (c :: t) = None.
Proof.
  intros Hc. apply N.eqb_neq in Hc.
  assert (H : forall items, Pattern.uri_step (false, Pattern.Chr 100%N :: items) c = None).
  { intros items. unfold Pattern.uri_step, Pattern.enter. rewrite Hc. reflexivity. }
  unfold Pattern.base64_uri, Pattern.longest_match.
  change Pattern.base64_uri_items with (Pattern.Chr 100%N :: List.tl Pattern.base64_uri_items).
  cbn [Pattern.run]. rewrite H. reflexivity.
Qed.

Lemma numeric_array_starts c t : c <> 91%N -> Pattern.numeric_array (c :: t) = None.
Proof.
  intros Hc. apply N.eqb_neq in Hc.
  unfold Pattern.numeric_array, Pattern.longest_match. cbn [Pattern.run].
  unfold Pattern.array_step. rewrite Hc. reflexivity.
Qed.

(** A match of [t] that starts before [h], a character refused, ends
    before it: a text without match has none before [h] either. *)
Lemma no_match_before t h a b :
  (forall c u z w, t (c :: u ++ h :: z) <> None -> t (c :: u ++ w) <> None) ->
  no_match t a ->
  forall p q, a = p ++ q -> q <> [] -> t (q ++ h :: b) = None.
Proof.
  intros Hlocal Ha p q -> Hq. destruct q as [|c u]; [congruence|].
  destruct (t ((c :: u) ++ h :: b)) eqn:E; [|reflexivity].
  exfalso. apply (Hlocal c u b []); [cbn [app] in E; congruence|].
  rewrite app_nil_r. apply (Ha p (c :: u)). reflexivity.
Qed.

(** No character of an array literal is the letter that opens a data URI,
    and none after the first is an opening bracket. *)
Lemma array_literal_chars entries trail :
  forallb is_entry entries = true -> forallb is_js_space trail = true ->
  Forall (fun c => c <> 100%N) (array_literal entries trail)
  /\ exists body,
       array_literal entries trail = 91%N :: body /\ Forall (fun c => c <> 91%N) body.
Proof.
  intros HF Ht.
  assert (Hdigits : forall u, forallb is_digit u = true ->
                      Forall (fun c => c <> 100%N /\ c <> 91%N) u).
  { intros u Hu. apply List.Forall_forall. intros c Hin. rewrite forallb_forall in Hu.
    destruct (digit_facts c (Hu c Hin)) as (_ & _ & _ & H1 & H2). split; assumption. }
  assert (Hspaces : forall u, forallb is_js_space u = true ->
                      Forall (fun c => c <> 100%N /\ c <> 91%N) u).
  { intros u Hu. apply List.Forall_forall. intros c Hin. rewrite forallb_forall in Hu.
    destruct (space_facts c (Hu c Hin)) as (_ & _ & _ & H1 & H2). split; assumption. }
  assert (Hentry : forall e, is_entry e = true ->
                     Forall (fun c => c <> 100%N /\ c <> 91%N) (entry_text e)).
  { intros e He. unfold is_entry in He.
    apply andb_prop in He as [He _]. apply andb_prop in He as [He Hf].
    apply andb_prop in He as [Hs Hw]. unfold entry_text.
    apply Forall_app. split; [apply Hspaces, Hs|].
    apply Forall_app. split; [destruct (Entry.negative e); repeat constructor; discriminate|].
    apply Forall_app. split; [apply Hdigits, Hw|].
    destruct (Entry.fraction e) as [|f fs] eqn:E; [constructor|].
    constructor; [split; discriminate|]. apply Hdigits, Hf. }
  assert (Hjoin : Forall (fun c => c <> 100%N /\ c <> 91%N)
                    (join [44%N] (List.map entry_text entries))).
  { induction entries as [|e entries IH]; [constructor|].
    cbn [forallb] in HF. apply andb_prop in HF as [He HF].
    destruct entries as [|e2 entries]; [exact (Hentry e He)|].
    change (join [44%N] (List.map entry_text (e :: e2 :: entries)))
      with (entry_text e ++ [44%N] ++ join [44%N] (List.map entry_text (e2 :: entries))).
    apply Forall_app. split; [exact (Hentry e He)|].
    apply Forall_app. split; [repeat constructor; discriminate|exact (IH HF)]. }
  assert (Hbody : Forall (fun c => c <> 100%N /\ c <> 91%N)
                    (join [44%N] (List.map entry_text entries) ++ trail ++ [93%N])).
  { apply Forall_app. split; [exact Hjoin|].
    apply Forall_app. split; [apply Hspaces, Ht|repeat constructor; discriminate]. }
  unfold array_literal. split.
  - constructor; [discriminate|].
    eapply List.Forall_impl; [|exact Hbody]. intros c [H _]. exact H.
  - eexists. split; [reflexivity|].
    eapply List.Forall_impl; [|exact Hbody]. intros c [_ H]. exact H.
Qed.

Lemma stretch_without (m : jsstring -> option nat) x a b :
  (forall c t, c <> x -> m (c :: t) = None) ->
  Forall (fun c => c <> x) a ->
  forall p q, a = p ++ q -> q <> [] -> m (q ++ b) = None.
Proof.
  intros Hm Ha p q -> Hq. destruct q as [|c u]; [congruence|].
  apply Forall_app in Ha as [_ Ha]. inversion Ha; subst.
  cbn [app]. apply Hm. assumption.
Qed.

(** X3. In a text that holds nothing else to hide, an array literal of
    numbers, each with white space before it or none, a sign or none, and
    digits with or without a fraction, is replaced by the geometry
    placeholder when it has more than ten entries, and kept when it has
    ten or fewer; the text before it and after it is returned as it
    is. *)
Theorem compress_numeric_array pre entries trail post :
  nothing_to_hide pre ->
  nothing_to_hide post ->
  entries <> [] ->
  forallb is_entry entries = true ->
  forallb is_js_space trail = true ->
  compressCodeForContext (pre ++ array_literal entries trail ++ post)
  = pre ++ (if (11 <=? length entries)%nat then GEOMETRY_DATA_HIDDEN
            else array_literal entries trail) ++ post.
Proof.
  intros [Hpre1 Hpre2] [Hpost1 Hpost2] Hne HF Ht.
  destruct (array_literal_chars entries trail HF Ht) as (Hd & body & Hbody & Hb).
  pose proof (numeric_array_literal entries trail post Hne HF Ht) as Hm.
  set (arr := array_literal entries trail) in *.
  assert (Hpost_fix1 : replace_all_from Pattern.base64_uri BASE64_DATA_HIDDEN 0 post = post)
    by (apply (replace_all_no_match _ _ _ Hpost1)).
  assert (Hpost_fix2 : replace_all_from Pattern.numeric_array GEOMETRY_DATA_HIDDEN 0 post = post)
    by (apply (replace_all_no_match _ _ _ Hpost2)).
  (* the first pass changes nothing *)
  assert (H1 : replace_all Pattern.base64_uri BASE64_DATA_HIDDEN (pre ++ arr ++ post)
               = pre ++ arr ++ post).
  { unfold replace_all. rewrite Hbody at 1.
    rewrite replace_all_from_stretch.
    - f_equal. rewrite <- Hbody. rewrite replace_all_from_stretch.
      + rewrite Hpost_fix1. reflexivity.
      + apply (stretch_without _ 100%N); [apply base64_uri_starts|exact Hd].
    - apply no_match_before; [apply base64_uri_local_bracket|exact Hpre1]. }
  (* the second pass finds the array, or nothing *)
  assert (H2 : replace_all Pattern.numeric_array GEOMETRY_DATA_HIDDEN (pre ++ arr ++ post)
               = pre ++ (if (11 <=? length entries)%nat then GEOMETRY_DATA_HIDDEN else arr)
                 ++ post).
  { unfold replace_all. rewrite Hbody at 1.
    rewrite replace_all_from_stretch
      by (apply no_match_before; [apply numeric_array_local|exact Hpre2]).
    f_equal. rewrite <- Hbody.
    destruct (11 <=? length entries)%nat.
    - rewrite replace_all_from_match; [rewrite Hpost_fix2; reflexivity| |exact Hm].
      rewrite Hbody. discriminate.
    - rewrite Hbody. change ((91%N :: body) ++ post) with (91%N :: body ++ post).
      cbn [replace_all_from]. rewrite Hbody in Hm. cbn [app] in Hm. rewrite Hm.
      f_equal. rewrite replace_all_from_stretch.
      + rewrite Hpost_fix2. reflexivity.
      + apply (stretch_without _ 91%N); [apply numeric_array_starts|exact Hb]. }
  destruct (pre ++ arr ++ post) as [|c s] eqn:E.
  - exfalso. destruct pre; [|discriminate]. rewrite Hbody in E. discriminate.
  - unfold compressCodeForContext. cbv zeta. rewrite H1. exact H2.
Qed.

Lemma no_match_tails (m : jsstring -> option nat) s :
  m [] = None -> forallb (fun q => match m q with None => true | Some _ => false end) (tails s) = true ->
  no_match m s.
Proof.
  intros Hnil HF p q ->. destruct q as [|c q]; [exact Hnil|].
  rewrite forallb_forall in HF.
  specialize (HF (c :: q) (tails_spec (p ++ c :: q) p (c :: q) eq_refl ltac:(discriminate))).
  destruct (m (c :: q)); [discriminate|reflexivity].
Qed.

Lemma nothing_to_hide_tails s :
  forallb (fun q => match Pattern.base64_uri q with None => true | Some _ => false end)
    (tails s) = true ->
  forallb (fun q => match Pattern.numeric_array q with None => true | Some _ => false end)
    (tails s) = true ->
  nothing_to_hide s.
Proof. intros H1 H2. split; apply no_match_tails; (reflexivity || assumption). Qed.

Lemma compress_numeric_array_witness :
  compressCodeForContext
    (lit "const d = "
     ++ array_literal
          ({| Entry.space := []; Entry.negative := true; Entry.whole := lit "0";
              Entry.fraction := lit "5" |}
           :: {| Entry.space := lit " "; Entry.negative := false; Entry.whole := [];
                 Entry.fraction := lit "25" |}
           :: List.repeat (whole_number "7") 9)
          (lit " ")
     ++ lit "; draw(d[0]);")
  = lit "const d = [...GEOMETRY_DATA_HIDDEN...]; draw(d[0]);".
Proof.
  apply (compress_numeric_array (lit "const d = ")
           ({| Entry.space := []; Entry.negative := true; Entry.whole := lit "0";
               Entry.fraction := lit "5" |}
            :: {| Entry.space := lit " "; Entry.negative := false; Entry.whole := [];
                  Entry.fraction := lit "25" |}
            :: List.repeat (whole_number "7") 9)
           (lit " ") (lit "; draw(d[0]);")).
  - apply nothing_to_hide_tails; reflexivity.
  - apply nothing_to_hide_tails; reflexivity.
  - discriminate.
  - reflexivity.
  - reflexivity.
Defined.

(** ** The compressor: a data URI among other text *)

Lemma uri_accepting_pending b (items : list Pattern.item) it :
  items <> [] -> Pattern.uri_accepting (b, it :: items) = false.
Proof. intros H. destruct items; [congruence|]. destruct b, it; reflexivity. Qed.

Lemma run_uri_lit l : forall items s n last,
  items <> [] ->
  Pattern.run Pattern.uri_step Pattern.uri_accepting
    (false, List.map Pattern.Chr l ++ items) (l ++ s) n last
  = Pattern.run Pattern.uri_step Pattern.uri_accepting (false, items) s (n + length l) last.
Proof.
  induction l as [|c l IH]; intros items s n last Hne.
  - simpl. rewrite Nat.add_0_r. reflexivity.
  - cbn [List.map app Pattern.run]. unfold Pattern.uri_step at 1. cbn [Pattern.enter].
    rewrite N.eqb_refl.
    replace (Pattern.uri_accepting (false, List.map Pattern.Chr l ++ items)) with false.
    + rewrite IH by exact Hne. cbn [length]. f_equal. lia.
    + symmetry. destruct l as [|c' l]; cbn [List.map app].
      * destruct items as [|it items]; [congruence|].
        destruct items; destruct it; reflexivity.
      * destruct (List.map Pattern.Chr l ++ items) eqn:E; [|reflexivity].
        apply app_eq_nil in E as [_ E]. congruence.
Qed.

Lemma run_uri_class_more cls w : forall r s n last,
  r <> [] -> forallb cls w = true ->
  Pattern.run Pattern.uri_step Pattern.uri_accepting
    (true, Pattern.Plus cls :: r) (w ++ s) n last
  = Pattern.run Pattern.uri_step Pattern.uri_accepting
      (true, Pattern.Plus cls :: r) s (n + length w) last.
Proof.
  induction w as [|c w IH]; intros r s n last Hr Hw.
  - simpl. rewrite Nat.add_0_r. reflexivity.
  - cbn [forallb] in Hw. apply andb_prop in Hw as [Hc Hw].
    cbn [app Pattern.run]. unfold Pattern.uri_step at 1. rewrite Hc.
    rewrite (uri_accepting_pending true r (Pattern.Plus cls) Hr).
    rewrite IH by assumption. cbn [length]. f_equal. lia.
Qed.

Lemma run_uri_class cls w r s n last :
  r <> [] -> word_of cls w ->
  Pattern.run Pattern.uri_step Pattern.uri_accepting
    (false, Pattern.Plus cls :: r) (w ++ s) n last
  = Pattern.run Pattern.uri_step Pattern.uri_accepting
      (true, Pattern.Plus cls :: r) s (n + length w) last.
Proof.
  intros Hr [Hne Hw]. destruct w as [|c w]; [congruence|].
  cbn [forallb] in Hw. apply andb_prop in Hw as [Hc Hw].
  cbn [app Pattern.run]. unfold Pattern.uri_step at 1. cbn [Pattern.enter]. rewrite Hc.
  rewrite (uri_accepting_pending true r (Pattern.Plus cls) Hr).
  rewrite run_uri_class_more by assumption. cbn [length]. f_equal. lia.
Qed.

Lemma run_uri_payload_more w : forall post n,
  forallb is_base64 w = true -> ends_payload post ->
  Pattern.run Pattern.uri_step Pattern.uri_accepting
    (true, [Pattern.Plus is_base64]) (w ++ post) n (Some n)
  = Some (n + length w)%nat.
Proof.
  induction w as [|c w IH]; intros post n Hw Hpost.
  - rewrite Nat.add_0_r. destruct post as [|c post]; [reflexivity|].
    cbn [app Pattern.run]. unfold Pattern.uri_step. simpl in Hpost. rewrite Hpost.
    reflexivity.
  - cbn [forallb] in Hw. apply andb_prop in Hw as [Hc Hw].
    cbn [app Pattern.run]. unfold Pattern.uri_step at 1. rewrite Hc.
    cbn [Pattern.uri_accepting]. rewrite IH by assumption. cbn [length]. f_equal. lia.
Qed.

Lemma run_uri_payload w post n last :
  word_of is_base64 w -> ends_payload post ->
  Pattern.run Pattern.uri_step Pattern.uri_accepting
    (false, [Pattern.Plus is_base64]) (w ++ post) n last
  = Some (n + length w)%nat.
Proof.
  intros [Hne Hw] Hpost. destruct w as [|c w]; [congruence|].
  cbn [forallb] in Hw. apply andb_prop in Hw as [Hc Hw].
  cbn [app Pattern.run]. unfold Pattern.uri_step at 1. cbn [Pattern.enter]. rewrite Hc.
  cbn [Pattern.uri_accepting]. rewrite run_uri_payload_more by assumption.
  cbn [length]. f_equal. lia.
Qed.

Lemma run_uri_leave cls x r s n last :
  cls x = false -> r <> [] ->
  Pattern.run Pattern.uri_step Pattern.uri_accepting
    (true, Pattern.Plus cls :: Pattern.Chr x :: r) (x :: s) n last
  = Pattern.run Pattern.uri_step Pattern.uri_accepting (false, r) s (S n) last.
Proof.
  intros Hx Hr. cbn [Pattern.run]. unfold Pattern.uri_step at 1. rewrite Hx.
  cbn [Pattern.enter]. rewrite N.eqb_refl.
  destruct r as [|it r]; [congruence|].
  destruct r, it; reflexivity.
Qed.

Lemma base64_uri_data_uri type subtype payload post :
  word_of is_lower type -> word_of is_lower subtype -> word_of is_base64 payload ->
  ends_payload post ->
  Pattern.base64_uri (data_uri type subtype payload ++ post)
  = Some (length (data_uri type subtype payload)).
Proof.
  intros Ht Hs Hp Hpost.
  assert (Hnil : forall l, List.map Pattern.Chr l ++ [Pattern.Plus is_base64] <> []).
  { intros l H. apply app_eq_nil in H as [_ H]. discriminate. }
  unfold Pattern.base64_uri, Pattern.longest_match, data_uri, Pattern.base64_uri_items,
    Pattern.chars.
  rewrite <- !app_assoc.
  rewrite run_uri_lit by discriminate.
  cbn [app].
  rewrite run_uri_class by (assumption || discriminate).
  change (lit "/") with [47%N]. cbn [List.map app].
  rewrite run_uri_leave by (reflexivity || discriminate).
  rewrite run_uri_class by (assumption || discriminate).
  change (lit ";base64,") with (59%N :: lit "base64,"). cbn [List.map app].
  rewrite run_uri_leave by (reflexivity || apply Hnil).
  rewrite run_uri_lit by discriminate.
  rewrite run_uri_payload by assumption.
  f_equal. change (lit "data:") with [100; 97; 116; 97; 58]%N.
  change (lit "base64,") with [98; 97; 115; 101; 54; 52; 44]%N.
  repeat (rewrite ?length_app; cbn [length]). lia.
Qed.

Lemma numeric_array_local_lt c u z w :
  Pattern.numeric_array (c :: u ++ 60%N :: z) <> None -> Pattern.numeric_array (c :: u ++ w) <> None.
Proof.
  unfold Pattern.numeric_array.
  apply (longest_match_local Pattern.array_step Pattern.array_accepting
           (fun q => True) 60%N).
  - trivial.
  - intros q _. destruct q; reflexivity.
  - trivial.
Qed.

Lemma numeric_array_not_in_BASE64 :
  Forall (fun r => forall y, Pattern.numeric_array (r ++ y) = None) (tails BASE64_DATA_HIDDEN).
Proof. repeat constructor. Qed.

(** A match that starts in a text closed by [h], a character refused,
    ends in it. *)
Lemma no_match_closed t a b :
  (forall h, last a = Some h ->
     (forall z, t (h :: z) = None)
     /\ forall c u z w, t (c :: u ++ h :: z) <> None -> t (c :: u ++ w) <> None) ->
  no_match t a ->
  forall p q, a = p ++ q -> q <> [] -> t (q ++ b) = None.
Proof.
  intros Hlast Ha p q -> Hq.
  destruct (exists_last Hq) as (q' & h & ->).
  destruct (Hlast h) as [Hh Hlocal].
  { rewrite app_assoc. apply last_snoc. }
  rewrite <- app_assoc. cbn [app].
  destruct q' as [|c u]; [apply Hh|].
  destruct (t ((c :: u) ++ h :: b)) eqn:E; [|reflexivity].
  exfalso. apply (Hlocal c u b [h]); [cbn [app] in E; congruence|].
  apply (Ha p ((c :: u) ++ [h])). reflexivity.
Qed.

(** X4. In a text that holds nothing else to hide, a base64 data URI (a
    media type of two lower-case words and a payload over the base64
    alphabet) is replaced by the base64 placeholder; the text before it
    and after it is returned as it is. *)
Theorem compress_data_uri pre type subtype payload post :
  nothing_to_hide pre ->
  nothing_to_hide post ->
  opens_uri pre ->
  ends_payload post ->
  word_of is_lower type ->
  word_of is_lower subtype ->
  word_of is_base64 payload ->
  compressCodeForContext (pre ++ data_uri type subtype payload ++ post)
  = pre ++ BASE64_DATA_HIDDEN ++ post.
Proof.
  intros [Hpre1 Hpre2] [Hpost1 Hpost2] Hopen Hend Ht Hs Hp.
  pose proof (base64_uri_data_uri type subtype payload post Ht Hs Hp Hend) as Hm.
  set (uri := data_uri type subtype payload) in *.
  assert (Huri : uri <> []) by discriminate.
  assert (H1 : replace_all Pattern.base64_uri BASE64_DATA_HIDDEN (pre ++ uri ++ post)
               = pre ++ BASE64_DATA_HIDDEN ++ post).
  { unfold replace_all. rewrite replace_all_from_stretch.
    - f_equal. rewrite replace_all_from_match by assumption.
      f_equal. apply (replace_all_no_match _ _ _ Hpost1).
    - apply no_match_closed; [|exact Hpre1].
      intros h Hh. unfold opens_uri in Hopen. rewrite Hh in Hopen. split.
      + intros z. apply base64_uri_starts.
        inversion Hopen as [|? ? Hd _]; subst. simpl in Hd.
        apply N.eqb_neq. exact Hd.
      + apply base64_uri_refuses. exact Hopen. }
  assert (H2 : replace_all Pattern.numeric_array GEOMETRY_DATA_HIDDEN
                 (pre ++ BASE64_DATA_HIDDEN ++ post)
               = pre ++ BASE64_DATA_HIDDEN ++ post).
  { unfold replace_all.
    change BASE64_DATA_HIDDEN with (60%N :: lit "BASE64_DATA_HIDDEN>").
    rewrite replace_all_from_stretch
      by (apply no_match_before; [apply numeric_array_local_lt|exact Hpre2]).
    f_equal. change (60%N :: lit "BASE64_DATA_HIDDEN>") with BASE64_DATA_HIDDEN.
    rewrite replace_all_from_stretch.
    - f_equal. apply (replace_all_no_match _ _ _ Hpost2).
    - intros p q Hpq Hq. eapply starts_nowhere; [exact numeric_array_not_in_BASE64| |];
        eassumption. }
  destruct (pre ++ uri ++ post) as [|c s] eqn:E.
  - exfalso. destruct pre; [|discriminate]. subst uri. discriminate.
  - unfold compressCodeForContext. cbv zeta. rewrite H1. exact H2.
Qed.

Lemma compress_data_uri_witness :
  compressCodeForContext
    (lit "img.src = '" ++ data_uri (lit "image") (lit "png") (lit "iVBORw0KGgo=")
     ++ lit "'; draw(img);")
  = lit "img.src = '<BASE64_DATA_HIDDEN>'; draw(img);".
Proof.
  apply (compress_data_uri (lit "img.src = '") (lit "image") (lit "png")
           (lit "iVBORw0KGgo=") (lit "'; draw(img);")).
  - apply nothing_to_hide_tails; reflexivity.
  - apply nothing_to_hide_tails; reflexivity.
  - repeat constructor.
  - reflexivity.
  - split; [discriminate|reflexivity].
  - split; [discriminate|reflexivity].
  - split; [discriminate|reflexivity].
Defined.

(** ** Refinement: the two modes, run forward *)

Lemma parseAndSanitize_Normal text w v :
  fst (parseAndSanitize text w) = Normal v -> parseAndSanitize text w = (Normal v, w).
Proof.
  intros H. destruct (parseAndSanitize_cases text w) as [[v' Hv]|[w1 Hv]];
    rewrite Hv in H; simpl in H; congruence.
Qed.

(** X5. In rewrite mode with a full code that is a string and not empty,
    [refineGame] returns the game with that full code as its html,
    whatever the edits of the response are; the instructions are those
    of the response when it gives some that are not empty, and those of
    the game otherwise. One line is written to the console. *)
Theorem refineGame_rewrite_replaces ai currentGame instruction w game text members code given :
  objects w !! currentGame = Some game ->
  ai (refineRequest instruction
        (compressCodeForContext (or_string (GeneratedGame.html game) [])))
  = Resolved text ->
  fst (parseAndSanitize (or_string text (lit "{}")) w) = Normal (JObj members) ->
  Json.get (lit "editMode") members = Some (JStr (lit "rewrite")) ->
  Json.get (lit "fullCode") members = Some (JStr code) ->
  code <> [] ->
  Json.get (lit "instructions") members = option_map JStr given ->
  refineGame ai currentGame instruction w
  = (Normal (with_artifact game (Some code)
               (or_option given (GeneratedGame.instructions game))),
     rewrite_logged w).
Proof.
  intros Hgame Hai Hparse Hmode Hcode Hne Hgiven.
  apply parseAndSanitize_Normal in Hparse.
  unfold refineGame, bind at 1, deref at 1. rewrite Hgame.
  unfold try_catch, bind at 1, generateContent. rewrite Hai. unfold ret at 1.
  unfold bind at 1. rewrite Hparse.
  unfold bind at 1, deref at 1. rewrite Hgame.
  rewrite !prop_member by reflexivity.
  rewrite bind_ret, Hmode.
  change (is_rewrite (Some (JStr (lit "rewrite")))) with true. cbv iota.
  rewrite bind_ret, Hcode.
  destruct code as [|c code]; [congruence|].
  cbn [truthy_string]. rewrite bind_ret.
  unfold bind at 1, console_write at 1.
  unfold bind at 1, deref at 1. cbn [objects]. rewrite Hgame.
  rewrite bind_ret, Hgiven.
  destruct given as [[|c' s]|]; reflexivity.
Qed.

Lemma refineGame_rewrite_replaces_witness :
  refineGame
    (answering (lit "{" ++ dq ++ lit "editMode" ++ dq ++ lit ":" ++ dq ++ lit "rewrite" ++ dq
                ++ lit "," ++ dq ++ lit "fullCode" ++ dq ++ lit ":" ++ dq ++ lit "<html>v2</html>" ++ dq
                ++ lit "," ++ dq ++ lit "edits" ++ dq ++ lit ":["
                ++ edit_text (lit "v1") (lit "v3") ++ lit "]}"))
    1%positive (lit "rebuild") (world_of (demo_game (lit "<html>v1</html>")))
  = (Normal (with_artifact (demo_game (lit "<html>v1</html>")) (Some (lit "<html>v2</html>"))
               (Some (lit "Arrows to move."))),
     rewrite_logged (world_of (demo_game (lit "<html>v1</html>")))).
Proof.
  eapply (refineGame_rewrite_replaces _ 1%positive (lit "rebuild")
            (world_of (demo_game (lit "<html>v1</html>")))
            (demo_game (lit "<html>v1</html>")) _ _ (lit "<html>v2</html>") None).
  - vm_compute. reflexivity.
  - reflexivity.
  - vm_compute. reflexivity.
  - vm_compute. reflexivity.
  - vm_compute. reflexivity.
  - discriminate.
  - vm_compute. reflexivity.
Defined.

(** The patch mode, for any response that does not rewrite. *)
Lemma refineGame_patch_path ai l instruction w game text members given html' w' :
  objects w !! l = Some game ->
  ai (refineRequest instruction
        (compressCodeForContext (or_string (GeneratedGame.html game) [])))
  = Resolved text ->
  fst (parseAndSanitize (or_string text (lit "{}")) w) = Normal (JObj members) ->
  (if is_rewrite (Json.get (lit "editMode") members)
   then truthy_string (Json.get (lit "fullCode") members) else ret None) = ret None ->
  match Json.get (lit "edits") members with
  | Some (JArr items) => apply_edits items (or_string (GeneratedGame.html game) [])
  | _ => ret (or_string (GeneratedGame.html game) [])
  end (patch_logged w) = (Normal html', w') ->
  Json.get (lit "instructions") members = option_map JStr given ->
  refineGame ai l instruction w
  = (Normal (with_artifact game (Some html')
               (or_option given (GeneratedGame.instructions game))), w').
Proof.
  intros Hgame Hai Hparse Hmode Hrun Hgiven.
  apply parseAndSanitize_Normal in Hparse.
  assert (Hobj : objects w' = objects w).
  { destruct (Json.get (lit "edits") members) as [[| | | |items|]|];
      try (injection Hrun as _ <-; reflexivity).
    rewrite (keeps_run _ _ _ _ (keeps_apply_edits items _) Hrun). reflexivity. }
  unfold refineGame, bind at 1, deref at 1. rewrite Hgame.
  unfold try_catch, bind at 1, generateContent. rewrite Hai. unfold ret at 1.
  unfold bind at 1. rewrite Hparse.
  unfold bind at 1, deref at 1. rewrite Hgame.
  rewrite !prop_member by reflexivity.
  rewrite bind_ret. cbv beta. rewrite bind_ret, Hmode, bind_ret.
  unfold bind at 1, console_write at 1.
  rewrite bind_ret.
  unfold bind at 1. fold (logged c_log [Text (lit "Refinement strategy: PATCH")] w).
  fold (patch_logged w). rewrite Hrun.
  unfold bind at 1, deref at 1.
  rewrite Hobj, Hgame, bind_ret, Hgiven.
  destruct given as [[|c s]|]; reflexivity.
Qed.

(** X6. A response whose text is missing, empty or the empty object is
    read as a patch without edits: [refineGame] succeeds and returns the
    game with the html it had (the empty string when it had none) and the
    instructions it had. *)
Theorem refineGame_empty_response ai currentGame instruction w game text :
  objects w !! currentGame = Some game ->
  ai (refineRequest instruction
        (compressCodeForContext (or_string (GeneratedGame.html game) [])))
  = Resolved text ->
  or_string text (lit "{}") = lit "{}" ->
  refineGame ai currentGame instruction w
  = (Normal (with_artifact game (Some (or_string (GeneratedGame.html game) []))
               (GeneratedGame.instructions game)),
     patch_logged w).
Proof.
  intros Hgame Hai Htext.
  apply (refineGame_patch_path ai currentGame instruction w game text [] None
           (or_string (GeneratedGame.html game) []) (patch_logged w) Hgame Hai);
    try reflexivity.
  rewrite Htext. reflexivity.
Qed.

Lemma refineGame_empty_response_witness :
  refineGame (fun _ => Resolved None) 1%positive (lit "bump")
    (world_of (demo_game (lit "<html>v1</html>")))
  = (Normal (with_artifact (demo_game (lit "<html>v1</html>")) (Some (lit "<html>v1</html>"))
               (Some (lit "Arrows to move."))),
     patch_logged (world_of (demo_game (lit "<html>v1</html>")))).
Proof.
  apply (refineGame_empty_response (fun _ => Resolved None) 1%positive (lit "bump")
           (world_of (demo_game (lit "<html>v1</html>")))
           (demo_game (lit "<html>v1</html>")) None).
  - vm_compute. reflexivity.
  - reflexivity.
  - reflexivity.
Defined.

Lemma apply_edits_miss items : forall html w,
  Forall (fun edit => exists search, edit_searching search edit
                                     /\ includes html search = false) items ->
  apply_edits items html w = (Normal html, skipped (length items) w).
Proof.
  induction items as [|edit items IH] using rev_ind; intros html w HF; [reflexivity|].
  apply Forall_app in HF as [HF Hedit].
  inversion Hedit as [|? ? (search & (members & replacement & -> & Hs & Hr & Hne) & Hout) _];
    subst.
  assert (Happ : forall a b h w0 r w1,
            apply_edits a h w0 = (Normal r, w1) ->
            apply_edits (a ++ b) h w0 = apply_edits b r w1).
  { induction a as [|x a IHa]; intros b h w0 r w1 Ha.
    - injection Ha as -> ->. reflexivity.
    - cbn [app apply_edits] in *. unfold bind in *.
      destruct (apply_edit x h w0) as [[h'| |] w0']; try discriminate.
      apply IHa. exact Ha. }
  rewrite (Happ _ _ _ _ _ _ (IH html w HF)).
  cbn [apply_edits]. unfold bind at 1.
  rewrite (apply_edit_strings _ _ _ _ _ Hs Hr Hne), Hout.
  rewrite length_app, Nat.add_comm. reflexivity.
Qed.

(** X7. A patch none of whose edits finds its search text in the html
    does not fail: [refineGame] succeeds, the html returned is the one
    the game had, and the console holds one warning for each edit after
    the line that names the mode. *)
Theorem refineGame_patch_all_skipped ai currentGame instruction w game text members items given :
  objects w !! currentGame = Some game ->
  ai (refineRequest instruction
        (compressCodeForContext (or_string (GeneratedGame.html game) [])))
  = Resolved text ->
  fst (parseAndSanitize (or_string text (lit "{}")) w) = Normal (JObj members) ->
  Json.get (lit "editMode") members = Some (JStr (lit "patch")) ->
  Json.get (lit "edits") members = Some (JArr items) ->
  Json.get (lit "instructions") members = option_map JStr given ->
  Forall (fun edit =>
            exists search, edit_searching search edit
              /\ includes (or_string (GeneratedGame.html game) []) search = false) items ->
  refineGame ai currentGame instruction w
  = (Normal (with_artifact game (Some (or_string (GeneratedGame.html game) []))
               (or_option given (GeneratedGame.instructions game))),
     skipped (length items) (patch_logged w)).
Proof.
  intros Hgame Hai Hparse Hmode Hedits Hgiven Hmiss.
  apply (refineGame_patch_path ai currentGame instruction w game text members given
           _ _ Hgame Hai Hparse).
  - rewrite Hmode. reflexivity.
  - rewrite Hedits. apply apply_edits_miss. exact Hmiss.
  - exact Hgiven.
Qed.

Lemma refineGame_patch_all_skipped_witness :
  refineGame
    (answering (patch_text [edit_text (lit "v7") (lit "v8"); edit_text (lit "v9") (lit "v8")]))
    1%positive (lit "bump") (world_of (demo_game (lit "<html>v1</html>")))
  = (Normal (with_artifact (demo_game (lit "<html>v1</html>")) (Some (lit "<html>v1</html>"))
               (Some (lit "Arrows to move."))),
     skipped 2 (patch_logged (world_of (demo_game (lit "<html>v1</html>"))))).
Proof.
  eapply (refineGame_patch_all_skipped _ 1%positive (lit "bump")
            (world_of (demo_game (lit "<html>v1</html>")))
            (demo_game (lit "<html>v1</html>")) _ _
            [JObj [(lit "search", JStr (lit "v7")); (lit "replace", JStr (lit "v8"))];
             JObj [(lit "search", JStr (lit "v9")); (lit "replace", JStr (lit "v8"))]] None).
  - vm_compute. reflexivity.
  - reflexivity.
  - vm_compute. reflexivity.
  - vm_compute. reflexivity.
  - vm_compute. reflexivity.
  - vm_compute. reflexivity.
  - repeat constructor.
    + exists (lit "v7"). split; [|vm_compute; reflexivity].
      eexists _, _. repeat split; try reflexivity. discriminate.
    + exists (lit "v9"). split; [|vm_compute; reflexivity].
      eexists _, _. repeat split; try reflexivity. discriminate.
Defined.

(** ** The sanitizer and the soundscape phase: how they end *)

Lemma substring_prefix (s : jsstring) (n : nat) :
  substring s 0 (Z.of_nat n) = firstn n s.
Proof.
  unfold substring. cbv zeta.
  match goal with
  | |- firstn (Z.to_nat ?d) (skipn (Z.to_nat ?lo) s) = _ =>
      replace (Z.to_nat lo) with 0%nat by lia;
      replace (Z.to_nat d) with (Nat.min n (length s)) by lia
  end.
  cbn [skipn].
  destruct (Nat.le_ge_cases n (length s)) as [H|H].
  - rewrite Nat.min_l by exact H. reflexivity.
  - rewrite Nat.min_r by exact H. rewrite (take_ge s n) by exact H. apply take_ge. reflexivity.
Qed.

(** X8. [parseAndSanitize] returns what [JSON.parse] gives on a text that
    is valid JSON, and it ends in one of two ways on any text: with a
    value, the console left as it was, or, the text not being valid JSON,
    with its one error after one error line on the console that holds at
    most the first 200 code units of the text, followed by three dots. *)
Theorem parseAndSanitize_outcome text w :
  (forall v, Json.parse text = Some v -> parseAndSanitize text w = (Normal v, w))
  /\ ((exists v, parseAndSanitize text w = (Normal v, w))
      \/ (Json.parse text = None
          /\ parseAndSanitize text w
             = (Throw invalid_response,
                logged c_error
                  [Text (lit "JSON Parse Failed. Raw text:");
                   Text (firstn 200 text ++ lit "...")] w))).
Proof.
  split.
  - intros v Hv. unfold parseAndSanitize. rewrite Hv. reflexivity.
  - unfold parseAndSanitize.
    destruct (Json.parse text) as [v|]; [left; exists v; reflexivity|].
    match goal with |- context [match ?s with Some _ => _ | None => _ end] =>
      destruct s as [v|] end; [left; exists v; reflexivity|].
    match goal with |- context [match ?s with Some _ => _ | None => _ end] =>
      destruct s as [v|] end; [left; exists v; reflexivity|].
    right. split; [reflexivity|].
    change 200%Z with (Z.of_nat 200). rewrite substring_prefix. reflexivity.
Qed.

Lemma notify_Normal onStatus status w :
  exists w0, notify onStatus status w = (Normal tt, w0).
Proof. unfold notify. destruct onStatus; eexists; reflexivity. Qed.

(** X9. Whatever the provider does, [generateSoundscape] throws nothing
    when the status callback returns: it gives the value the sanitizer
    read in the response, whatever its shape (the empty object for a
    response without text), and the fallback audio in every other
    case. *)
Theorem generateSoundscape_outcome ai blueprint prefs onStatus w :
  exists v w',
    generateSoundscape ai blueprint prefs onStatus w = (Normal v, w')
    /\ match ai (audioRequest blueprint prefs) with
       | Rejected _ => v = fallbackAudio
       | Resolved text =>
           match fst (parseAndSanitize (or_string text (lit "{}")) w) with
           | Normal parsed => v = parsed
           | _ => v = fallbackAudio
           end
       end
    /\ (ai (audioRequest blueprint prefs) = Resolved None -> v = JObj []).
Proof.
  unfold generateSoundscape, bind at 1.
  destruct (notify_Normal onStatus (lit "Designing Soundscape...") w) as [w0 ->].
  unfold try_catch, bind at 1, generateContent.
  destruct (ai (audioRequest blueprint prefs)) as [cause|text].
  - eexists _, _. split; [reflexivity|]. split; [reflexivity|discriminate].
  - unfold ret at 1.
    rewrite (parseAndSanitize_world _ w w0).
    destruct (parseAndSanitize_cases (or_string text (lit "{}")) w0) as [[v Hv]|[w1 Hv]];
      rewrite Hv; cbn [fst].
    + eexists _, _. split; [reflexivity|]. split; [reflexivity|].
      intros [= ->]. vm_compute in Hv. congruence.
    + eexists _, _. split; [reflexivity|]. split; [reflexivity|].
      intros [= ->]. vm_compute in Hv. congruence.
Qed.

(** ** The prototype phase *)

Lemma notify_after onStatus status w :
  notify onStatus status w = (Normal tt, after_status onStatus status w).
Proof. unfold after_status, notify. destruct onStatus; reflexivity. Qed.

Lemma validateStructure_cases data requiredKeys context w :
  (validateStructure data requiredKeys context w = (Normal data, w)
   /\ is_object data = true
   /\ Forall (fun key => has_property key data = true) requiredKeys)
  \/ exists cause, validateStructure data requiredKeys context w = (Throw cause, w).
Proof.
  unfold validateStructure.
  destruct (is_object data) eqn:Hobj; cbn [negb]; [|right; eexists; reflexivity].
  destruct (List.filter _ requiredKeys) as [|k missing] eqn:Hmiss.
  - left. split; [reflexivity|]. split; [reflexivity|].
    apply List.Forall_forall. intros key Hin.
    destruct (has_property key data) eqn:Hp; [reflexivity|].
    assert (Hk : In key (List.filter (fun key => negb (has_property key data)) requiredKeys)).
    { apply List.filter_In. split; [exact Hin|]. rewrite Hp. reflexivity. }
    rewrite Hmiss in Hk. destruct Hk.
  - right. eexists. reflexivity.
Qed.

Lemma has_property_member key data :
  mem key Object_prototype_keys = false ->
  mem key Array_prototype_keys = false ->
  JsString.eqb key (lit "length") = false ->
  forallb is_digit key = false ->
  has_property key data = true ->
  exists members v, data = JObj members /\ Json.get key members = Some v.
Proof.
  intros Hobj Harr Hlen Hdig H. destruct data as [| | | |items|members]; try discriminate.
  - exfalso. unfold has_property in H. rewrite Hobj, Harr, Hlen in H.
    unfold is_index_below in H. destruct key as [|c key]; [discriminate|].
    rewrite Hdig in H. discriminate.
  - unfold has_property in H. rewrite Hobj in H.
    destruct (Json.get key members) as [v|] eqn:E; [|discriminate].
    exists members, v. split; [reflexivity|exact E].
Qed.

(** What [generatePrototype] does after the status callback, by the
    answer of the provider. *)
Lemma generatePrototype_cases hash version stringify ai now l prefs audio onStatus w game :
  let w0 := after_status onStatus (lit "Synthesizing Shaders & Logic...") w in
  let run := generatePrototype hash version stringify ai now l prefs audio onStatus w in
  let failed cause w' :=
    run = (Throw (new_Error (lit "Prototype Generation Failed: " ++ message cause)), w') in
  objects w0 !! l = Some game ->
  match ai (prototypeRequest game prefs audio) with
  | Rejected cause => failed cause w0
  | Resolved text =>
      match parseAndSanitize (or_string text (lit "{}")) w0 with
      | (Throw cause, w1) => failed cause w1
      | (Beyond, _) => False
      | (Normal data, w1) =>
          w1 = w0
          /\ match validateStructure data [lit "html"; lit "instructions"]
                     (lit "Prototype Builder") w0 with
             | (Throw cause, _) => failed cause w0
             | (Beyond, _) => False
             | (Normal _, _) =>
                 exists members html instructions,
                   data = JObj members
                   /\ Json.get (lit "html") members = Some html
                   /\ Json.get (lit "instructions") members = Some instructions
                   /\ match html, instructions with
                      | JStr h, JStr i =>
                          run = (Normal (with_build game (Some h) (Some i) audio
                                           (build_manifest hash version stringify now game prefs h)),
                                 w0)
                      | _, _ => run = (Beyond, w0)
                      end
             end
      end
  end.
Proof.
  intros w0 run failed Hgame. subst failed. cbv beta.
  assert (Hrun : run = generatePrototype hash version stringify ai now l prefs audio onStatus w)
    by reflexivity.
  clearbody run.
  unfold generatePrototype, bind at 1 in Hrun. rewrite notify_after in Hrun. fold w0 in Hrun.
  unfold try_catch, bind at 1, deref at 1 in Hrun. rewrite Hgame in Hrun.
  unfold bind at 1, generateContent in Hrun.
  destruct (ai (prototypeRequest game prefs audio)) as [cause|text]; [exact Hrun|].
  unfold ret at 1 in Hrun. unfold bind at 1 in Hrun.
  destruct (parseAndSanitize_cases (or_string text (lit "{}")) w0) as [[data Hp]|[w1 Hp]];
    rewrite Hp in Hrun |- *; [|exact Hrun].
  split; [reflexivity|].
  unfold bind at 1 in Hrun.
  destruct (validateStructure_cases data [lit "html"; lit "instructions"]
              (lit "Prototype Builder") w0) as [(Hv & Hobj & Hkeys)|[cause Hv]];
    rewrite Hv in Hrun |- *; [|exact Hrun].
  pose proof (List.Forall_inv Hkeys) as Hhtml.
  pose proof (List.Forall_inv (List.Forall_inv_tail Hkeys)) as Hinstr.
  cbv beta in Hhtml, Hinstr.
  apply has_property_member in Hhtml as (members & html & -> & Hhtml); try reflexivity.
  apply has_property_member in Hinstr as (members' & instructions & [= <-] & Hinstr);
    try reflexivity.
  exists members, html, instructions.
  split; [reflexivity|]. split; [exact Hhtml|]. split; [exact Hinstr|].
  unfold bind at 1, deref at 1 in Hrun. rewrite Hgame in Hrun.
  rewrite !prop_member in Hrun by reflexivity. rewrite bind_ret, Hhtml in Hrun.
  destruct html as [|[|]|lexeme|[|c h]|items|ms]; try exact Hrun;
    cbn [truthy_string string_field] in Hrun; rewrite !bind_ret in Hrun;
    cbn [string_field] in Hrun; rewrite ?bind_ret, ?Hinstr in Hrun;
    destruct instructions as [|[|]|lexeme'|i|items'|ms']; exact Hrun.
Qed.

Lemma generatePrototype_Normal_shape hash version stringify ai now l prefs audio onStatus w g :
  fst (generatePrototype hash version stringify ai now l prefs audio onStatus w) = Normal g ->
  exists blueprint h i,
    objects (after_status onStatus (lit "Synthesizing Shaders & Logic...") w) !! l
    = Some blueprint
    /\ g = with_build blueprint (Some h) (Some i) audio
             (build_manifest hash version stringify now blueprint prefs h).
Proof.
  intros H.
  set (w0 := after_status onStatus (lit "Synthesizing Shaders & Logic...") w).
  destruct (objects w0 !! l) as [blueprint|] eqn:Hbp.
  - pose proof (generatePrototype_cases hash version stringify ai now l prefs audio onStatus w
                  blueprint Hbp) as Hc.
    cbv zeta in Hc. fold w0 in Hc.
    destruct (ai (prototypeRequest blueprint prefs audio)) as [cause|text];
      [rewrite Hc in H; discriminate|].
    destruct (parseAndSanitize (or_string text (lit "{}")) w0) as [[data|cause|] w1];
      [|rewrite Hc in H; discriminate|destruct Hc].
    destruct Hc as [-> Hc].
    destruct (validateStructure data [lit "html"; lit "instructions"]
                (lit "Prototype Builder") w0) as [[data'|cause|] w2];
      [|rewrite Hc in H; discriminate|destruct Hc].
    destruct Hc as (members & html & instructions & -> & Hhtml & Hinstr & Hc).
    destruct html as [| | |h| |]; try (rewrite Hc in H; discriminate).
    destruct instructions as [| | |i| |]; try (rewrite Hc in H; discriminate).
    rewrite Hc in H. injection H as <-. exists blueprint, h, i. split; reflexivity.
  - exfalso. unfold generatePrototype, bind at 1 in H. rewrite notify_after in H.
    fold w0 in H. unfold try_catch, bind at 1, deref at 1 in H. rewrite Hbp in H.
    discriminate.
Qed.

(** X10. On a response that holds an html and instructions, both
    strings, [generatePrototype] returns the blueprint with that html,
    those instructions, the audio it was given and a new manifest: its
    build hash is the short hash of the html, its spec hash that of the
    serialised blueprint, its seed, platform and quality are those of the
    preferences, its version is the engine's, its time stamp the clock's,
    and it has no parent hash. Every other field is the blueprint's, and
    any other member of the response is ignored. *)
Theorem generatePrototype_builds hash version stringify ai now blueprint prefs audio onStatus w
    game text members h i :
  objects (after_status onStatus (lit "Synthesizing Shaders & Logic...") w) !! blueprint
  = Some game ->
  ai (prototypeRequest game prefs audio) = Resolved text ->
  fst (parseAndSanitize (or_string text (lit "{}"))
         (after_status onStatus (lit "Synthesizing Shaders & Logic...") w))
  = Normal (JObj members) ->
  Json.get (lit "html") members = Some (JStr h) ->
  Json.get (lit "instructions") members = Some (JStr i) ->
  generatePrototype hash version stringify ai now blueprint prefs audio onStatus w
  = (Normal
       {| GeneratedGame.title := GeneratedGame.title game;
          GeneratedGame.summary := GeneratedGame.summary game;
          GeneratedGame.html := Some h;
          GeneratedGame.instructions := Some i;
          GeneratedGame.recommendedEngine := GeneratedGame.recommendedEngine game;
          GeneratedGame.language := GeneratedGame.language game;
          GeneratedGame.architecture := GeneratedGame.architecture game;
          GeneratedGame.techStack := GeneratedGame.techStack game;
          GeneratedGame.prerequisites := GeneratedGame.prerequisites game;
          GeneratedGame.audio := audio;
          GeneratedGame.manifest :=
            Some {| ForgeManifest.version := version;
                    ForgeManifest.timestamp := now;
                    ForgeManifest.seed := UserPreferences.seed prefs;
                    ForgeManifest.specHash := hash (stringify game);
                    ForgeManifest.buildHash := hash h;
                    ForgeManifest.platform := UserPreferences.platform prefs;
                    ForgeManifest.quality := UserPreferences.quality prefs;
                    ForgeManifest.parentHash := None |};
          GeneratedGame.coreMechanics := GeneratedGame.coreMechanics game;
          GeneratedGame.visualRequirements := GeneratedGame.visualRequirements game |},
     after_status onStatus (lit "Synthesizing Shaders & Logic...") w).
Proof.
  intros Hgame Hai Hparse Hhtml Hinstr.
  pose proof (generatePrototype_cases hash version stringify ai now blueprint prefs audio onStatus w
                game Hgame) as Hc.
  cbv zeta in Hc. rewrite Hai in Hc.
  apply parseAndSanitize_Normal in Hparse. rewrite Hparse in Hc.
  destruct Hc as [_ Hc].
  assert (Hv : validateStructure (JObj members) [lit "html"; lit "instructions"]
                 (lit "Prototype Builder")
                 (after_status onStatus (lit "Synthesizing Shaders & Logic...") w)
               = (Normal (JObj members),
                  after_status onStatus (lit "Synthesizing Shaders & Logic...") w)).
  { unfold validateStructure. cbn [is_object negb List.filter has_property].
    rewrite Hhtml, Hinstr. reflexivity. }
  rewrite Hv in Hc.
  destruct Hc as (members' & html & instructions & [= <-] & Hhtml' & Hinstr' & Hc).
  rewrite Hhtml in Hhtml'. rewrite Hinstr in Hinstr'.
  injection Hhtml' as <-. injection Hinstr' as <-. exact Hc.
Qed.

Lemma generatePrototype_builds_witness :
  fst (generatePrototype demo_hash demo_version demo_stringify
         (answering (prototype_text (lit "<html>v1</html>") (lit "Arrows to move.")))
         1700000000000 1%positive (demo_prefs GameEngine.ThreeJS) None None
         (world_of (demo_game (lit "<html>v0</html>"))))
  = Normal (with_build (demo_game (lit "<html>v0</html>")) (Some (lit "<html>v1</html>"))
              (Some (lit "Arrows to move.")) None
              (build_manifest demo_hash demo_version demo_stringify 1700000000000
                 (demo_game (lit "<html>v0</html>")) (demo_prefs GameEngine.ThreeJS)
                 (lit "<html>v1</html>"))).
Proof.
  rewrite (generatePrototype_builds demo_hash demo_version demo_stringify
             (answering (prototype_text (lit "<html>v1</html>") (lit "Arrows to move.")))
             1700000000000 1%positive (demo_prefs GameEngine.ThreeJS) None None
             (world_of (demo_game (lit "<html>v0</html>")))
             (demo_game (lit "<html>v0</html>"))
             (Some (prototype_text (lit "<html>v1</html>") (lit "Arrows to move.")))
             [(lit "html", JStr (lit "<html>v1</html>"));
              (lit "instructions", JStr (lit "Arrows to move."))]
             (lit "<html>v1</html>") (lit "Arrows to move.")).
  - reflexivity.
  - vm_compute. reflexivity.
  - reflexivity.
  - vm_compute. reflexivity.
  - reflexivity.
  - reflexivity.
Defined.

(** X11. [generatePrototype] throws exactly when the provider rejects
    the request, the sanitizer throws on the response, or the response
    read is not an object that has an html and instructions; the error
    it throws is then one error whose message is
    [Prototype Generation Failed: ] followed by the message of that
    cause. *)
Theorem generatePrototype_throws hash version stringify ai now blueprint prefs audio onStatus w
    game e :
  objects (after_status onStatus (lit "Synthesizing Shaders & Logic...") w) !! blueprint
  = Some game ->
  (exists w',
     generatePrototype hash version stringify ai now blueprint prefs audio onStatus w
     = (Throw e, w'))
  <-> exists cause,
        e = new_Error (lit "Prototype Generation Failed: " ++ message cause)
        /\ (ai (prototypeRequest game prefs audio) = Rejected cause
            \/ exists text,
                 ai (prototypeRequest game prefs audio) = Resolved text
                 /\ let w0 := after_status onStatus (lit "Synthesizing Shaders & Logic...") w in
                    let read := parseAndSanitize (or_string text (lit "{}")) w0 in
                    fst read = Throw cause
                    \/ exists data,
                         fst read = Normal data
                         /\ fst (validateStructure data [lit "html"; lit "instructions"]
                                   (lit "Prototype Builder") w0) = Throw cause).
Proof.
  intros Hgame.
  pose proof (generatePrototype_cases hash version stringify ai now blueprint prefs audio
                onStatus w game Hgame) as Hc.
  cbv zeta in Hc |- *.
  set (w0 := after_status onStatus (lit "Synthesizing Shaders & Logic...") w) in *.
  destruct (ai (prototypeRequest game prefs audio)) as [cause|text].
  { rewrite Hc. split.
    - intros [w' [= <- _]]. exists cause. split; [reflexivity|]. left. reflexivity.
    - intros (cause' & -> & [[= <-]|(text & [=] & _)]). eexists. reflexivity. }
  destruct (parseAndSanitize (or_string text (lit "{}")) w0) as [[data|cause|] w1] eqn:Hp;
    [| |destruct Hc].
  2:{ rewrite Hc. split.
      - intros [w' [= <- _]]. exists cause. split; [reflexivity|].
        right. exists text. split; [reflexivity|]. left. rewrite Hp. reflexivity.
      - intros (cause' & -> & [[=]|(text' & [= <-] & H)]). rewrite Hp in H. cbn [fst] in H.
        destruct H as [[= <-]|(data & [=] & _)]. eexists. reflexivity. }
  destruct Hc as [-> Hc].
  destruct (validateStructure data [lit "html"; lit "instructions"]
              (lit "Prototype Builder") w0) as [[data'|cause|] w2] eqn:Hv; [| |destruct Hc].
  - destruct Hc as (members & html & instructions & -> & _ & _ & Hc). split.
    + intros [w' H]. exfalso.
      destruct html as [| | |h| |]; try (rewrite Hc in H; discriminate).
      destruct instructions as [| | |i| |]; rewrite Hc in H; discriminate.
    + intros (cause & _ & [[=]|(text' & [= <-] & H)]). rewrite Hp in H. cbn [fst] in H.
      destruct H as [[=]|(data & [= <-] & H)]. rewrite Hv in H. discriminate H.
  - rewrite Hc. split.
    + intros [w' [= <- _]]. exists cause. split; [reflexivity|].
      right. exists text. split; [reflexivity|]. right. exists data.
      rewrite Hp, Hv. split; reflexivity.
    + intros (cause' & -> & [[=]|(text' & [= <-] & H)]). rewrite Hp in H. cbn [fst] in H.
      destruct H as [[=]|(data' & [= <-] & H)]. rewrite Hv in H. injection H as <-.
      eexists. reflexivity.
Qed.

Lemma generatePrototype_throws_witness :
  exists w',
    generatePrototype demo_hash demo_version demo_stringify
      (answering (lit "{" ++ dq ++ lit "html" ++ dq ++ lit ":" ++ dq ++ lit "<p>" ++ dq ++ lit "}"))
      1700000000000 1%positive (demo_prefs GameEngine.ThreeJS) None None
      (world_of (demo_game (lit "<html>v0</html>")))
    = (Throw (new_Error (lit "Prototype Generation Failed: "
                         ++ lit "Prototype Builder: Missing required fields: instructions")),
       w').
Proof.
  apply (generatePrototype_throws demo_hash demo_version demo_stringify
           (answering (lit "{" ++ dq ++ lit "html" ++ dq ++ lit ":" ++ dq ++ lit "<p>" ++ dq ++ lit "}"))
           1700000000000 1%positive (demo_prefs GameEngine.ThreeJS) None None
           (world_of (demo_game (lit "<html>v0</html>")))
           (demo_game (lit "<html>v0</html>"))).
  - reflexivity.
  - exists (new_Error (lit "Prototype Builder: Missing required fields: instructions")).
    split; [reflexivity|]. right. eexists. split; [reflexivity|].
    right. eexists. split; vm_compute; reflexivity.
Defined.

(** X12. A game built by [generatePrototype] and then refined keeps the
    manifest of the build: after a successful [refineGame], whatever html
    it returns, the build hash of the manifest is the short hash of the
    html that [generatePrototype] returned, and the audio is the one of
    the build. *)
Theorem refineGame_after_build hash version stringify ai now blueprint prefs audio onStatus w
    built ai' currentGame instruction w' refined :
  fst (generatePrototype hash version stringify ai now blueprint prefs audio onStatus w)
  = Normal built ->
  objects w' !! currentGame = Some built ->
  fst (refineGame ai' currentGame instruction w') = Normal refined ->
  exists h manifest,
    GeneratedGame.html built = Some h
    /\ GeneratedGame.manifest refined = Some manifest
    /\ GeneratedGame.manifest built = Some manifest
    /\ ForgeManifest.buildHash manifest = hash h
    /\ ForgeManifest.parentHash manifest = None
    /\ GeneratedGame.audio refined = audio.
Proof.
  intros Hbuild Hstore Hrefine.
  apply generatePrototype_Normal_shape in Hbuild as (bp & h & i & _ & ->).
  destruct (refineGame ai' currentGame instruction w') as [r w2] eqn:E.
  simpl in Hrefine. subst r.
  destruct (refineGame_Normal_shape _ _ _ _ _ _ _ Hstore E) as (html & instructions & ->).
  exists h. eexists. repeat split.
Qed.

Lemma refineGame_after_build_witness :
  let built :=
    with_build (demo_game (lit "<html>v0</html>")) (Some (lit "<html>v1</html>"))
      (Some (lit "Arrows to move.")) None
      (build_manifest demo_hash demo_version demo_stringify 1700000000000
         (demo_game (lit "<html>v0</html>")) (demo_prefs GameEngine.ThreeJS)
         (lit "<html>v1</html>")) in
  let refined := with_artifact built (Some (lit "<html>v2</html>")) (Some (lit "Arrows to move.")) in
  exists h manifest,
    GeneratedGame.html built = Some h
    /\ GeneratedGame.manifest refined = Some manifest
    /\ GeneratedGame.manifest built = Some manifest
    /\ ForgeManifest.buildHash manifest = demo_hash h
    /\ ForgeManifest.parentHash manifest = None
    /\ GeneratedGame.audio refined = None.
Proof.
  intros built refined.
  apply (refineGame_after_build demo_hash demo_version demo_stringify
           (answering (prototype_text (lit "<html>v1</html>") (lit "Arrows to move.")))
           1700000000000 1%positive (demo_prefs GameEngine.ThreeJS) None None
           (world_of (demo_game (lit "<html>v0</html>")))
           built
           (answering (patch_text [edit_text (lit "v1") (lit "v2")]))
           1%positive (lit "bump") (world_of built) refined).
  - vm_compute. reflexivity.
  - vm_compute. reflexivity.
  - vm_compute. reflexivity.
Defined.

(** ** The blueprint phase *)

Lemma eqb_refl (a : jsstring) : JsString.eqb a a = true.
Proof. induction a as [|x a IH]; simpl; [reflexivity|]. rewrite N.eqb_refl. exact IH. Qed.

Lemma eqb_neq (a b : jsstring) : JsString.eqb a b = false -> a <> b.
Proof. intros H ->. rewrite eqb_refl in H. discriminate. Qed.

Lemma get_set_same k v m : Json.get k (Json.set k v m) = Some v.
Proof.
  induction m as [|[k' v'] m IH]; simpl.
  - rewrite eqb_refl. reflexivity.
  - destruct (JsString.eqb k k') eqn:E; simpl; rewrite E; [reflexivity|exact IH].
Qed.

Lemma get_set_other k k1 v m :
  JsString.eqb k k1 = false -> Json.get k (Json.set k1 v m) = Json.get k m.
Proof.
  intros Hk. induction m as [|[k' v'] m IH]; simpl.
  - rewrite Hk. reflexivity.
  - destruct (JsString.eqb k1 k') eqn:E; simpl.
    + apply eqb_eq in E. subst k'. rewrite Hk. reflexivity.
    + destruct (JsString.eqb k k'); [reflexivity|exact IH].
Qed.

Lemma get_absent k m : ~ In k (List.map fst m) -> Json.get k m = None.
Proof.
  induction m as [|[k' v'] m IH]; intros H; simpl; [reflexivity|].
  destruct (JsString.eqb k k') eqn:E.
  - apply eqb_eq in E. subst k'. exfalso. apply H. left. reflexivity.
  - apply IH. intros Hin. apply H. right. exact Hin.
Qed.

Lemma set_keys k v m x :
  In x (List.map fst (Json.set k v m)) -> x = k \/ In x (List.map fst m).
Proof.
  induction m as [|[k' v'] m IH]; simpl.
  - intros [<-|[]]. left. reflexivity.
  - destruct (JsString.eqb k k'); simpl.
    + intros H. right. exact H.
    + intros [<-|H]; [right; left; reflexivity|].
      destruct (IH H) as [->|Hin]; [left; reflexivity|right; right; exact Hin].
Qed.

Lemma set_distinct k v m :
  NoDup (List.map fst m) -> NoDup (List.map fst (Json.set k v m)).
Proof.
  induction m as [|[k' v'] m IH]; intros H; simpl.
  - apply NoDup_singleton.
  - apply NoDup_cons in H as [Hnot Hrest]. rewrite list_elem_of_In in Hnot.
    destruct (JsString.eqb k k') eqn:E; simpl.
    + apply NoDup_cons. rewrite list_elem_of_In. split; assumption.
    + apply NoDup_cons. rewrite list_elem_of_In. split; [|apply IH; exact Hrest].
      intros Hin. apply set_keys in Hin as [->|Hin]; [|exact (Hnot Hin)].
      rewrite eqb_refl in E. discriminate.
Qed.

(** A member of [source] wins over one of [target]. *)
Lemma get_spread k source : forall target,
  NoDup (List.map fst source) ->
  Json.get k (spread source target)
  = match Json.get k source with
    | Some v => Some v
    | None => Json.get k target
    end.
Proof.
  unfold spread.
  induction source as [|[k1 v1] source IH]; intros target H; [reflexivity|].
  cbn [List.map fst] in H. apply NoDup_cons in H as [Hnot Hrest].
  rewrite list_elem_of_In in Hnot.
  cbn [fold_left fst snd Json.get]. rewrite IH by exact Hrest.
  destruct (JsString.eqb k k1) eqn:E.
  - apply eqb_eq in E. subst k1. rewrite (get_absent k source Hnot).
    apply get_set_same.
  - rewrite get_set_other by exact E. reflexivity.
Qed.

(** *** What [JSON.parse] returns has no key twice *)

Lemma deliver_distinct v stack md stack' :
  distinct_keys v -> Forall frame_distinct stack ->
  Json.deliver v stack = Some (md, stack') ->
  mode_distinct md /\ Forall frame_distinct stack'.
Proof.
  intros Hv Hs. destruct stack as [|[items|members [k|]] st]; simpl; try discriminate.
  - intros [= <- <-]. split; [exact Hv|constructor].
  - intros [= <- <-]. inversion Hs; subst. split; [exact I|]. constructor; [exact I|assumption].
  - intros [= <- <-]. inversion Hs as [|? ? Hf Hst]; subst. split; [exact I|].
    constructor; [|exact Hst]. apply set_distinct. exact Hf.
Qed.

Lemma parse_step_distinct md stack t md' stack' :
  Forall frame_distinct stack ->
  Json.parse_step md stack t = Some (md', stack') ->
  mode_distinct md' /\ Forall frame_distinct stack'.
Proof.
  intros Hs H.
  assert (Hd : forall v st, Json.deliver v st = Some (md', stack') ->
                 distinct_keys v -> Forall frame_distinct st ->
                 mode_distinct md' /\ Forall frame_distinct stack').
  { intros v st Hv Hk Hst. exact (deliver_distinct v st md' stack' Hk Hst Hv). }
  destruct md as [closable|closable| | |v]; simpl in H; [| | | |discriminate];
    destruct t; try discriminate;
    try (destruct closable; try discriminate);
    try (destruct stack as [|[items|members [k|]] st]; try discriminate);
    try (inversion Hs as [|? ? Hf Hst]; subst);
    first
      [ apply (Hd _ _ H); solve [exact I | assumption | constructor; assumption]
      | injection H as <- <-; split; [exact I|];
        repeat first [assumption | exact I | apply NoDup_nil_2 | constructor] ].
Qed.

Lemma parse_tokens_distinct ts : forall md stack v,
  mode_distinct md -> Forall frame_distinct stack ->
  Json.parse_tokens md stack ts = Some v -> distinct_keys v.
Proof.
  induction ts as [|t ts IH]; intros md stack v Hmd Hs; simpl.
  - destruct md; try discriminate. intros [= <-]. exact Hmd.
  - destruct (Json.parse_step md stack t) as [[md' stack']|] eqn:E; [|discriminate].
    destruct (parse_step_distinct _ _ _ _ _ Hs E) as [Hmd' Hs'].
    apply IH; assumption.
Qed.

Lemma parse_distinct text v : Json.parse text = Some v -> distinct_keys v.
Proof.
  unfold Json.parse. destruct (Json.lex text) as [ts|]; [|discriminate].
  apply parse_tokens_distinct; [exact I|constructor].
Qed.

Lemma parseAndSanitize_distinct text w v :
  fst (parseAndSanitize text w) = Normal v -> distinct_keys v.
Proof.
  unfold parseAndSanitize.
  destruct (Json.parse text) as [v0|] eqn:E1;
    [intros [= <-]; exact (parse_distinct _ _ E1)|].
  match goal with |- context [match ?s with Some _ => _ | None => _ end] =>
    destruct s as [v0|] eqn:E2 end.
  { intros [= <-]. destruct (_ && _) in E2; [|discriminate].
    exact (parse_distinct _ _ E2). }
  match goal with |- context [match ?s with Some _ => _ | None => _ end] =>
    destruct s as [v0|] eqn:E3 end.
  - intros [= <-]. exact (parse_distinct _ _ E3).
  - discriminate.
Qed.

(** *** One request of the blueprint phase *)

Lemma phase_cases (ai : Provider) request requiredKeys context prefix w0 :
  let phase :=
    try_catch
      (let! response := generateContent ai request in
       let! data := parseAndSanitize (or_string response (lit "{}")) in
       run! validateStructure data requiredKeys context in
       ret data)
      (fun e => throw (new_Error (prefix ++ message e))) in
  match ai request with
  | Rejected cause => phase w0 = (Throw (new_Error (prefix ++ message cause)), w0)
  | Resolved text =>
      match parseAndSanitize (or_string text (lit "{}")) w0 with
      | (Throw cause, w1) => phase w0 = (Throw (new_Error (prefix ++ message cause)), w1)
      | (Beyond, _) => False
      | (Normal data, w1) =>
          w1 = w0
          /\ match validateStructure data requiredKeys context w0 with
             | (Throw cause, _) =>
                 phase w0 = (Throw (new_Error (prefix ++ message cause)), w0)
             | (Beyond, _) => False
             | (Normal _, _) =>
                 phase w0 = (Normal data, w0)
                 /\ is_object data = true
                 /\ Forall (fun key => has_property key data = true) requiredKeys
             end
      end
  end.
Proof.
  intros phase.
  assert (Hrun : phase w0 = phase w0) by reflexivity.
  unfold phase at 2 in Hrun. clearbody phase.
  unfold try_catch, bind at 1, generateContent in Hrun.
  destruct (ai request) as [cause|text]; [exact Hrun|].
  unfold ret at 1 in Hrun. unfold bind at 1 in Hrun.
  destruct (parseAndSanitize_cases (or_string text (lit "{}")) w0) as [[data Hp]|[w1 Hp]];
    rewrite Hp in Hrun |- *; [|exact Hrun].
  split; [reflexivity|].
  unfold bind at 1 in Hrun.
  destruct (validateStructure_cases data requiredKeys context w0)
    as [(Hv & Hobj & Hkeys)|[cause Hv]];
    rewrite Hv in Hrun |- *; [|exact Hrun].
  split; [exact Hrun|]. split; assumption.
Qed.

Lemma validated_object data requiredKeys key :
  Forall (fun key => has_property key data = true) requiredKeys ->
  In key requiredKeys ->
  mem key Object_prototype_keys = false ->
  mem key Array_prototype_keys = false ->
  JsString.eqb key (lit "length") = false ->
  forallb is_digit key = false ->
  exists members v, data = JObj members /\ Json.get key members = Some v.
Proof.
  intros HF Hin H1 H2 H3 H4. rewrite List.Forall_forall in HF.
  apply has_property_member; auto.
Qed.

Lemma phase_ends (ai : Provider) request requiredKeys context prefix w0 :
  let phase :=
    try_catch
      (let! response := generateContent ai request in
       let! data := parseAndSanitize (or_string response (lit "{}")) in
       run! validateStructure data requiredKeys context in
       ret data)
      (fun e => throw (new_Error (prefix ++ message e))) in
  (exists data,
     phase_success ai request requiredKeys context w0 data
     /\ Forall (fun key => has_property key data = true) requiredKeys
     /\ phase w0 = (Normal data, w0))
  \/ (exists cause w1,
        phase_failure ai request requiredKeys context w0 cause
        /\ phase w0 = (Throw (new_Error (prefix ++ message cause)), w1)).
Proof.
  intros phase.
  pose proof (phase_cases ai request requiredKeys context prefix w0) as Hc.
  cbv zeta in Hc. fold phase in Hc. unfold phase_success, phase_failure.
  destruct (ai request) as [cause|text].
  { right. exists cause, w0. split; [left; reflexivity|exact Hc]. }
  destruct (parseAndSanitize (or_string text (lit "{}")) w0) as [[data|cause|] w1] eqn:Hp;
    [| |destruct Hc].
  2:{ right. exists cause, w1. split; [|exact Hc].
      right. exists text. split; [reflexivity|]. left. rewrite Hp. reflexivity. }
  destruct Hc as [-> Hc].
  destruct (validateStructure data requiredKeys context w0) as [[d|cause|] w2] eqn:Hv;
    [| |destruct Hc].
  - destruct Hc as (Hrun & _ & Hkeys). left. exists data.
    assert (d = data) as ->.
    { destruct (validateStructure_cases data requiredKeys context w0)
        as [(Hv' & _)|[cause Hv']]; rewrite Hv' in Hv; congruence. }
    split; [|split; assumption].
    exists text. rewrite Hp, Hv. repeat split.
  - right. exists cause, w0. split; [|exact Hc].
    right. exists text. split; [reflexivity|]. right. exists data.
    rewrite Hp, Hv. split; reflexivity.
Qed.

(** The three ways [generateBlueprint] ends. *)
Lemma generateBlueprint_ends indented ai prefs onStatus w :
  let w0 := after_status onStatus (lit "Quantizing Requirements...") w in
  let w1 := after_status onStatus (lit "Architecting System...") w0 in
  let specKeys := [lit "title"; lit "summary"; lit "coreMechanics"] in
  let archKeys := [lit "architecture"; lit "techStack"] in
  let run := generateBlueprint indented ai prefs onStatus w in
  (exists spec arch,
     phase_success ai (specRequest prefs) specKeys (lit "Blueprint Spec") w0 (JObj spec)
     /\ phase_success ai (architectureRequest indented (JObj spec) prefs) archKeys
          (lit "Blueprint Architecture") w1 (JObj arch)
     /\ run = (Normal (JObj (spread arch (spread spec []))), w1))
  \/ (exists cause w',
        phase_failure ai (specRequest prefs) specKeys (lit "Blueprint Spec") w0 cause
        /\ run = (Throw (new_Error (lit "Failed to quantize requirements: "
                                    ++ message cause)), w'))
  \/ (exists spec cause w',
        phase_success ai (specRequest prefs) specKeys (lit "Blueprint Spec") w0 (JObj spec)
        /\ phase_failure ai (architectureRequest indented (JObj spec) prefs) archKeys
             (lit "Blueprint Architecture") w1 cause
        /\ run = (Throw (new_Error (lit "Failed to generate architecture: "
                                    ++ message cause)), w')).
Proof.
  intros w0 w1 specKeys archKeys run.
  assert (Hrun : run = generateBlueprint indented ai prefs onStatus w) by reflexivity.
  clearbody run. unfold generateBlueprint in Hrun.
  unfold bind at 1 in Hrun. rewrite notify_after in Hrun. fold w0 in Hrun.
  unfold bind at 1 in Hrun.
  destruct (phase_ends ai (specRequest prefs) specKeys (lit "Blueprint Spec")
              (lit "Failed to quantize requirements: ") w0)
    as [(specData & Hs1 & Hkeys1 & H1)|(cause & w' & Hf1 & H1)]; cbv zeta in H1;
    fold specKeys in Hrun; rewrite H1 in Hrun.
  2:{ right. left. exists cause, w'. split; assumption. }
  destruct (validated_object specData _ (lit "title") Hkeys1
              ltac:(left; reflexivity) eq_refl eq_refl eq_refl eq_refl)
    as (spec & _ & -> & _).
  unfold bind at 1 in Hrun. rewrite notify_after in Hrun. fold w1 in Hrun.
  unfold bind at 1 in Hrun.
  destruct (phase_ends ai (architectureRequest indented (JObj spec) prefs) archKeys
              (lit "Blueprint Architecture") (lit "Failed to generate architecture: ") w1)
    as [(archData & Hs2 & Hkeys2 & H2)|(cause & w' & Hf2 & H2)]; cbv zeta in H2;
    fold archKeys in Hrun; rewrite H2 in Hrun.
  2:{ right. right. exists spec, cause, w'. repeat split; assumption. }
  destruct (validated_object archData _ (lit "architecture") Hkeys2
              ltac:(left; reflexivity) eq_refl eq_refl eq_refl eq_refl)
    as (arch & _ & -> & _).
  left. exists spec, arch. repeat split; assumption.
Qed.

(** X13. [generateBlueprint] ends in one of three ways, and never
    otherwise: with the object that holds the members of the spec sheet
    and, written over them, those of the architecture, when both requests
    succeed; with an error whose message is
    [Failed to quantize requirements: ] and the message of the cause,
    when the first request fails; with an error whose message is
    [Failed to generate architecture: ] and the message of the cause,
    when the first succeeds and the second fails. A request fails when
    the provider rejects it, the sanitizer throws, or a required field is
    missing: [title], [summary], [coreMechanics] for the first,
    [architecture], [techStack] for the second. *)
Theorem generateBlueprint_outcome indented ai prefs onStatus w :
  (exists spec arch,
     phase_success ai (specRequest prefs)
       [lit "title"; lit "summary"; lit "coreMechanics"] (lit "Blueprint Spec")
       (after_status onStatus (lit "Quantizing Requirements...") w) (JObj spec)
     /\ phase_success ai (architectureRequest indented (JObj spec) prefs)
          [lit "architecture"; lit "techStack"] (lit "Blueprint Architecture")
          (after_status onStatus (lit "Architecting System...")
             (after_status onStatus (lit "Quantizing Requirements...") w)) (JObj arch)
     /\ generateBlueprint indented ai prefs onStatus w
        = (Normal (JObj (spread arch (spread spec []))),
           after_status onStatus (lit "Architecting System...")
             (after_status onStatus (lit "Quantizing Requirements...") w)))
  \/ (exists cause w',
        phase_failure ai (specRequest prefs)
          [lit "title"; lit "summary"; lit "coreMechanics"] (lit "Blueprint Spec")
          (after_status onStatus (lit "Quantizing Requirements...") w) cause
        /\ generateBlueprint indented ai prefs onStatus w
           = (Throw (new_Error (lit "Failed to quantize requirements: "
                                ++ message cause)), w'))
  \/ (exists spec cause w',
        phase_success ai (specRequest prefs)
          [lit "title"; lit "summary"; lit "coreMechanics"] (lit "Blueprint Spec")
          (after_status onStatus (lit "Quantizing Requirements...") w) (JObj spec)
        /\ phase_failure ai (architectureRequest indented (JObj spec) prefs)
             [lit "architecture"; lit "techStack"] (lit "Blueprint Architecture")
             (after_status onStatus (lit "Architecting System...")
                (after_status onStatus (lit "Quantizing Requirements...") w)) cause
        /\ generateBlueprint indented ai prefs onStatus w
           = (Throw (new_Error (lit "Failed to generate architecture: "
                                ++ message cause)), w')).
Proof. exact (generateBlueprint_ends indented ai prefs onStatus w). Qed.

Lemma phase_success_distinct ai request keys context w members :
  phase_success ai request keys context w (JObj members) ->
  NoDup (List.map fst members).
Proof.
  intros (text & _ & Hp & _). exact (parseAndSanitize_distinct _ _ _ Hp).
Qed.

Lemma phase_success_member ai request keys context w members key :
  phase_success ai request keys context w (JObj members) ->
  In key keys ->
  mem key Object_prototype_keys = false ->
  Json.get key members <> None.
Proof.
  intros (text & _ & _ & Hv) Hin Hproto.
  destruct (validateStructure_cases (JObj members) keys context w)
    as [(_ & _ & Hkeys)|[cause Hv']]; [|rewrite Hv' in Hv; discriminate].
  rewrite List.Forall_forall in Hkeys. specialize (Hkeys key Hin).
  unfold has_property in Hkeys. rewrite Hproto in Hkeys.
  destruct (Json.get key members); [discriminate|discriminate].
Qed.

(** X14. The blueprint a successful [generateBlueprint] returns is the
    merge of the two responses: a field is read from the architecture
    response when that response has it, and from the spec sheet
    otherwise, so that a field of the architecture response hides the
    field of the same name of the spec sheet. The five validated fields
    are fields of the blueprint. *)
Theorem generateBlueprint_merges indented ai prefs onStatus w v :
  fst (generateBlueprint indented ai prefs onStatus w) = Normal v ->
  exists spec arch members,
    phase_success ai (specRequest prefs)
      [lit "title"; lit "summary"; lit "coreMechanics"] (lit "Blueprint Spec")
      (after_status onStatus (lit "Quantizing Requirements...") w) (JObj spec)
    /\ phase_success ai (architectureRequest indented (JObj spec) prefs)
         [lit "architecture"; lit "techStack"] (lit "Blueprint Architecture")
         (after_status onStatus (lit "Architecting System...")
            (after_status onStatus (lit "Quantizing Requirements...") w)) (JObj arch)
    /\ v = JObj members
    /\ (forall key,
          Json.get key members
          = match Json.get key arch with
            | Some value => Some value
            | None => Json.get key spec
            end)
    /\ Forall (fun key => Json.get key members <> None)
         [lit "title"; lit "summary"; lit "coreMechanics"; lit "architecture";
          lit "techStack"].
Proof.
  intros H.
  destruct (generateBlueprint_ends indented ai prefs onStatus w)
    as [(spec & arch & Hs & Ha & Hrun)|[(cause & w' & _ & Hrun)|(spec & cause & w' & _ & _ & Hrun)]];
    cbv zeta in Hrun; rewrite Hrun in H; try discriminate.
  injection H as <-.
  assert (Hlaw : forall key,
            Json.get key (spread arch (spread spec []))
            = match Json.get key arch with
              | Some value => Some value
              | None => Json.get key spec
              end).
  { intros key.
    rewrite get_spread by exact (phase_success_distinct _ _ _ _ _ _ Ha).
    rewrite get_spread by exact (phase_success_distinct _ _ _ _ _ _ Hs).
    destruct (Json.get key arch); [reflexivity|].
    destruct (Json.get key spec); reflexivity. }
  exists spec, arch, (spread arch (spread spec [])).
  split; [exact Hs|]. split; [exact Ha|]. split; [reflexivity|]. split; [exact Hlaw|].
  assert (Hspec : forall key, In key [lit "title"; lit "summary"; lit "coreMechanics"] ->
                    Json.get key (spread arch (spread spec [])) <> None).
  { intros key Hin. rewrite Hlaw. destruct (Json.get key arch); [discriminate|].
    apply (phase_success_member _ _ _ _ _ _ key Hs Hin).
    destruct Hin as [<-|[<-|[<-|[]]]]; reflexivity. }
  assert (Harch : forall key, In key [lit "architecture"; lit "techStack"] ->
                    Json.get key (spread arch (spread spec [])) <> None).
  { intros key Hin. rewrite Hlaw.
    pose proof (phase_success_member _ _ _ _ _ _ key Ha Hin) as Hm.
    destruct (Json.get key arch); [discriminate|].
    exfalso. apply Hm; [|reflexivity].
    destruct Hin as [<-|[<-|[]]]; reflexivity. }
  repeat constructor;
    first [apply Hspec; simpl; tauto | apply Harch; simpl; tauto].
Qed.

Lemma generateBlueprint_merges_witness :
  exists members,
    fst (generateBlueprint demo_indented
           (answering_blueprint (demo_prefs GameEngine.ThreeJS)
              (object_text [("title"%string, QuoteJSONString (lit "Neon Run"));
                            ("summary"%string, QuoteJSONString (lit "Dodge blocks."));
                            ("coreMechanics"%string, lit "[]")])
              (object_text [("architecture"%string, lit "{}");
                            ("techStack"%string, lit "[]");
                            ("title"%string, QuoteJSONString (lit "Neon Run II"))]))
           (demo_prefs GameEngine.ThreeJS) None empty_world)
    = Normal (JObj members)
    /\ Json.get (lit "title") members = Some (JStr (lit "Neon Run II"))
    /\ Json.get (lit "summary") members = Some (JStr (lit "Dodge blocks.")).
Proof.
  destruct (generateBlueprint_merges demo_indented
              (answering_blueprint (demo_prefs GameEngine.ThreeJS)
                 (object_text [("title"%string, QuoteJSONString (lit "Neon Run"));
                               ("summary"%string, QuoteJSONString (lit "Dodge blocks."));
                               ("coreMechanics"%string, lit "[]")])
                 (object_text [("architecture"%string, lit "{}");
                               ("techStack"%string, lit "[]");
                               ("title"%string, QuoteJSONString (lit "Neon Run II"))]))
              (demo_prefs GameEngine.ThreeJS) None empty_world
              (JObj [(lit "title", JStr (lit "Neon Run II"));
                     (lit "summary", JStr (lit "Dodge blocks."));
                     (lit "coreMechanics", JArr []);
                     (lit "architecture", JObj []);
                     (lit "techStack", JArr [])]))
    as (spec & arch & members & _ & _ & Hv & _ & _).
  - vm_compute. reflexivity.
  - injection Hv as <-. eexists. split; [vm_compute; reflexivity|].
    split; vm_compute; reflexivity.
Defined.

(** X15. A first response without text, with an empty text or with the
    empty object fails the blueprint phase with the message that names
    the three required fields of the spec sheet. *)
Theorem generateBlueprint_empty_response indented ai prefs onStatus w text :
  ai (specRequest prefs) = Resolved text ->
  or_string text (lit "{}") = lit "{}" ->
  generateBlueprint indented ai prefs onStatus w
  = (Throw (new_Error
              (lit "Failed to quantize requirements: Blueprint Spec: Missing required fields: title, summary, coreMechanics")),
     after_status onStatus (lit "Quantizing Requirements...") w).
Proof.
  intros Hai Htext. unfold generateBlueprint.
  unfold bind at 1. rewrite notify_after.
  unfold bind at 1, try_catch, bind at 1, generateContent. rewrite Hai.
  unfold ret at 1. rewrite Htext. reflexivity.
Qed.

Lemma generateBlueprint_empty_response_witness :
  generateBlueprint demo_indented (fun _ => Resolved None) (demo_prefs GameEngine.ThreeJS)
    None empty_world
  = (Throw (new_Error
              (lit "Failed to quantize requirements: Blueprint Spec: Missing required fields: title, summary, coreMechanics")),
     empty_world).
Proof.
  apply (generateBlueprint_empty_response demo_indented (fun _ => Resolved None)
           (demo_prefs GameEngine.ThreeJS) None empty_world None); reflexivity.
Defined.

(** ** Patches of any length *)

Lemma apply_edits_patched items : forall edits html w,
  Forall2 edit_of items edits ->
  exists w', apply_edits items html w = (Normal (patched edits html), w').
Proof.
  induction items as [|item items IH]; intros edits html w HF.
  - apply Forall2_nil_inv_l in HF as ->. exists w. reflexivity.
  - apply Forall2_cons_inv_l in HF as ([search replacement] & rest & Hedit & HF & ->).
    destruct Hedit as (members & -> & Hs & Hr & Hne & Hfree). cbn [fst snd] in *.
    cbn [apply_edits patched]. unfold bind at 1.
    rewrite (apply_edit_strings _ _ _ _ _ Hs Hr Hne).
    destruct (includes html search).
    + rewrite (replace_literal _ _ _ Hfree). apply IH. exact HF.
    + apply IH. exact HF.
Qed.

(** X16. A patch of any number of edits, each with a search text that is
    a non-empty string and a replace text that is a string without dollar
    sign, succeeds, and the html returned is the html of the game after
    the edits taken in the order of the response: each edit replaces the
    first occurrence of its search text in the html left by the edits
    before it, and an edit whose search text is not there is skipped. *)
Theorem refineGame_patch_in_order ai currentGame instruction w game text members items edits
    given :
  objects w !! currentGame = Some game ->
  ai (refineRequest instruction
        (compressCodeForContext (or_string (GeneratedGame.html game) [])))
  = Resolved text ->
  fst (parseAndSanitize (or_string text (lit "{}")) w) = Normal (JObj members) ->
  Json.get (lit "editMode") members = Some (JStr (lit "patch")) ->
  Json.get (lit "edits") members = Some (JArr items) ->
  Json.get (lit "instructions") members = option_map JStr given ->
  Forall2 edit_of items edits ->
  fst (refineGame ai currentGame instruction w)
  = Normal (with_artifact game
              (Some (patched edits (or_string (GeneratedGame.html game) [])))
              (or_option given (GeneratedGame.instructions game))).
Proof.
  intros Hgame Hai Hparse Hmode Hedits Hgiven Hitems.
  destruct (apply_edits_patched items edits (or_string (GeneratedGame.html game) [])
              (patch_logged w) Hitems) as [w' Hrun].
  rewrite (refineGame_patch_path ai currentGame instruction w game text members given
             (patched edits (or_string (GeneratedGame.html game) [])) w' Hgame Hai Hparse).
  - reflexivity.
  - rewrite Hmode. reflexivity.
  - rewrite Hedits. exact Hrun.
  - exact Hgiven.
Qed.

Lemma refineGame_patch_in_order_witness :
  fst (refineGame
         (answering (patch_text [edit_text (lit "v1") (lit "v2");
                                 edit_text (lit "v9") (lit "v8");
                                 edit_text (lit "v2") (lit "v3")]))
         1%positive (lit "bump") (world_of (demo_game (lit "<html>v1</html>"))))
  = Normal (with_artifact (demo_game (lit "<html>v1</html>")) (Some (lit "<html>v3</html>"))
              (Some (lit "Arrows to move."))).
Proof.
  apply (refineGame_patch_in_order _ 1%positive (lit "bump")
           (world_of (demo_game (lit "<html>v1</html>")))
           (demo_game (lit "<html>v1</html>"))
           (Some (patch_text [edit_text (lit "v1") (lit "v2");
                              edit_text (lit "v9") (lit "v8");
                              edit_text (lit "v2") (lit "v3")]))
           [(lit "editMode", JStr (lit "patch"));
            (lit "edits",
             JArr [JObj [(lit "search", JStr (lit "v1")); (lit "replace", JStr (lit "v2"))];
                   JObj [(lit "search", JStr (lit "v9")); (lit "replace", JStr (lit "v8"))];
                   JObj [(lit "search", JStr (lit "v2")); (lit "replace", JStr (lit "v3"))]])]
           [JObj [(lit "search", JStr (lit "v1")); (lit "replace", JStr (lit "v2"))];
            JObj [(lit "search", JStr (lit "v9")); (lit "replace", JStr (lit "v8"))];
            JObj [(lit "search", JStr (lit "v2")); (lit "replace", JStr (lit "v3"))]]
           [(lit "v1", lit "v2"); (lit "v9", lit "v8"); (lit "v2", lit "v3")]
           None).
  - vm_compute. reflexivity.
  - reflexivity.
  - vm_compute. reflexivity.
  - vm_compute. reflexivity.
  - vm_compute. reflexivity.
  - vm_compute. reflexivity.
  - repeat (constructor;
              [eexists; split; [reflexivity|]; split; [reflexivity|];
               split; [reflexivity|]; split; [discriminate|];
               unfold dollar_free; simpl; intuition discriminate|]).
    constructor.
Defined.

(** X21. A response in rewrite mode that gives no full code, or an empty
    one, is not a rewrite: [refineGame] treats it as a patch, applies the
    edits of the response to the html of the game, in order, and
    succeeds. *)
Theorem refineGame_rewrite_without_code ai currentGame instruction w game text members items
    edits given :
  objects w !! currentGame = Some game ->
  ai (refineRequest instruction
        (compressCodeForContext (or_string (GeneratedGame.html game) [])))
  = Resolved text ->
  fst (parseAndSanitize (or_string text (lit "{}")) w) = Normal (JObj members) ->
  Json.get (lit "editMode") members = Some (JStr (lit "rewrite")) ->
  (Json.get (lit "fullCode") members = None
   \/ Json.get (lit "fullCode") members = Some (JStr [])) ->
  Json.get (lit "edits") members = Some (JArr items) ->
  Json.get (lit "instructions") members = option_map JStr given ->
  Forall2 edit_of items edits ->
  fst (refineGame ai currentGame instruction w)
  = Normal (with_artifact game
              (Some (patched edits (or_string (GeneratedGame.html game) [])))
              (or_option given (GeneratedGame.instructions game))).
Proof.
  intros Hgame Hai Hparse Hmode Hcode Hedits Hgiven Hitems.
  destruct (apply_edits_patched items edits (or_string (GeneratedGame.html game) [])
              (patch_logged w) Hitems) as [w' Hrun].
  rewrite (refineGame_patch_path ai currentGame instruction w game text members given
             (patched edits (or_string (GeneratedGame.html game) [])) w' Hgame Hai Hparse).
  - reflexivity.
  - rewrite Hmode. change (is_rewrite (Some (JStr (lit "rewrite")))) with true. cbv iota.
    destruct Hcode as [-> | ->]; reflexivity.
  - rewrite Hedits. exact Hrun.
  - exact Hgiven.
Qed.

Lemma refineGame_rewrite_without_code_witness :
  fst (refineGame
         (answering (object_text
                       [("editMode"%string, QuoteJSONString (lit "rewrite"));
                        ("fullCode"%string, QuoteJSONString []);
                        ("edits"%string, lit "[" ++ edit_text (lit "v1") (lit "v2") ++ lit "]")]))
         1%positive (lit "rebuild") (world_of (demo_game (lit "<html>v1</html>"))))
  = Normal (with_artifact (demo_game (lit "<html>v1</html>")) (Some (lit "<html>v2</html>"))
              (Some (lit "Arrows to move."))).
Proof.
  apply (refineGame_rewrite_without_code _ 1%positive (lit "rebuild")
           (world_of (demo_game (lit "<html>v1</html>")))
           (demo_game (lit "<html>v1</html>"))
           (Some (object_text
                    [("editMode"%string, QuoteJSONString (lit "rewrite"));
                     ("fullCode"%string, QuoteJSONString []);
                     ("edits"%string, lit "[" ++ edit_text (lit "v1") (lit "v2") ++ lit "]")]))
           [(lit "editMode", JStr (lit "rewrite"));
            (lit "fullCode", JStr []);
            (lit "edits",
             JArr [JObj [(lit "search", JStr (lit "v1")); (lit "replace", JStr (lit "v2"))]])]
           [JObj [(lit "search", JStr (lit "v1")); (lit "replace", JStr (lit "v2"))]]
           [(lit "v1", lit "v2")]
           None).
  - vm_compute. reflexivity.
  - reflexivity.
  - vm_compute. reflexivity.
  - vm_compute. reflexivity.
  - right. vm_compute. reflexivity.
  - vm_compute. reflexivity.
  - vm_compute. reflexivity.
  - constructor; [|constructor].
    eexists. split; [reflexivity|]. split; [reflexivity|]. split; [reflexivity|].
    split; [discriminate|]. unfold dollar_free; simpl; intuition discriminate.
Defined.

(** ** The first versions of the two phases, and the later ones *)

Lemma monolith_prototype_run hash stringify ai now l prefs audio onStatus w
    game text members h i :
  objects (after_status onStatus (lit "Synthesizing Shaders & Logic...") w) !! l = Some game ->
  ai (Monolith.prototypeRequest game prefs audio) = Resolved text ->
  fst (parseAndSanitize (or_string text (lit "{}"))
         (after_status onStatus (lit "Synthesizing Shaders & Logic...") w))
  = Normal (JObj members) ->
  Json.get (lit "html") members = option_map JStr h ->
  Json.get (lit "instructions") members = option_map JStr i ->
  Monolith.generatePrototype hash stringify ai now l prefs audio onStatus w
  = (Normal (with_build game h i audio
               (Monolith.build_manifest hash stringify now game prefs (or_string h []))),
     after_status onStatus (lit "Synthesizing Shaders & Logic...") w).
Proof.
  intros Hgame Hai Hparse Hhtml Hinstr.
  apply parseAndSanitize_Normal in Hparse.
  unfold Monolith.generatePrototype, bind at 1. rewrite notify_after.
  unfold bind at 1, deref at 1. rewrite Hgame.
  unfold try_catch, bind at 1, generateContent. rewrite Hai. unfold ret at 1.
  unfold bind at 1. rewrite Hparse.
  unfold bind at 1, deref at 1. rewrite Hgame.
  rewrite !prop_member by reflexivity. rewrite bind_ret, Hhtml.
  destruct h as [[|c h]|]; cbn [option_map truthy_string string_field];
    rewrite !bind_ret; cbn [string_field]; rewrite ?bind_ret, ?Hinstr;
    destruct i as [i|]; reflexivity.
Qed.

(** X17. The prototype phase of [geminiService.ts] validates nothing: on
    a response that is an object, it returns the blueprint with the html
    and the instructions of the response where they are strings and
    without them where the response has none, and the build hash of the
    manifest is the short hash of the html, of the empty string when
    there is none. *)
Theorem monolith_prototype_unvalidated hash stringify ai now blueprint prefs audio onStatus w
    game text members h i :
  objects (after_status onStatus (lit "Synthesizing Shaders & Logic...") w) !! blueprint
  = Some game ->
  ai (Monolith.prototypeRequest game prefs audio) = Resolved text ->
  fst (parseAndSanitize (or_string text (lit "{}"))
         (after_status onStatus (lit "Synthesizing Shaders & Logic...") w))
  = Normal (JObj members) ->
  Json.get (lit "html") members = option_map JStr h ->
  Json.get (lit "instructions") members = option_map JStr i ->
  exists game',
    Monolith.generatePrototype hash stringify ai now blueprint prefs audio onStatus w
    = (Normal game', after_status onStatus (lit "Synthesizing Shaders & Logic...") w)
    /\ GeneratedGame.html game' = h
    /\ GeneratedGame.instructions game' = i
    /\ GeneratedGame.audio game' = audio
    /\ exists manifest,
         GeneratedGame.manifest game' = Some manifest
         /\ ForgeManifest.buildHash manifest = hash (or_string h [])
         /\ ForgeManifest.specHash manifest = hash (stringify game)
         /\ ForgeManifest.version manifest = lit "1.0.0"
         /\ ForgeManifest.parentHash manifest = None.
Proof.
  intros Hgame Hai Hparse Hhtml Hinstr.
  eexists. split.
  - exact (monolith_prototype_run hash stringify ai now blueprint prefs audio onStatus w
             game text members h i Hgame Hai Hparse Hhtml Hinstr).
  - split; [reflexivity|]. split; [reflexivity|]. split; [reflexivity|].
    eexists. split; [reflexivity|]. repeat split.
Qed.

Lemma monolith_prototype_unvalidated_witness :
  exists game',
    Monolith.generatePrototype demo_hash demo_stringify (fun _ => Resolved None)
      1700000000000 1%positive (demo_prefs GameEngine.ThreeJS) None None
      (world_of (demo_game (lit "<html>v0</html>")))
    = (Normal game', world_of (demo_game (lit "<html>v0</html>")))
    /\ GeneratedGame.html game' = None
    /\ GeneratedGame.instructions game' = None
    /\ GeneratedGame.audio game' = None
    /\ exists manifest,
         GeneratedGame.manifest game' = Some manifest
         /\ ForgeManifest.buildHash manifest = demo_hash []
         /\ ForgeManifest.specHash manifest
            = demo_hash (demo_stringify (demo_game (lit "<html>v0</html>")))
         /\ ForgeManifest.version manifest = lit "1.0.0"
         /\ ForgeManifest.parentHash manifest = None.
Proof.
  apply (monolith_prototype_unvalidated demo_hash demo_stringify (fun _ => Resolved None)
           1700000000000 1%positive (demo_prefs GameEngine.ThreeJS) None None
           (world_of (demo_game (lit "<html>v0</html>")))
           (demo_game (lit "<html>v0</html>")) None [] None None); reflexivity.
Defined.

Lemma generatePrototype_Normal_inv hash version stringify ai now l prefs audio onStatus w g :
  fst (generatePrototype hash version stringify ai now l prefs audio onStatus w) = Normal g ->
  exists game text members h i,
    objects (after_status onStatus (lit "Synthesizing Shaders & Logic...") w) !! l = Some game
    /\ ai (prototypeRequest game prefs audio) = Resolved text
    /\ fst (parseAndSanitize (or_string text (lit "{}"))
              (after_status onStatus (lit "Synthesizing Shaders & Logic...") w))
       = Normal (JObj members)
    /\ Json.get (lit "html") members = Some (JStr h)
    /\ Json.get (lit "instructions") members = Some (JStr i)
    /\ g = with_build game (Some h) (Some i) audio
             (build_manifest hash version stringify now game prefs h).
Proof.
  intros H.
  set (w0 := after_status onStatus (lit "Synthesizing Shaders & Logic...") w).
  destruct (objects w0 !! l) as [game|] eqn:Hgame.
  - pose proof (generatePrototype_cases hash version stringify ai now l prefs audio onStatus w
                  game Hgame) as Hc.
    cbv zeta in Hc. fold w0 in Hc.
    destruct (ai (prototypeRequest game prefs audio)) as [cause|text] eqn:Hai;
      [rewrite Hc in H; discriminate|].
    destruct (parseAndSanitize (or_string text (lit "{}")) w0) as [[data|cause|] w1] eqn:Hp;
      [|rewrite Hc in H; discriminate|destruct Hc].
    destruct Hc as [-> Hc].
    destruct (validateStructure data [lit "html"; lit "instructions"]
                (lit "Prototype Builder") w0) as [[data'|cause|] w2];
      [|rewrite Hc in H; discriminate|destruct Hc].
    destruct Hc as (members & html & instructions & -> & Hhtml & Hinstr & Hc).
    destruct html as [| | |h| |]; try (rewrite Hc in H; discriminate).
    destruct instructions as [| | |i| |]; try (rewrite Hc in H; discriminate).
    rewrite Hc in H. injection H as <-. exists game, text, members, h, i.
    rewrite Hp. repeat split; assumption.
  - exfalso. unfold generatePrototype, bind at 1 in H. rewrite notify_after in H.
    fold w0 in H. unfold try_catch, bind at 1, deref at 1 in H. rewrite Hgame in H.
    discriminate.
Qed.

(** X18. With [1.0.0] as the version of the engine, every game the
    prototype generator returns is the game the prototype phase of
    [geminiService.ts] returns on the same response, from the same
    blueprint, preferences and audio: the generator adds the validation
    of the response and changes nothing of what is built. *)
Theorem monolith_prototype_agrees hash stringify ai ai' now blueprint prefs audio onStatus w
    built :
  (forall game,
     ai' (Monolith.prototypeRequest game prefs audio)
     = ai (prototypeRequest game prefs audio)) ->
  fst (generatePrototype hash (lit "1.0.0") stringify ai now blueprint prefs audio onStatus w)
  = Normal built ->
  fst (Monolith.generatePrototype hash stringify ai' now blueprint prefs audio onStatus w)
  = Normal built.
Proof.
  intros Hsame H.
  apply generatePrototype_Normal_inv in H
    as (game & text & members & h & i & Hgame & Hai & Hparse & Hhtml & Hinstr & ->).
  rewrite <- Hsame in Hai.
  rewrite (monolith_prototype_run hash stringify ai' now blueprint prefs audio onStatus w
             game text members (Some h) (Some i) Hgame Hai Hparse Hhtml Hinstr).
  cbn [fst]. destruct h; reflexivity.
Qed.

Lemma monolith_prototype_agrees_witness :
  fst (Monolith.generatePrototype demo_hash demo_stringify
         (answering (prototype_text (lit "<html>v1</html>") (lit "Arrows to move.")))
         1700000000000 1%positive (demo_prefs GameEngine.ThreeJS) None None
         (world_of (demo_game (lit "<html>v0</html>"))))
  = Normal (with_build (demo_game (lit "<html>v0</html>")) (Some (lit "<html>v1</html>"))
              (Some (lit "Arrows to move.")) None
              (build_manifest demo_hash (lit "1.0.0") demo_stringify 1700000000000
                 (demo_game (lit "<html>v0</html>")) (demo_prefs GameEngine.ThreeJS)
                 (lit "<html>v1</html>"))).
Proof.
  apply (monolith_prototype_agrees demo_hash demo_stringify
           (answering (prototype_text (lit "<html>v1</html>") (lit "Arrows to move.")))
           (answering (prototype_text (lit "<html>v1</html>") (lit "Arrows to move.")))).
  - reflexivity.
  - vm_compute. reflexivity.
Defined.

Lemma monolith_blueprint_run indented ai prefs onStatus w text1 spec text2 arch :
  ai (Monolith.specRequest prefs) = Resolved text1 ->
  fst (parseAndSanitize (or_string text1 (lit "{}"))
         (after_status onStatus (lit "Quantizing Requirements...") w))
  = Normal spec ->
  ai (Monolith.architectureRequest indented spec prefs) = Resolved text2 ->
  fst (parseAndSanitize (or_string text2 (lit "{}"))
         (after_status onStatus (lit "Architecting System...")
            (after_status onStatus (lit "Quantizing Requirements...") w)))
  = Normal arch ->
  Monolith.generateBlueprint indented ai prefs onStatus w
  = (Normal (JObj (spread (own_members arch) (spread (own_members spec) []))),
     after_status onStatus (lit "Architecting System...")
       (after_status onStatus (lit "Quantizing Requirements...") w)).
Proof.
  intros Hai1 Hp1 Hai2 Hp2.
  apply parseAndSanitize_Normal in Hp1, Hp2.
  unfold Monolith.generateBlueprint, bind at 1. rewrite notify_after.
  unfold bind at 1, try_catch at 1, bind at 1, generateContent at 1. rewrite Hai1.
  unfold ret at 1. rewrite Hp1.
  unfold bind at 1. rewrite notify_after.
  unfold bind at 1, try_catch at 1, bind at 1, generateContent at 1. rewrite Hai2.
  unfold ret at 1. rewrite Hp2. reflexivity.
Qed.

(** X19. The blueprint phase of [geminiService.ts] validates nothing:
    whenever the provider answers both requests and the sanitizer reads a
    value in each answer, whatever the values are, it returns the object
    that holds what a spread copies of the first value and, written over
    it, of the second. Two answers without text give the empty
    object. *)
Theorem monolith_blueprint_unvalidated indented ai prefs onStatus w text1 spec text2 arch :
  ai (Monolith.specRequest prefs) = Resolved text1 ->
  fst (parseAndSanitize (or_string text1 (lit "{}"))
         (after_status onStatus (lit "Quantizing Requirements...") w))
  = Normal spec ->
  ai (Monolith.architectureRequest indented spec prefs) = Resolved text2 ->
  fst (parseAndSanitize (or_string text2 (lit "{}"))
         (after_status onStatus (lit "Architecting System...")
            (after_status onStatus (lit "Quantizing Requirements...") w)))
  = Normal arch ->
  Monolith.generateBlueprint indented ai prefs onStatus w
  = (Normal (JObj (spread (own_members arch) (spread (own_members spec) []))),
     after_status onStatus (lit "Architecting System...")
       (after_status onStatus (lit "Quantizing Requirements...") w))
  /\ (text1 = None -> text2 = None ->
      fst (Monolith.generateBlueprint indented ai prefs onStatus w) = Normal (JObj [])).
Proof.
  intros Hai1 Hp1 Hai2 Hp2.
  pose proof (monolith_blueprint_run indented ai prefs onStatus w text1 spec text2 arch
                Hai1 Hp1 Hai2 Hp2) as Hrun.
  split; [exact Hrun|].
  intros -> ->. rewrite Hrun. cbn [fst].
  vm_compute in Hp1. injection Hp1 as <-.
  vm_compute in Hp2. injection Hp2 as <-. reflexivity.
Qed.

Lemma monolith_blueprint_unvalidated_witness :
  fst (Monolith.generateBlueprint demo_indented (fun _ => Resolved None)
         (demo_prefs GameEngine.ThreeJS) None empty_world)
  = Normal (JObj []).
Proof.
  apply (monolith_blueprint_unvalidated demo_indented (fun _ => Resolved None)
           (demo_prefs GameEngine.ThreeJS) None empty_world None (JObj []) None (JObj []));
    reflexivity.
Defined.

(** X20. Every blueprint the later [generateBlueprint] returns is the
    blueprint the blueprint phase of [geminiService.ts] returns on the
    same two answers: the later version adds the validation of the two
    responses and changes nothing of what is returned. *)
Theorem monolith_blueprint_agrees indented ai ai' prefs onStatus w blueprint :
  ai' (Monolith.specRequest prefs) = ai (specRequest prefs) ->
  (forall spec,
     ai' (Monolith.architectureRequest indented spec prefs)
     = ai (architectureRequest indented spec prefs)) ->
  fst (generateBlueprint indented ai prefs onStatus w) = Normal blueprint ->
  fst (Monolith.generateBlueprint indented ai' prefs onStatus w) = Normal blueprint.
Proof.
  intros Hsame1 Hsame2 H.
  destruct (generateBlueprint_ends indented ai prefs onStatus w)
    as [(spec & arch & Hs & Ha & Hrun)|[(cause & w' & _ & Hrun)|(spec & cause & w' & _ & _ & Hrun)]];
    cbv zeta in Hrun; rewrite Hrun in H; try discriminate.
  injection H as <-.
  destruct Hs as (text1 & Hai1 & Hp1 & _). destruct Ha as (text2 & Hai2 & Hp2 & _).
  rewrite <- Hsame1 in Hai1. rewrite <- Hsame2 in Hai2.
  rewrite (monolith_blueprint_run indented ai' prefs onStatus w text1 (JObj spec) text2
             (JObj arch) Hai1 Hp1 Hai2 Hp2).
  reflexivity.
Qed.

Lemma monolith_blueprint_agrees_witness :
  fst (Monolith.generateBlueprint demo_indented
         (fun request =>
            if JsString.eqb (contents request)
                 (Monolith.quantizationPrompt (demo_prefs GameEngine.ThreeJS))
            then Resolved (Some (object_text
                                   [("title"%string, QuoteJSONString (lit "Neon Run"));
                                    ("summary"%string, QuoteJSONString (lit "Dodge blocks."));
                                    ("coreMechanics"%string, lit "[]")]))
            else Resolved (Some (object_text
                                   [("architecture"%string, lit "{}");
                                    ("techStack"%string, lit "[]")])))
         (demo_prefs GameEngine.ThreeJS) None empty_world)
  = Normal (JObj [(lit "title", JStr (lit "Neon Run"));
                  (lit "summary", JStr (lit "Dodge blocks."));
                  (lit "coreMechanics", JArr []);
                  (lit "architecture", JObj []);
                  (lit "techStack", JArr [])]).
Proof.
  apply (monolith_blueprint_agrees demo_indented
           (answering_blueprint (demo_prefs GameEngine.ThreeJS)
              (object_text [("title"%string, QuoteJSONString (lit "Neon Run"));
                            ("summary"%string, QuoteJSONString (lit "Dodge blocks."));
                            ("coreMechanics"%string, lit "[]")])
              (object_text [("architecture"%string, lit "{}");
                            ("techStack"%string, lit "[]")]))).
  - vm_compute. reflexivity.
  - intros spec. vm_compute. reflexivity.
  - vm_compute. reflexivity.
Defined.
